(** * QuantumSentinel: the earthquake magnitude classifier

    A shallow embedding of [python_models/enhanced_lstm.py]: the labelling
    and windowing transform ([prepare_sequences]), the class-weight
    computation and the recall-gated epoch loop of [train_model], the
    predictor ([predict_magnitude]) and the command dispatch ([__main__]).

    Number types.  Magnitudes, scaled magnitudes, class weights and
    validation metrics are rationals ([Q]): every operation the code
    performs on them is a comparison or a field operation, and the
    embedding reads them in exact arithmetic.  The predictor applies
    [torch.softmax], so logits and probabilities are reals ([R]).
    Floating-point rounding, NaN and infinite readings are outside the
    embedding.

    Library calls ([pandas.cut], [numpy.bincount], numpy broadcasting and
    reshape, [MinMaxScaler], [torch.tensor], [nn.LSTM]'s shape checks) are
    embedded by what they do on the arguments this program passes,
    failures included. *)

From Stdlib Require Import List ZArith QArith Qminmax Reals Psatz.
From Stdlib Require Import String Bool Arith Permutation Sorted.
Import ListNotations.

(** ** Python: exceptions and results *)

Module Py.

Inductive exn_class :=
| ValueError | TypeError | RuntimeError | IndexError | KeyError
| FileNotFoundError | JSONDecodeError | UnboundLocalError.

Record exn := Exn { exn_cls : exn_class; exn_msg : string }.

(** [str(e)] *)
Definition str (e : exn) : string := exn_msg e.

(** What evaluating a piece of Python ends in: a value, or an exception on
    its way up the call stack. *)
Inductive outcome (A : Type) :=
| Returned (a : A)
| Raised (e : exn).
Arguments Returned {A} a.
Arguments Raised {A} e.

Definition bind {A B : Type} (m : outcome A) (k : A -> outcome B) : outcome B :=
  match m with
  | Returned a => k a
  | Raised e => Raised e
  end.

Definition raise {A : Type} (c : exn_class) (msg : string) : outcome A :=
  Raised (Exn c msg).

Definition raises {A : Type} (m : outcome A) : bool :=
  match m with Returned _ => false | Raised _ => true end.

Fixpoint mapM {A B : Type} (f : A -> outcome B) (l : list A) : outcome (list B) :=
  match l with
  | [] => Returned []
  | a :: l' =>
      bind (f a) (fun b => bind (mapM f l') (fun bs => Returned (b :: bs)))
  end.

(** [l[i]] for a non-negative index *)
Definition index {A : Type} (l : list A) (i : nat) : outcome A :=
  match nth_error l i with
  | Some a => Returned a
  | None => raise IndexError "index out of range"
  end.

(** [l[i:j]] for non-negative bounds: slices clamp, they never raise *)
Definition slice {A : Type} (l : list A) (i j : nat) : list A :=
  firstn (j - i) (skipn i l).

End Py.
Import Py.

Declare Scope py_scope.
Delimit Scope py_scope with py.
Notation "x <- m ;; k" := (bind m (fun x => k))
  (at level 61, m at next level, right associativity) : py_scope.
Open Scope py_scope.

(** ** Rational comparisons *)

Definition Qltb (x y : Q) : bool := negb (Qle_bool y x).

(** ** pandas: [cut] and [sort_values] *)

Module Pandas.

(** A bin edge: a number or [np.inf]. *)
Inductive edge :=
| Fin (q : Q)
| PosInf.

(** [b < x] for an edge [b] and a finite [x] *)
Definition edge_ltb (b : edge) (x : Q) : bool :=
  match b with
  | Fin q => Qltb q x
  | PosInf => false
  end.

Definition edge_eqb (b : edge) (x : Q) : bool :=
  match b with
  | Fin q => Qeq_bool q x
  | PosInf => false
  end.

(** [bins.searchsorted(x, side="left")] on sorted [bins]: the first index
    whose edge is not below [x]. *)
Fixpoint searchsorted_left (bins : list edge) (x : Q) : nat :=
  match bins with
  | [] => 0
  | b :: rest => if edge_ltb b x then S (searchsorted_left rest x) else 0
  end.

(** The interval index [pd.cut(..., right=True)] computes for one value
    ([right] is not passed by the program, so it has its default):
    [ids = bins.searchsorted(x, side="left")], and with [include_lowest]
    a value equal to the first edge is put into the first interval. *)
Definition cut_ids (bins : list edge) (include_lowest : bool) (x : Q) : nat :=
  let ids := searchsorted_left bins x in
  match bins with
  | b0 :: _ => if include_lowest && edge_eqb b0 x then 1%nat else ids
  | [] => ids
  end.

(** [pd.cut(...).cat.codes] for one value: the position of its interval,
    [-1] for a value no interval holds ([ids == 0] or [ids == len(bins)]). *)
Definition cut_code (bins : list edge) (include_lowest : bool) (x : Q) : Z :=
  let ids := cut_ids bins include_lowest x in
  if (ids =? 0)%nat || (ids =? List.length bins)%nat then (-1)%Z
  else (Z.of_nat ids - 1)%Z.

(** Insertion of a row into rows sorted by [key], behind the rows with the
    same key. *)
Fixpoint insert_by {A : Type} (key : A -> Z) (a : A) (l : list A) : list A :=
  match l with
  | [] => [a]
  | b :: l' => if (key b <=? key a)%Z then b :: insert_by key a l'
               else a :: b :: l'
  end.

(** [df.sort_values(col)]: the rows in ascending order of the column.
    Rows with equal keys keep their order here; pandas leaves their order
    open, and the generator's timestamps are distinct. *)
Definition sort_values {A : Type} (key : A -> Z) (df : list A) : list A :=
  fold_left (fun acc a => insert_by key a acc) df [].

End Pandas.

(** ** The labelling transform of [prepare_sequences] *)

(** [bins = [0, 4, 5, 6, 7, np.inf]] *)
Definition bins : list Pandas.edge :=
  [Pandas.Fin 0; Pandas.Fin 4; Pandas.Fin 5; Pandas.Fin 6; Pandas.Fin 7;
   Pandas.PosInf].

(** [labels = [0, 1, 2, 3, 4]]: minor, light, moderate, strong, major.  The
    labels are the positions of their intervals, so the category code of a
    value is its label. *)
Definition labels : list Z := [0; 1; 2; 3; 4]%Z.

(** [pd.cut(magnitude, bins=bins, labels=labels, include_lowest=True).cat.codes]
    for one magnitude. *)
Definition mag_bin (m : Q) : Z := Pandas.cut_code bins true m.

(** ** scikit-learn: [MinMaxScaler] *)

Module Sklearn.

Record MinMaxScaler := {
  data_min_ : Q;
  data_max_ : Q;
  scale_ : Q;
  min_ : Q
}.

(** [MinMaxScaler().fit(column)] with the default feature range (0, 1).
    Input validation requires at least one sample; a constant column has
    its zero range replaced by 1 (sklearn compares the range with a few
    machine epsilons, exact arithmetic with 0). *)
Definition fit (column : list Q) : outcome MinMaxScaler :=
  match column with
  | [] =>
      raise ValueError
        "Found array with 0 sample(s) (shape=(0, 1)) while a minimum of 1 is required by MinMaxScaler."
  | x :: rest =>
      let lo := fold_left Qmin rest x in
      let hi := fold_left Qmax rest x in
      let data_range := hi - lo in
      let sc := 1 / (if Qeq_bool data_range 0 then 1 else data_range) in
      Returned {| data_min_ := lo; data_max_ := hi;
                  scale_ := sc; min_ := 0 - lo * sc |}
  end.

(** [X *= scale_; X += min_] *)
Definition transform (s : MinMaxScaler) (x : Q) : Q := x * scale_ s + min_ s.

Definition fit_transform (column : list Q) : outcome (list Q * MinMaxScaler) :=
  s <- fit column ;;
  Returned (map (transform s) column, s).

End Sklearn.

(** ** numpy: [bincount], broadcasting, [reshape] *)

Module Numpy.

Definition amax (y : list Z) : Z := fold_left Z.max y 0%Z.

(** [np.bincount(y)]: one count per value from 0 to [max(y)]; an empty
    input gives an empty array, a negative entry is refused. *)
Definition bincount (y : list Z) : outcome (list nat) :=
  if existsb (fun v => (v <? 0)%Z) y then
    raise ValueError "'list' argument must have no negative elements"
  else
    match y with
    | [] => Returned []
    | _ :: _ =>
        Returned (map (fun k => count_occ Z.eq_dec y (Z.of_nat k))
                      (seq 0 (S (Z.to_nat (amax y)))))
    end.

Fixpoint zip_with {A B C : Type} (f : A -> B -> C) (a : list A) (b : list B)
  : list C :=
  match a, b with
  | x :: a', y :: b' => f x y :: zip_with f a' b'
  | _, _ => []
  end.

(** The exception a failed broadcast raises; numpy's message goes on to
    name the two shapes. *)
Definition broadcast_error : exn :=
  Exn ValueError "operands could not be broadcast together".

(** [a * b] for one-dimensional arrays: equal lengths multiply entry by
    entry, a length-1 operand is stretched over the other, anything else
    cannot be broadcast. *)
Definition multiply (a b : list Q) : outcome (list Q) :=
  if (List.length a =? List.length b)%nat then Returned (zip_with Qmult a b)
  else
    match a, b with
    | [x], _ => Returned (map (fun y => x * y) b)
    | _, [y] => Returned (map (fun x => x * y) a)
    | _, _ => Raised broadcast_error
    end.

Definition sum (a : list Q) : Q := fold_left Qplus a 0.

(** [np.array(X).reshape(-1, seq_length, 1)] for a list [X] of windows of
    [seq_length] entries each.  The unknown dimension is the size divided
    by the product of the known ones, and numpy refuses to solve for it
    when that product is 0.  Otherwise the windows are kept as they are;
    the trailing axis of length 1 is not represented. *)
Definition reshape_windows (X : list (list Q)) (seq_length : nat)
  : outcome (list (list Q)) :=
  if (seq_length =? 0)%nat then
    raise ValueError "cannot reshape array of size 0 into shape (0,1)"
  else Returned X.

End Numpy.

(** ** The data source *)

Record reading := {
  magnitude : Q;
  time : Z;
  lat : Q;
  lon : Q
}.

Definition DataFrame := list reading.

(** [load_earthquake_data]: the table the generator supplied, without its
    non-positive magnitudes; [None] when building it raised. *)
Definition load_earthquake_data (source : outcome DataFrame) : option DataFrame :=
  match source with
  | Returned df => Some (filter (fun r => Qltb 0 (magnitude r)) df)
  | Raised _ => None
  end.

(** ** [prepare_sequences] *)

Definition prepare_sequences (df : DataFrame) (seq_length : nat)
  : outcome (list (list Q) * list Z * Sklearn.MinMaxScaler) :=
  let df_sorted := Pandas.sort_values time df in
  fitted <- Sklearn.fit_transform (map magnitude df_sorted) ;;
  let '(mag_scaled, scaler) := fitted in
  let mag_bins := map (fun r => mag_bin (magnitude r)) df_sorted in
  let steps := seq 0 (List.length mag_scaled - seq_length) in
  let X := map (fun i => slice mag_scaled i (i + seq_length)) steps in
  y <- mapM (fun i => index mag_bins (i + seq_length)) steps ;;
  X3 <- Numpy.reshape_windows X seq_length ;;
  Returned (X3, y, scaler).

(** ** Class weights of [train_model] *)

(** [np.array([1.0, 1.2, 1.5, 2.0, 3.0])] *)
Definition amplification : list Q := [1; 12 # 10; 15 # 10; 2; 3].

(** [1e-6] *)
Definition epsilon : Q := 1 # 1000000.

(** Lines 120-124: counts, inverse counts, amplification, normalisation.
    The result is what [torch.tensor(..., dtype=torch.float32)] receives. *)
Definition class_weights (y_train : list Z) : outcome (list Q) :=
  class_counts <- Numpy.bincount y_train ;;
  let inverse :=
    map (fun c => 1 / (inject_Z (Z.of_nat c) + epsilon)) class_counts in
  amplified <- Numpy.multiply inverse amplification ;;
  Returned (map (fun w => w / Numpy.sum amplified) amplified).

(** How many training labels fall into bin [b], and the inverse frequency
    the code derives from that count. *)
Definition label_count (y : list Z) (b : Z) : nat := count_occ Z.eq_dec y b.

Definition inverse_frequency (y : list Z) (b : Z) : Q :=
  1 / (inject_Z (Z.of_nat (label_count y b)) + epsilon).

(** ** torch: tensors, the classifier, softmax and argmax *)

Module Torch.

(** A value as [json.loads] builds it, as far as [torch.tensor] tells
    values apart: a number, a list, or anything else. *)
#[warnings="-register-all"]
Inductive pyvalue :=
| PyNum (q : Q)
| PyList (items : list pyvalue)
| PyStr (s : string).

(** A tensor: its shape and its entries in row-major order. *)
Record Tensor := {
  shape : list nat;
  data : list R
}.

Definition shape_eqb (s1 s2 : list nat) : bool :=
  if list_eq_dec Nat.eq_dec s1 s2 then true else false.

(** [torch.tensor(v, dtype=torch.float32)]: a number is a 0-dimensional
    tensor; a list stacks the tensors of its items, which must agree in
    shape; the empty list has shape (0,). *)
Fixpoint tensor (v : pyvalue) : outcome Tensor :=
  match v with
  | PyNum q => Returned {| shape := []; data := [Q2R q] |}
  | PyStr _ => raise TypeError "new(): invalid data type"
  | PyList items =>
      ts <- mapM tensor items ;;
      match ts with
      | [] => Returned {| shape := [0%nat]; data := [] |}
      | t :: rest =>
          if forallb (fun t' => shape_eqb (shape t') (shape t)) rest then
            Returned {| shape := List.length ts :: shape t;
                        data := List.concat (map data ts) |}
          else raise ValueError "expected sequence of equal length"
      end
  end.

Definition unsqueeze0 (t : Tensor) : Tensor :=
  {| shape := 1%nat :: shape t; data := data t |}.

(** The recurrent encoder [nn.LSTM(1, 128, 2, batch_first=True,
    dropout=0.2)].  Its gate arithmetic is torch's; what the program
    relies on is that it consumes a window left to right, each step
    folding one reading into the state of the previous step, starting
    from the zero state [(h0, c0)]. *)
Record LSTM := {
  lstm_weights : Type;
  lstm_state : Type;
  lstm_zeros : lstm_state;
  lstm_cell : lstm_weights -> lstm_state -> R -> lstm_state;
  (** the top layer's hidden vector, one row of [out[:, t, :]] *)
  lstm_hidden : lstm_state -> list R
}.

(** [nn.Linear]: [weight] has one row per output. *)
Record Linear := {
  weight : list (list R);
  bias : list R
}.

Record StateDict (E : LSTM) := {
  sd_lstm : lstm_weights E;
  sd_fc1 : Linear;
  sd_fc2 : Linear;
  sd_fc3 : Linear
}.
Arguments sd_lstm {E} _.
Arguments sd_fc1 {E} _.
Arguments sd_fc2 {E} _.
Arguments sd_fc3 {E} _.

Definition hidden_size : nat := 128.
Definition num_classes : nat := 5.

Definition linear_shape_ok (l : Linear) (out_features in_features : nat) : bool :=
  (List.length (weight l) =? out_features)%nat
  && forallb (fun row => (List.length row =? in_features)%nat) (weight l)
  && (List.length (bias l) =? out_features)%nat.

(** [torch.load(path)]: the stored parameters, if the file is there. *)
Definition load {E : LSTM} (file : option (StateDict E)) : outcome (StateDict E) :=
  match file with
  | Some sd => Returned sd
  | None => raise FileNotFoundError "No such file or directory"
  end.

(** [model.load_state_dict(sd)] for a fresh [EarthquakeLSTM()]: every
    parameter must have the shape the constructor gave it
    ([fc1]: 64 x 128, [fc2]: 32 x 64, [fc3]: 5 x 32). *)
Definition load_state_dict {E : LSTM} (sd : StateDict E) : outcome (StateDict E) :=
  if linear_shape_ok (sd_fc1 sd) 64 hidden_size
     && linear_shape_ok (sd_fc2 sd) 32 64
     && linear_shape_ok (sd_fc3 sd) num_classes 32
  then Returned sd
  else raise RuntimeError "size mismatch".

Definition dot (u v : list R) : R :=
  fold_right Rplus 0%R (Numpy.zip_with Rmult u v).

Definition linear (l : Linear) (x : list R) : list R :=
  Numpy.zip_with (fun row b => (dot row x + b)%R) (weight l) (bias l).

Definition relu (x : list R) : list R := map (Rmax 0) x.

(** [n] consecutive chunks of [len] entries *)
Fixpoint chunks {A : Type} (len n : nat) (l : list A) : list (list A) :=
  match n with
  | O => []
  | S n' => firstn len l :: chunks len n' (skipn len l)
  end.

(** [out, _ = self.lstm(x, (h0, c0)); out[:, -1, :]] with [h0], [c0] of
    shape (num_layers, x.size(0), hidden_size).  The input must be
    3-dimensional (batch, time, feature) because the initial state is, its
    last axis must have the input size 1, and the sequence must not be
    empty. *)
Definition lstm_last (E : LSTM) (w : lstm_weights E) (x : Tensor)
  : outcome (list (list R)) :=
  match shape x with
  | [b; t; f] =>
      if negb (f =? 1)%nat then
        raise RuntimeError "input.size(-1) must be equal to input_size"
      else if (t =? 0)%nat then
        raise RuntimeError "Expected sequence length to be larger than 0 in RNN"
      else
        Returned
          (map (fun window =>
                  lstm_hidden E (fold_left (lstm_cell E w) window (lstm_zeros E)))
               (chunks t b (data x)))
  | [_; _] =>
      raise RuntimeError
        "For unbatched 2-D input, hx and cx should also be 2-D but got (3-D, 3-D) tensors"
  | _ => raise ValueError "LSTM: Expected input to be 2D or 3D"
  end.

(** [EarthquakeLSTM.forward] in evaluation mode, where dropout is the
    identity: one row of logits per batch entry. *)
Definition forward {E : LSTM} (sd : StateDict E) (x : Tensor)
  : outcome (list (list R)) :=
  out <- lstm_last E (sd_lstm sd) x ;;
  Returned
    (map (fun h =>
            let out := linear (sd_fc1 sd) h in
            let out := relu out in
            let out := linear (sd_fc2 sd) out in
            let out := relu out in
            linear (sd_fc3 sd) out)
         out).

Definition sum_exp (logits : list R) : R :=
  fold_right Rplus 0%R (map exp logits).

(** [torch.softmax] along one row *)
Definition softmax (logits : list R) : list R :=
  map (fun x => (exp x / sum_exp logits)%R) logits.

(** The first index holding the largest entry, scanning [l] from index
    [i] with [best] at [best_i] the largest entry seen so far. *)
Fixpoint argmax_from (best : R) (best_i i : nat) (l : list R) : nat :=
  match l with
  | [] => best_i
  | x :: l' =>
      if Rlt_dec best x then argmax_from x i (S i) l'
      else argmax_from best best_i (S i) l'
  end.

(** [row.argmax()] *)
Definition argmax (row : list R) : outcome nat :=
  match row with
  | [] => raise IndexError "argmax(): Expected reduction dim to have non-zero size"
  | x :: l => Returned (argmax_from x 0 1 l)
  end.

(** [t.max()] over all entries *)
Definition max (entries : list R) : outcome R :=
  match entries with
  | [] => raise RuntimeError "max(): Expected reduction dim to have non-zero size"
  | x :: l => Returned (fold_left Rmax l x)
  end.

(** [t.item()]: the tensor must hold exactly one entry. *)
Definition item {A : Type} (entries : list A) : outcome A :=
  match entries with
  | [a] => Returned a
  | _ => raise RuntimeError "a Tensor with several elements cannot be converted to Scalar"
  end.

End Torch.

(** The sum of the entries of a row. *)
Definition total (row : list R) : R := fold_right Rplus 0%R row.

Import Torch.

(** ** The epoch loop of [train_model] *)

Record Metrics := {
  accuracy : Q;
  precision : Q;
  recall : Q;
  f1_score : Q
}.

(** [QuakeDataset]: the windows and their labels *)
Record QuakeDataset := {
  ds_X : list (list Q);
  ds_y : list Z
}.

(** What the loop asks of torch: the classifier together with its loss,
    optimizer, scheduler and random state.  The numerics are torch's; the
    loop's control flow, embedded below, does not depend on them. *)
Record Trainer (E : LSTM) := {
  trainer_state : Type;
  (** lines 117-128 and 131: a fresh [EarthquakeLSTM()], the weighted
      loss, Adam, the plateau scheduler *)
  trainer_init : list Q -> trainer_state;
  (** lines 137-144: one pass over the shuffled training batches, and the
      accumulated [epoch_loss] *)
  train_batches : QuakeDataset -> trainer_state -> trainer_state * Q;
  (** lines 147-160: the validation pass and the metrics of its
      predictions *)
  validate : QuakeDataset -> trainer_state -> Metrics;
  (** line 162: [scheduler.step(epoch_loss)] *)
  scheduler_step : Q -> trainer_state -> trainer_state;
  (** [model.state_dict()] *)
  state_dict : trainer_state -> StateDict E
}.
Arguments trainer_state {E} _.
Arguments trainer_init {E} _ _.
Arguments train_batches {E} _ _ _.
Arguments validate {E} _ _ _.
Arguments scheduler_step {E} _ _ _.
Arguments state_dict {E} _ _.

(** The variables the [while] loop reads and writes, the checkpoint file,
    and the trace of [torch.save] calls: the number of the epoch each call
    was made in, counting epochs from 1. *)
Record LoopState {E : LSTM} (T : Trainer E) := {
  st_trainer : trainer_state T;
  st_recall : Q;
  st_epoch : nat;
  st_best_recall : Q;
  st_metrics : option Metrics;
  st_checkpoint : option (StateDict E);
  st_saves : list nat
}.
Arguments st_trainer {E T} _.
Arguments st_recall {E T} _.
Arguments st_epoch {E T} _.
Arguments st_best_recall {E T} _.
Arguments st_metrics {E T} _.
Arguments st_checkpoint {E T} _.
Arguments st_saves {E T} _.

(** Lines 132-134: [recall = 0.0], [epoch = 0], [best_recall = 0.0]. *)
Definition loop_init {E : LSTM} (T : Trainer E) (weights : list Q)
  (file : option (StateDict E)) : LoopState T :=
  {| st_trainer := trainer_init T weights;
     st_recall := 0;
     st_epoch := 0;
     st_best_recall := 0;
     st_metrics := None;
     st_checkpoint := file;
     st_saves := [] |}.

(** Line 136: [recall < 0.95 and epoch < 100]. *)
Definition loop_cond {E : LSTM} {T : Trainer E} (st : LoopState T) : bool :=
  Qltb (st_recall st) (95 # 100) && (st_epoch st <? 100)%nat.

(** Lines 137-170: the body of the loop. *)
Definition epoch_step {E : LSTM} {T : Trainer E} (train val : QuakeDataset)
  (st : LoopState T) : LoopState T :=
  let '(trained, epoch_loss) := train_batches T train (st_trainer st) in
  let m := validate T val trained in
  let stepped := scheduler_step T epoch_loss trained in
  let improved := Qltb (st_best_recall st) (recall m) in
  {| st_trainer := stepped;
     st_recall := recall m;
     st_epoch := S (st_epoch st);
     st_best_recall := if improved then recall m else st_best_recall st;
     st_metrics := Some m;
     st_checkpoint :=
       if improved then Some (state_dict T stepped) else st_checkpoint st;
     st_saves :=
       if improved then st_saves st ++ [S (st_epoch st)] else st_saves st |}.

(** The [while] loop, unrolled at most [fuel] times. *)
Fixpoint train_loop {E : LSTM} {T : Trainer E} (fuel : nat)
  (train val : QuakeDataset) (st : LoopState T) : LoopState T :=
  match fuel with
  | O => st
  | S fuel' =>
      if loop_cond st then train_loop fuel' train val (epoch_step train val st)
      else st
  end.

(** The cap of the loop: no run makes more than 100 iterations, so 100
    unrollings are the whole loop ([train_loop_exits]). *)
Definition max_epochs : nat := 100.

(** The loop variables after [k] iterations of the body, and the
    validation recall the [k]-th epoch measured. *)
Definition after_epochs {E : LSTM} {T : Trainer E} (train val : QuakeDataset)
  (st : LoopState T) (k : nat) : LoopState T :=
  Nat.iter k (epoch_step train val) st.

Definition recall_at {E : LSTM} {T : Trainer E} (train val : QuakeDataset)
  (st : LoopState T) (k : nat) : Q :=
  st_recall (after_epochs train val st k).

(** The best recall observed before epoch [k]: the largest of 0 and the
    recalls of epochs 1 to [k - 1]. *)
Definition best_prior {E : LSTM} {T : Trainer E} (train val : QuakeDataset)
  (st : LoopState T) (k : nat) : Q :=
  fold_left Qmax (map (recall_at train val st) (seq 1 (k - 1))) 0.

(** ** [train_model] *)

(** The default of [prepare_sequences]'s [seq_length], which is what
    [train_model] trains with. *)
Definition seq_length : nat := 10.

Inductive TrainResult :=
| TrainError (error : string)
| TrainCompleted (final_epoch : nat) (final_metrics : Metrics).

(** [DataLoader(train_dataset, batch_size=64, shuffle=True)]: shuffling
    builds a [RandomSampler], which refuses a dataset without samples.
    (Were it to accept one, the class weights of an empty split would
    raise in its place: no count can be broadcast against five factors.) *)
Definition shuffled_loader (d : QuakeDataset) : outcome QuakeDataset :=
  if (List.length (ds_X d) =? 0)%nat then
    raise ValueError
      "num_samples should be a positive integer value, but got num_samples=0"
  else Returned d.

(** [train_model()], given what the data generator produced and the
    content of the checkpoint file.  It returns its result and the
    checkpoint file as it leaves it.  [int(len(X) * 0.8)] is
    [len(X) * 4 / 5] rounded down.  The metrics it returns are those of
    the last epoch; they are unbound if the loop never ran. *)
Definition train_model {E : LSTM} (T : Trainer E) (source : outcome DataFrame)
  (file : option (StateDict E))
  : outcome (TrainResult * option (StateDict E)) :=
  match load_earthquake_data source with
  | None => Returned (TrainError "Failed to load data", file)
  | Some df =>
      prepared <- prepare_sequences df seq_length ;;
      let '(X, y, scaler) := prepared in
      let split_idx := (List.length X * 4 / 5)%nat in
      let X_train := firstn split_idx X in
      let X_val := skipn split_idx X in
      let y_train := firstn split_idx y in
      let y_val := skipn split_idx y in
      let train_dataset := {| ds_X := X_train; ds_y := y_train |} in
      let val_dataset := {| ds_X := X_val; ds_y := y_val |} in
      train_loader <- shuffled_loader train_dataset ;;
      weights <- class_weights y_train ;;
      let final :=
        train_loop max_epochs train_loader val_dataset
          (loop_init T weights file) in
      match st_metrics final with
      | Some m =>
          Returned (TrainCompleted (st_epoch final) m, st_checkpoint final)
      | None =>
          raise UnboundLocalError "local variable referenced before assignment"
      end
  end.

(** ** [predict_magnitude] *)

(** Two ways of writing a window of readings as the JSON argument of
    [predict]: as rows of one reading each, [[[m1], [m2], ...]], and as a
    flat list, [[m1, m2, ...]]. *)
Definition window_rows (readings : list Q) : pyvalue :=
  PyList (map (fun m => PyList [PyNum m]) readings).

Definition window_flat (readings : list Q) : pyvalue :=
  PyList (map PyNum readings).

Record Report := {
  magnitudeBin : nat;
  confidence : R;
  probabilityDistribution : list R;
  expectedMagnitude : Q;
  riskLevel : string;
  magnitudeRange : Z * Z
}.

(** The dict [magnitude_ranges], in the order it is written. *)
Definition magnitude_ranges : list (nat * (Z * Z)) :=
  [(0%nat, (0, 4)); (1%nat, (4, 5)); (2%nat, (5, 6)); (3%nat, (6, 7));
   (4%nat, (7, 10))]%Z.

(** [d[k]] *)
Fixpoint lookup {V : Type} (d : list (nat * V)) (k : nat) : outcome V :=
  match d with
  | [] => raise KeyError "key not found"
  | (k', v) :: d' => if (k' =? k)%nat then Returned v else lookup d' k
  end.

Definition risk_levels : list string :=
  ["low"; "low"; "medium"; "high"; "extreme"]%string.

(** The body of the [try] block. *)
Definition predict_body {E : LSTM} (file : option (StateDict E))
  (sequence_data : pyvalue) : outcome Report :=
  sd <- Torch.load file ;;
  model <- load_state_dict sd ;;
  t <- tensor sequence_data ;;
  let input_tensor := unsqueeze0 t in
  output <- forward model input_tensor ;;
  let probabilities := map softmax output in
  best <- mapM argmax output ;;
  predicted_bin <- item best ;;
  top <- Torch.max (List.concat probabilities) ;;
  let confidence := top in
  mag_range <- lookup magnitude_ranges predicted_bin ;;
  let expected_magnitude :=
    (inject_Z (fst mag_range) + inject_Z (snd mag_range)) / 2 in
  risk_level <- index risk_levels predicted_bin ;;
  row0 <- index probabilities 0 ;;
  Returned {| magnitudeBin := predicted_bin;
              confidence := confidence;
              probabilityDistribution := row0;
              expectedMagnitude := expected_magnitude;
              riskLevel := risk_level;
              magnitudeRange := mag_range |}.

(** What it takes for the [try] block to run through: the checkpoint
    loads into the model, and the argument is a (T, 1) array with at
    least one row. *)
Definition predictable {E : LSTM} (file : option (StateDict E))
  (sequence_data : pyvalue) (sd : StateDict E) (t : Tensor) : Prop :=
  file = Some sd /\ load_state_dict sd = Returned sd /\
  tensor sequence_data = Returned t /\
  exists n, shape t = [S n; 1%nat].

Inductive PredictResult :=
| Prediction (report : Report)
| PredictError (error : string).

(** [predict_magnitude]: [except Exception as e: return {"error": str(e)}] *)
Definition predict_magnitude {E : LSTM} (file : option (StateDict E))
  (sequence_data : pyvalue) : PredictResult :=
  match predict_body file sequence_data with
  | Returned report => Prediction report
  | Raised e => PredictError (str e)
  end.

(** ** [__main__] *)

(** What the script prints. *)
Inductive Output :=
| OutTrain (result : TrainResult)
| OutPredict (result : PredictResult)
| OutError (error : string).

(** The printed object has the shape [{"error": message}]. *)
Definition error_of (o : Output) : option string :=
  match o with
  | OutTrain (TrainError msg) => Some msg
  | OutTrain (TrainCompleted _ _) => None
  | OutPredict (PredictError msg) => Some msg
  | OutPredict (Prediction _) => None
  | OutError msg => Some msg
  end.

(** The script, given [sys.argv], the JSON parser, what the data generator
    produces and the checkpoint file.  [Raised] is an exception nothing
    caught: a traceback and a non-zero exit status. *)
Definition main {E : LSTM} (T : Trainer E)
  (json_loads : string -> outcome pyvalue) (argv : list string)
  (source : outcome DataFrame) (file : option (StateDict E))
  : outcome Output :=
  match argv with
  | _ :: command :: _ =>
      if (command =? "train")%string then
        result <- train_model T source file ;;
        Returned (OutTrain (fst result))
      else if (command =? "predict")%string then
        match
          (arg <- index argv 2 ;;
           sequence_data <- json_loads arg ;;
           Returned (predict_magnitude file sequence_data))
        with
        | Returned result => Returned (OutPredict result)
        | Raised e => Returned (OutError (str e))
        end
      else Returned (OutError "Unknown command")
  | _ => Returned (OutError "No command provided")
  end.

(** ** [QuakeDataset] and the split of [train_model] *)

(** [QuakeDataset.__init__]: the windows and the labels, as tensors. *)
Definition QuakeDataset_init (X : list (list Q)) (y : list Z) : QuakeDataset :=
  {| ds_X := X; ds_y := y |}.

(** [QuakeDataset.__len__]: [len(self.X)]; the labels are not consulted. *)
Definition QuakeDataset_len (d : QuakeDataset) : nat := List.length (ds_X d).

(** [QuakeDataset.__getitem__] for a non-negative index:
    [self.X[idx], self.y[idx]]. *)
Definition QuakeDataset_getitem (d : QuakeDataset) (idx : nat)
  : outcome (list Q * Z) :=
  x <- index (ds_X d) idx ;;
  y <- index (ds_y d) idx ;;
  Returned (x, y).

(** Lines 105-111 of [train_model]: the first [int(len(X) * 0.8)] windows
    and labels train, the rest validate. *)
Definition train_val_split (X : list (list Q)) (y : list Z)
  : QuakeDataset * QuakeDataset :=
  let split_idx := (List.length X * 4 / 5)%nat in
  (QuakeDataset_init (firstn split_idx X) (firstn split_idx y),
   QuakeDataset_init (skipn split_idx X) (skipn split_idx y)).

(** ** The classifier on one window, and the validation pass *)

(** The logits of one window: the encoder folded over its readings from
    the zero state, then [fc1], ReLU, [fc2], ReLU, [fc3] (lines 32-38,
    dropout being the identity in evaluation mode). *)
Definition classify {E : LSTM} (sd : StateDict E) (window : list R) : list R :=
  let h :=
    lstm_hidden E
      (fold_left (lstm_cell E (sd_lstm sd)) window (lstm_zeros E)) in
  linear (sd_fc3 sd) (relu (linear (sd_fc2 sd) (relu (linear (sd_fc1 sd) h)))).

(** The batches a [DataLoader] without shuffling draws: consecutive runs
    of [batch_size] items, the last one shorter if need be. *)
Fixpoint batches_from {A : Type} (fuel batch_size : nat) (l : list A)
  : list (list A) :=
  match fuel, l with
  | S fuel', _ :: _ =>
      firstn batch_size l :: batches_from fuel' batch_size (skipn batch_size l)
  | _, _ => []
  end.

Definition batches {A : Type} (batch_size : nat) (l : list A) : list (list A) :=
  batches_from (List.length l) batch_size l.

(** The default collation of a batch of windows: they are stacked into a
    tensor of shape (batch, time, 1), which requires equal lengths. *)
Definition collate (windows : list (list Q)) : outcome Tensor :=
  match windows with
  | [] => raise RuntimeError "stack expects a non-empty TensorList"
  | w :: rest =>
      if forallb (fun w' => (List.length w' =? List.length w)%nat) rest then
        Returned {| shape := [List.length windows; List.length w; 1%nat];
                    data := List.concat (map (map Q2R) windows) |}
      else raise RuntimeError "stack expects each tensor to be equal size"
  end.

(** Lines 147-154: the validation loop over [val_loader] with batches of
    [batch_size] (64 in the script), collecting [val_preds] and
    [val_actuals]. *)
Definition validation_pass {E : LSTM} (sd : StateDict E) (batch_size : nat)
  (val : QuakeDataset) : outcome (list nat * list Z) :=
  if (batch_size =? 0)%nat then
    raise ValueError "batch_size should be a positive integer value"
  else
  per_batch <-
    mapM (fun indices =>
            samples <- mapM (QuakeDataset_getitem val) indices ;;
            data <- collate (map fst samples) ;;
            let target := map snd samples in
            output <- forward sd data ;;
            pred <- mapM argmax output ;;
            Returned (pred, target))
         (batches batch_size (seq 0 (QuakeDataset_len val))) ;;
  Returned (List.concat (map fst per_batch), List.concat (map snd per_batch)).

(** ** scikit-learn: the validation metrics of lines 157-160 *)

Module SklearnMetrics.

(** The labels occurring in either list ([unique_labels]); sklearn sorts
    them, which no sum below depends on. *)
Definition unique_labels (y_true y_pred : list Z) : list Z :=
  nodup Z.eq_dec (y_true ++ y_pred).

(** Per label: true positives, support and number of predictions. *)
Definition tp_sum (y_true y_pred : list Z) (c : Z) : nat :=
  List.length
    (filter (fun tp => (fst tp =? c)%Z && (snd tp =? c)%Z)
            (combine y_true y_pred)).

Definition true_sum (y_true : list Z) (c : Z) : nat :=
  count_occ Z.eq_dec y_true c.

Definition pred_sum (y_pred : list Z) (c : Z) : nat :=
  count_occ Z.eq_dec y_pred c.

Definition of_nat (n : nat) : Q := inject_Z (Z.of_nat n).

(** [_prf_divide] with [zero_division=0] *)
Definition prf_divide (numerator denominator : nat) : Q :=
  if (denominator =? 0)%nat then 0 else of_nat numerator / of_nat denominator.

Definition total_support (y_true y_pred : list Z) : nat :=
  fold_right Nat.add 0%nat (map (true_sum y_true) (unique_labels y_true y_pred)).

(** [average="weighted"]: the per-label scores averaged with the supports
    as weights; 0 when there is no support at all. *)
Definition weighted (y_true y_pred : list Z) (score : Z -> Q) : Q :=
  if (total_support y_true y_pred =? 0)%nat then 0
  else
    fold_right Qplus 0
      (map (fun c => score c * of_nat (true_sum y_true c))
           (unique_labels y_true y_pred))
    / of_nat (total_support y_true y_pred).

(** [accuracy_score]: the share of positions where the two lists agree. *)
Definition accuracy_score (y_true y_pred : list Z) : Q :=
  of_nat (List.length (filter (fun tp => (fst tp =? snd tp)%Z)
                              (combine y_true y_pred)))
  / of_nat (List.length y_true).

Definition precision_score (y_true y_pred : list Z) : Q :=
  weighted y_true y_pred
    (fun c => prf_divide (tp_sum y_true y_pred c) (pred_sum y_pred c)).

Definition recall_score (y_true y_pred : list Z) : Q :=
  weighted y_true y_pred
    (fun c => prf_divide (tp_sum y_true y_pred c) (true_sum y_true c)).

Definition f1_score (y_true y_pred : list Z) : Q :=
  weighted y_true y_pred
    (fun c => prf_divide (2 * tp_sum y_true y_pred c)
                         (true_sum y_true c + pred_sum y_pred c)).

End SklearnMetrics.

(** Lines 157-160: the four metrics of one validation pass. *)
Definition validation_metrics (val_actuals : list Z) (val_preds : list nat)
  : Metrics :=
  let preds := map Z.of_nat val_preds in
  {| accuracy := SklearnMetrics.accuracy_score val_actuals preds;
     precision := SklearnMetrics.precision_score val_actuals preds;
     recall := SklearnMetrics.recall_score val_actuals preds;
     f1_score := SklearnMetrics.f1_score val_actuals preds |}.

(** ** Instances used to run the definitions *)

Module Demo.

(** An encoder whose state is the sum of the readings seen so far. *)
Definition encoder : LSTM :=
  {| lstm_weights := unit;
     lstm_state := R;
     lstm_zeros := 0%R;
     lstm_cell := fun _ h x => (h + x)%R;
     lstm_hidden := fun h => repeat h hidden_size |}.

Definition zero_layer (out_features in_features : nat) : Linear :=
  {| weight := repeat (repeat 0%R in_features) out_features;
     bias := repeat 0%R out_features |}.

(** A head whose last layer has the bias [0, 0, 1, 0, 0]. *)
Definition parameters : StateDict encoder :=
  Build_StateDict encoder tt
    (zero_layer 64 hidden_size)
    (zero_layer 32 64)
    {| weight := repeat (repeat 0%R 32) 5; bias := [0; 0; 1; 0; 0]%R |}.

(** A learner whose state is the number of epochs it has been trained
    for, and whose validation recall after [n] epochs is [recalls n]. *)
Definition scripted (recalls : nat -> Q) : Trainer encoder :=
  {| trainer_state := nat;
     trainer_init := fun _ => 0%nat;
     train_batches := fun _ n => (S n, 0);
     validate := fun _ n =>
       let r := recalls n in
       {| accuracy := r; precision := r; recall := r; f1_score := r |};
     scheduler_step := fun _ n => n;
     state_dict := fun _ => parameters |}.

(** Recall schedules: a quarter more each epoch, and none ever. *)
Definition rising (n : nat) : Q := inject_Z (Z.of_nat n) / 4.
Definition stuck (n : nat) : Q := 0.

(** A recall that rises, falls, returns to its old best, and rises. *)
Definition bumpy (n : nat) : Q :=
  match n with
  | 1%nat => 5 # 10
  | 2%nat => 3 # 10
  | 3%nat => 5 # 10
  | 4%nat => 7 # 10
  | _ => 96 # 100
  end.

Definition no_data : QuakeDataset := {| ds_X := []; ds_y := [] |}.

Definition row (t : Z) (m : Q) : reading :=
  {| magnitude := m; time := t; lat := 0; lon := 0 |}.

(** [n] hourly readings of the same magnitude *)
Definition constant_table (n : nat) (m : Q) : DataFrame :=
  map (fun t => row (Z.of_nat t) m) (seq 0 n).

End Demo.

(** * Properties *)

Lemma Qltb_lt (x y : Q) : Qltb x y = true <-> x < y.
Proof.
  unfold Qltb. rewrite negb_true_iff.
  split; intro H.
  - destruct (Qlt_le_dec x y) as [Hlt | Hle]; [exact Hlt |].
    apply Qle_bool_iff in Hle. congruence.
  - destruct (Qle_bool y x) eqn:E; [| reflexivity].
    apply Qle_bool_iff in E. exfalso. exact (Qlt_not_le _ _ H E).
Qed.

Lemma Qltb_ge (x y : Q) : Qltb x y = false <-> y <= x.
Proof.
  unfold Qltb. rewrite negb_false_iff. apply Qle_bool_iff.
Qed.

Lemma Qeq_bool_false (x y : Q) : Qeq_bool x y = false -> ~ x == y.
Proof.
  intros H E. apply Qeq_bool_iff in E. congruence.
Qed.

(** Turns the boolean tests a goal or hypothesis branches on into
    inequalities between rationals. *)
Ltac q_tests :=
  repeat match goal with
  | |- context [Qltb ?a ?b] =>
      let E := fresh "E" in
      destruct (Qltb a b) eqn:E;
      [apply Qltb_lt in E | apply Qltb_ge in E]
  | |- context [Qeq_bool ?a ?b] =>
      let E := fresh "E" in
      destruct (Qeq_bool a b) eqn:E;
      [apply Qeq_bool_iff in E | apply Qeq_bool_false in E]
  | |- context [Qle_bool ?a ?b] =>
      let E := fresh "E" in
      destruct (Qle_bool a b) eqn:E;
      [apply Qle_bool_iff in E | apply not_true_iff_false in E;
                                 rewrite Qle_bool_iff in E]
  end.

Ltac unfold_bin :=
  unfold mag_bin, Pandas.cut_code, Pandas.cut_ids, bins;
  cbn [Pandas.searchsorted_left Pandas.edge_ltb Pandas.edge_eqb andb
       List.length].

(** The intervals of the labelling: closed on the right, and the first one
    closed on the left as well. *)
Lemma mag_bin_intervals (m : Q) :
  (m < 0 -> mag_bin m = (-1)%Z) /\
  (0 <= m /\ m <= 4 -> mag_bin m = 0%Z) /\
  (4 < m /\ m <= 5 -> mag_bin m = 1%Z) /\
  (5 < m /\ m <= 6 -> mag_bin m = 2%Z) /\
  (6 < m /\ m <= 7 -> mag_bin m = 3%Z) /\
  (7 < m -> mag_bin m = 4%Z).
Proof.
  repeat split; intros H; unfold_bin; q_tests;
    cbn; try reflexivity; exfalso; lra.
Qed.

Lemma mag_bin_cases (m : Q) :
  0 < m ->
  (m <= 4 /\ mag_bin m = 0%Z) \/
  (4 < m /\ m <= 5 /\ mag_bin m = 1%Z) \/
  (5 < m /\ m <= 6 /\ mag_bin m = 2%Z) \/
  (6 < m /\ m <= 7 /\ mag_bin m = 3%Z) \/
  (7 < m /\ mag_bin m = 4%Z).
Proof.
  intros Hpos.
  destruct (mag_bin_intervals m) as (_ & H0 & H1 & H2 & H3 & H4).
  destruct (Qlt_le_dec 4 m) as [L4 | L4]; [| left; split; [| apply H0]; lra].
  destruct (Qlt_le_dec 5 m) as [L5 | L5];
    [| right; left; repeat split; [| | apply H1]; lra].
  destruct (Qlt_le_dec 6 m) as [L6 | L6];
    [| right; right; left; repeat split; [| | apply H2]; lra].
  destruct (Qlt_le_dec 7 m) as [L7 | L7];
    [| right; right; right; left; repeat split; [| | apply H3]; lra].
  right; right; right; right. split; [lra | apply H4; lra].
Qed.

Lemma mag_bin_range (m : Q) : 0 < m -> (0 <= mag_bin m <= 4)%Z.
Proof.
  intros Hpos.
  destruct (mag_bin_cases m Hpos)
    as [(_ & ->) | [(_ & _ & ->) | [(_ & _ & ->) | [(_ & _ & ->) | (_ & ->)]]]];
    lia.
Qed.

Lemma mag_bin_monotone (m m' : Q) :
  0 < m -> m <= m' -> (mag_bin m <= mag_bin m')%Z.
Proof.
  intros Hpos Hle.
  assert (Hpos' : 0 < m') by lra.
  destruct (mag_bin_cases m Hpos)
    as [(A & ->) | [(A & B & ->) | [(A & B & ->) | [(A & B & ->) | (A & ->)]]]];
  destruct (mag_bin_cases m' Hpos')
    as [(A' & ->) | [(A' & B' & ->) | [(A' & B' & ->) | [(A' & B' & ->) | (A' & ->)]]]];
  solve [lia | exfalso; lra].
Qed.

(** C1, as the code has it.  Every magnitude [m > 0] gets exactly one bin
    in 0..4, the bin does not decrease when [m] grows, and each boundary
    belongs to the bin below it: the partition is
    [0,4], (4,5], (5,6], (6,7], (7,inf), so that 4.0 and 3.9999 map to
    bin 0 and 7.0 maps to bin 3. *)
Theorem mag_bin_partition (m : Q) :
  0 < m ->
  (0 <= mag_bin m <= 4)%Z /\
  (mag_bin m = 0%Z <-> m <= 4) /\
  (mag_bin m = 1%Z <-> 4 < m /\ m <= 5) /\
  (mag_bin m = 2%Z <-> 5 < m /\ m <= 6) /\
  (mag_bin m = 3%Z <-> 6 < m /\ m <= 7) /\
  (mag_bin m = 4%Z <-> 7 < m) /\
  (forall m' : Q, m <= m' -> (mag_bin m <= mag_bin m')%Z) /\
  mag_bin 4 = 0%Z /\ mag_bin (39999 # 10000) = 0%Z /\ mag_bin 7 = 3%Z.
Proof.
  intros Hpos.
  split; [apply mag_bin_range; exact Hpos |].
  assert (Hc := mag_bin_cases m Hpos).
  assert (Hfrom : forall b : Z, mag_bin m = b ->
            (b = 0%Z /\ m <= 4) \/ (b = 1%Z /\ 4 < m /\ m <= 5) \/
            (b = 2%Z /\ 5 < m /\ m <= 6) \/ (b = 3%Z /\ 6 < m /\ m <= 7) \/
            (b = 4%Z /\ 7 < m)).
  { intros b <-.
    destruct Hc as [(A & ->) | [(A & B & ->) | [(A & B & ->)
                   | [(A & B & ->) | (A & ->)]]]]; tauto. }
  assert (Hto : forall b : Z,
            (b = 0%Z /\ m <= 4) \/ (b = 1%Z /\ 4 < m /\ m <= 5) \/
            (b = 2%Z /\ 5 < m /\ m <= 6) \/ (b = 3%Z /\ 6 < m /\ m <= 7) \/
            (b = 4%Z /\ 7 < m) -> mag_bin m = b).
  { intros b Hb.
    destruct Hc as [(A & ->) | [(A & B & ->) | [(A & B & ->)
                   | [(A & B & ->) | (A & ->)]]]];
    destruct Hb as [(-> & C) | [(-> & C & D) | [(-> & C & D)
                   | [(-> & C & D) | (-> & C)]]]];
    solve [reflexivity | exfalso; lra]. }
  split; [split; [intros Hb | intros Hm; apply Hto; tauto] |].
  { destruct (Hfrom _ Hb) as [(_ & C) | [(C & _) | [(C & _) | [(C & _) | (C & _)]]]];
      solve [exact C | discriminate C]. }
  split; [split; [intros Hb | intros Hm; apply Hto; tauto] |].
  { destruct (Hfrom _ Hb) as [(C & _) | [(_ & C) | [(C & _) | [(C & _) | (C & _)]]]];
      solve [exact C | discriminate C]. }
  split; [split; [intros Hb | intros Hm; apply Hto; tauto] |].
  { destruct (Hfrom _ Hb) as [(C & _) | [(C & _) | [(_ & C) | [(C & _) | (C & _)]]]];
      solve [exact C | discriminate C]. }
  split; [split; [intros Hb | intros Hm; apply Hto; tauto] |].
  { destruct (Hfrom _ Hb) as [(C & _) | [(C & _) | [(C & _) | [(_ & C) | (C & _)]]]];
      solve [exact C | discriminate C]. }
  split; [split; [intros Hb | intros Hm; apply Hto; tauto] |].
  { destruct (Hfrom _ Hb) as [(C & _) | [(C & _) | [(C & _) | [(C & _) | (_ & C)]]]];
      solve [exact C | discriminate C]. }
  split; [intros m' Hle; apply mag_bin_monotone; assumption |].
  repeat split.
Qed.

Lemma mag_bin_partition_witness :
  0 < 45 # 10 /\ mag_bin (45 # 10) = 1%Z.
Proof.
  assert (Hpos : 0 < 45 # 10) by reflexivity.
  split; [exact Hpos |].
  destruct (mag_bin_partition (45 # 10) Hpos) as (_ & _ & H1 & _).
  apply H1. split; lra.
Defined.

(** C1 as the specification states it fails on the boundaries: 4.0 is
    labelled 0, not 1, and 7.0 is labelled 3, not 4. *)
Lemma mag_bin_lower_edge_counterexample :
  mag_bin 4 = 0%Z /\ mag_bin 4 <> 1%Z /\ mag_bin 7 = 3%Z /\ mag_bin 7 <> 4%Z.
Proof.
  repeat split; discriminate.
Qed.

(** ** Class weights *)

Lemma fold_max_bounds (y : list Z) (a : Z) :
  (a <= fold_left Z.max y a)%Z /\
  (forall l, In l y -> (l <= fold_left Z.max y a)%Z) /\
  (fold_left Z.max y a = a \/ In (fold_left Z.max y a) y).
Proof.
  revert a. induction y as [| x y IH]; intros a; cbn [fold_left].
  - split; [lia |]. split; [intros l [] | left; reflexivity].
  - destruct (IH (Z.max a x)) as (Ha & Hin & Hor).
    split; [lia |]. split.
    + intros l [<- | Hl]; [lia | apply Hin, Hl].
    + destruct Hor as [-> | Hor]; [| right; right; exact Hor].
      destruct (Z.max_spec a x) as [(_ & ->) | (_ & ->)];
        [right; left; reflexivity | left; reflexivity].
Qed.

Lemma amax_of_top (y : list Z) (top : Z) :
  (0 <= top)%Z -> In top y -> (forall l, In l y -> (l <= top)%Z) ->
  Numpy.amax y = top.
Proof.
  intros Hpos Hin Hle. unfold Numpy.amax.
  destruct (fold_max_bounds y 0) as (H0 & Hup & Hor).
  specialize (Hup top Hin).
  destruct Hor as [Heq | Hmem]; [lia |].
  specialize (Hle _ Hmem). lia.
Qed.

Lemma bincount_nonneg (y : list Z) :
  y <> [] -> (forall l, In l y -> (0 <= l)%Z) ->
  Numpy.bincount y =
  Returned (map (fun k => count_occ Z.eq_dec y (Z.of_nat k))
                (seq 0 (S (Z.to_nat (Numpy.amax y))))).
Proof.
  intros Hne Hpos. unfold Numpy.bincount.
  assert (Hex : existsb (fun v => (v <? 0)%Z) y = false).
  { apply not_true_iff_false. intros Hex.
    apply existsb_exists in Hex. destruct Hex as (v & Hv & Hneg).
    apply Z.ltb_lt in Hneg. specialize (Hpos v Hv). lia. }
  rewrite Hex. destruct y; [contradiction | reflexivity].
Qed.

Lemma epsilon_pos : 0 < epsilon.
Proof. reflexivity. Qed.

Lemma count_Q_nonneg (c : nat) : 0 <= inject_Z (Z.of_nat c).
Proof.
  change 0 with (inject_Z 0). rewrite <- Zle_Qle. lia.
Qed.

Lemma inverse_count_pos (y : list Z) (b : Z) (a : Q) :
  0 < a -> 0 < inverse_frequency y b * a.
Proof.
  intros Ha. unfold inverse_frequency.
  assert (Hc := count_Q_nonneg (label_count y b)). assert (He := epsilon_pos).
  apply Qmult_lt_0_compat; [| exact Ha].
  apply Qlt_shift_div_l; lra.
Qed.

(** Normalising five positive numbers: the quotients sum to 1. *)
Lemma normalised_sum (x0 x1 x2 x3 x4 : Q) :
  0 < x0 -> 0 < x1 -> 0 < x2 -> 0 < x3 -> 0 < x4 ->
  let s := Numpy.sum [x0; x1; x2; x3; x4] in
  0 < s /\ x0 / s + x1 / s + x2 / s + x3 / s + x4 / s == 1.
Proof.
  intros H0 H1 H2 H3 H4 s.
  assert (Hs : s == x0 + x1 + x2 + x3 + x4).
  { unfold s, Numpy.sum. cbn [fold_left]. ring. }
  assert (Hpos : 0 < s) by lra.
  split; [exact Hpos |].
  rewrite Hs. field. lra.
Qed.

Lemma div_lt_div_pos (x y s : Q) : 0 < s -> (x / s < y / s <-> x < y).
Proof.
  intros Hs. unfold Qdiv.
  assert (Hi : 0 < / s) by (apply Qinv_lt_0_compat; exact Hs).
  split; intros H.
  - apply Qmult_lt_r in H; assumption.
  - apply Qmult_lt_r; assumption.
Qed.

(** Inverse counts against the amplification factors 1 and 3. *)
Lemma inverse_count_order (y : list Z) :
  inverse_frequency y 0 * 1 < inverse_frequency y 4 * 3
  <-> (label_count y 4 <= 3 * label_count y 0)%nat.
Proof.
  unfold inverse_frequency.
  generalize (label_count y 0) (label_count y 4). intros c0 c4.
  assert (He : epsilon == 1 # 1000000) by reflexivity.
  assert (H0 := count_Q_nonneg c0). assert (H4 := count_Q_nonneg c4).
  set (p := inject_Z (Z.of_nat c0) + epsilon).
  set (q := inject_Z (Z.of_nat c4) + epsilon).
  assert (Hp : 0 < p) by (unfold p; lra).
  assert (Hq : 0 < q) by (unfold q; lra).
  assert (Hcross : 1 / p * 1 < 1 / q * 3 <-> q < 3 * p).
  { assert (E1 : 1 / p * 1 == q / (p * q)) by (field; split; lra).
    assert (E2 : 1 / q * 3 == (3 * p) / (p * q)) by (field; split; lra).
    rewrite E1, E2. apply div_lt_div_pos.
    apply Qmult_lt_0_compat; assumption. }
  rewrite Hcross. unfold p, q.
  split; intros H.
  - destruct (Nat.le_gt_cases c4 (3 * c0)) as [Hle | Hgt]; [exact Hle |].
    exfalso.
    assert (Hz : (3 * Z.of_nat c0 + 1 <= Z.of_nat c4)%Z) by lia.
    rewrite Zle_Qle in Hz.
    rewrite inject_Z_plus, inject_Z_mult in Hz.
    change (inject_Z 3) with 3 in Hz. change (inject_Z 1) with 1 in Hz.
    lra.
  - assert (Hz : (Z.of_nat c4 <= 3 * Z.of_nat c0)%Z) by lia.
    rewrite Zle_Qle in Hz. rewrite inject_Z_mult in Hz.
    change (inject_Z 3) with 3 in Hz.
    lra.
Qed.

(** With label 4 present the five counts are all there, and the weights
    are the normalised amplified inverse counts. *)
Lemma class_weights_five (y : list Z) :
  (forall l, In l y -> (0 <= l <= 4)%Z) -> In 4%Z y ->
  let x (b : Z) (a : Q) := inverse_frequency y b * a in
  let s := Numpy.sum [x 0%Z 1; x 1%Z (12 # 10); x 2%Z (15 # 10);
                      x 3%Z 2; x 4%Z 3] in
  class_weights y =
  Returned [x 0%Z 1 / s; x 1%Z (12 # 10) / s; x 2%Z (15 # 10) / s;
            x 3%Z 2 / s; x 4%Z 3 / s].
Proof.
  intros Hrange Hin x s.
  assert (Hmax : Numpy.amax y = 4%Z).
  { apply amax_of_top; [lia | exact Hin |].
    intros l Hl. apply Hrange, Hl. }
  unfold class_weights.
  rewrite bincount_nonneg.
  - rewrite Hmax. reflexivity.
  - intros ->. destruct Hin.
  - intros l Hl. apply Hrange, Hl.
Qed.

(** C5, as the code has it.  When the training labels lie in 0..4 and
    label 4 occurs, the weight vector has five entries, each the inverse
    frequency of its bin times its amplification factor, divided by the
    sum [s] of these products; the entries are positive and sum to 1; and
    the entry of bin 4 exceeds the entry of bin 0 exactly when bin 4 has
    at most three times as many labels as bin 0. *)
Theorem class_weights_normalised (y : list Z) :
  (forall l, In l y -> (0 <= l <= 4)%Z) -> In 4%Z y ->
  exists w0 w1 w2 w3 w4 s : Q,
    class_weights y = Returned [w0; w1; w2; w3; w4] /\
    0 < s /\
    w0 == inverse_frequency y 0 * 1 / s /\
    w1 == inverse_frequency y 1 * (12 # 10) / s /\
    w2 == inverse_frequency y 2 * (15 # 10) / s /\
    w3 == inverse_frequency y 3 * 2 / s /\
    w4 == inverse_frequency y 4 * 3 / s /\
    w0 + w1 + w2 + w3 + w4 == 1 /\
    0 < w0 /\ 0 < w4 /\
    (w0 < w4 <-> (label_count y 4 <= 3 * label_count y 0)%nat).
Proof.
  intros Hrange Hin.
  pose proof (class_weights_five y Hrange Hin) as Hw. cbv zeta in Hw.
  set (x := fun (b : Z) (a : Q) => inverse_frequency y b * a) in *.
  set (s := Numpy.sum _) in Hw.
  assert (P0 : 0 < x 0%Z 1) by (apply inverse_count_pos; reflexivity).
  assert (P1 : 0 < x 1%Z (12 # 10)) by (apply inverse_count_pos; reflexivity).
  assert (P2 : 0 < x 2%Z (15 # 10)) by (apply inverse_count_pos; reflexivity).
  assert (P3 : 0 < x 3%Z 2) by (apply inverse_count_pos; reflexivity).
  assert (P4 : 0 < x 4%Z 3) by (apply inverse_count_pos; reflexivity).
  destruct (normalised_sum _ _ _ _ _ P0 P1 P2 P3 P4) as (Hs & Hsum).
  fold s in Hs, Hsum.
  exists (x 0%Z 1 / s), (x 1%Z (12 # 10) / s), (x 2%Z (15 # 10) / s),
    (x 3%Z 2 / s), (x 4%Z 3 / s), s.
  split; [exact Hw |]. split; [exact Hs |].
  do 5 (split; [reflexivity |]).
  split; [exact Hsum |].
  split; [apply Qlt_shift_div_l; [exact Hs | lra] |].
  split; [apply Qlt_shift_div_l; [exact Hs | lra] |].
  rewrite (div_lt_div_pos _ _ s Hs).
  apply inverse_count_order.
Qed.

Lemma class_weights_normalised_witness :
  exists w0 w1 w2 w3 w4 : Q,
    class_weights [0; 1; 2; 3; 4]%Z = Returned [w0; w1; w2; w3; w4] /\
    w0 + w1 + w2 + w3 + w4 == 1 /\ w0 < w4.
Proof.
  destruct (class_weights_normalised [0; 1; 2; 3; 4]%Z)
    as (w0 & w1 & w2 & w3 & w4 & s & Hw & _ & _ & _ & _ & _ & _ & Hsum
        & _ & _ & Horder).
  - intros l Hl. cbn in Hl. lia.
  - cbn. tauto.
  - exists w0, w1, w2, w3, w4.
    split; [exact Hw |]. split; [exact Hsum |].
    apply Horder. cbn. lia.
Defined.

(** C5 as the specification states it fails when bin 4 is frequent: with
    one label in each of bins 0..3 and four labels in bin 4, every bin is
    present, yet the weight of bin 4 is below the weight of bin 0. *)
Lemma class_weights_order_counterexample :
  exists w0 w1 w2 w3 w4 : Q,
    class_weights [0; 1; 2; 3; 4; 4; 4; 4]%Z = Returned [w0; w1; w2; w3; w4] /\
    w4 < w0.
Proof.
  eexists _, _, _, _, _. split; [vm_compute; reflexivity |].
  vm_compute. reflexivity.
Qed.

(** ** Sorting by time *)

Section SortValues.

Context {A : Type} (key : A -> Z).

Let key_le (a b : A) : Prop := (key a <= key b)%Z.

Lemma insert_by_permutation (a : A) (l : list A) :
  Permutation (Pandas.insert_by key a l) (a :: l).
Proof.
  induction l as [| b l IH]; cbn [Pandas.insert_by].
  - apply Permutation_refl.
  - destruct (key b <=? key a)%Z.
    + apply perm_trans with (b :: a :: l).
      * apply perm_skip, IH.
      * apply perm_swap.
    + apply Permutation_refl.
Qed.

Lemma insert_by_hd_rel (a x : A) (l : list A) :
  HdRel key_le x l -> key_le x a -> HdRel key_le x (Pandas.insert_by key a l).
Proof.
  intros Hl Ha. destruct l as [| b l]; cbn [Pandas.insert_by].
  - constructor. exact Ha.
  - destruct (key b <=? key a)%Z; constructor.
    + inversion Hl; assumption.
    + exact Ha.
Qed.

Lemma insert_by_sorted (a : A) (l : list A) :
  Sorted key_le l -> Sorted key_le (Pandas.insert_by key a l).
Proof.
  induction 1 as [| b l Hs IH Hhd]; cbn [Pandas.insert_by].
  - repeat constructor.
  - destruct (key b <=? key a)%Z eqn:E.
    + constructor; [exact IH |].
      apply insert_by_hd_rel; [exact Hhd |].
      unfold key_le. apply Z.leb_le, E.
    + constructor; [constructor; assumption |].
      constructor. unfold key_le. apply Z.leb_gt in E. lia.
Qed.

Lemma sort_from_permutation (df acc : list A) :
  Permutation (fold_left (fun acc a => Pandas.insert_by key a acc) df acc)
              (df ++ acc).
Proof.
  revert acc. induction df as [| a df IH]; intros acc; cbn [fold_left app].
  - apply Permutation_refl.
  - eapply perm_trans; [apply IH |].
    eapply perm_trans;
      [apply Permutation_app_head, insert_by_permutation |].
    apply Permutation_sym, Permutation_middle.
Qed.

Lemma sort_from_sorted (df acc : list A) :
  Sorted key_le acc ->
  Sorted key_le (fold_left (fun acc a => Pandas.insert_by key a acc) df acc).
Proof.
  revert acc. induction df as [| a df IH]; intros acc Hacc; cbn [fold_left].
  - exact Hacc.
  - apply IH, insert_by_sorted, Hacc.
Qed.

(** [sort_values] rearranges the rows and leaves them in key order. *)
Lemma sort_values_permutation (df : list A) :
  Permutation (Pandas.sort_values key df) df.
Proof.
  unfold Pandas.sort_values.
  eapply perm_trans; [apply sort_from_permutation |].
  rewrite app_nil_r. apply Permutation_refl.
Qed.

Lemma sort_values_sorted (df : list A) :
  Sorted (fun a b => (key a <= key b)%Z) (Pandas.sort_values key df).
Proof.
  apply sort_from_sorted. constructor.
Qed.

Lemma sort_values_length (df : list A) :
  List.length (Pandas.sort_values key df) = List.length df.
Proof.
  apply Permutation_length, sort_values_permutation.
Qed.

End SortValues.

(** ** Windowing *)

Lemma mapM_index_in_range {A : Type} (l : list A) (offset : nat)
  (steps : list nat) :
  (forall i, In i steps -> (i + offset < List.length l)%nat) ->
  exists ys,
    mapM (fun i => index l (i + offset)) steps = Returned ys /\
    List.length ys = List.length steps /\
    forall k i, nth_error steps k = Some i ->
                nth_error ys k = nth_error l (i + offset).
Proof.
  induction steps as [| i steps IH]; intros Hin.
  - exists []. repeat split. intros [| k] i H; discriminate H.
  - destruct IH as (ys & Hys & Hlen & Hnth).
    { intros j Hj. apply Hin. right. exact Hj. }
    assert (Hi : (i + offset < List.length l)%nat) by (apply Hin; left; reflexivity).
    destruct (nth_error l (i + offset)) as [a |] eqn:Ea;
      [| apply nth_error_None in Ea; lia].
    exists (a :: ys). cbn [mapM]. unfold index at 1. rewrite Ea.
    cbn [bind]. rewrite Hys. cbn [bind].
    split; [reflexivity |]. split; [cbn; lia |].
    intros [| k] j Hk; cbn [nth_error] in *.
    + injection Hk as <-. symmetry. exact Ea.
    + apply Hnth, Hk.
Qed.

Lemma fit_nonempty (column : list Q) :
  column <> [] -> exists scaler, Sklearn.fit column = Returned scaler.
Proof.
  destruct column as [| x rest]; [contradiction |].
  intros _. eexists. reflexivity.
Qed.

Lemma slice_of_map {A B : Type} (f : A -> B) (l : list A) (i len : nat) :
  slice (map f l) i (i + len) = map f (firstn len (skipn i l)).
Proof.
  unfold slice. replace (i + len - i)%nat with len by lia.
  rewrite skipn_map, firstn_map. reflexivity.
Qed.

Lemma window_length {A : Type} (l : list A) (i len : nat) :
  (i + len <= List.length l)%nat -> List.length (firstn len (skipn i l)) = len.
Proof.
  intros H. rewrite length_firstn, length_skipn. lia.
Qed.

(** What [prepare_sequences] computes from a table with at least one row,
    for a window length of at least one. *)
Lemma prepare_sequences_returns (df : DataFrame) (L : nat) :
  (1 <= List.length df)%nat -> (1 <= L)%nat ->
  let df_sorted := Pandas.sort_values time df in
  let mags := map magnitude df_sorted in
  exists y scaler,
    Sklearn.fit mags = Returned scaler /\
    prepare_sequences df L =
    Returned (map (fun i => map (Sklearn.transform scaler)
                                (firstn L (skipn i mags)))
                  (seq 0 (List.length df - L)),
              y, scaler) /\
    List.length y = (List.length df - L)%nat /\
    forall i, (i < List.length df - L)%nat ->
              nth_error y i = option_map mag_bin (nth_error mags (i + L)).
Proof.
  intros HN HL df_sorted mags.
  assert (Hlen : List.length mags = List.length df).
  { unfold mags, df_sorted. rewrite length_map. apply sort_values_length. }
  destruct (fit_nonempty mags) as (scaler & Hfit).
  { intros E. rewrite E in Hlen. cbn in Hlen. lia. }
  set (mag_bins := map (fun r => mag_bin (magnitude r)) df_sorted).
  assert (Hbins : List.length mag_bins = List.length df).
  { unfold mag_bins, df_sorted. rewrite length_map. apply sort_values_length. }
  destruct (mapM_index_in_range mag_bins L (seq 0 (List.length df - L)))
    as (y & Hy & Hylen & Hynth).
  { intros i Hi. apply in_seq in Hi. lia. }
  exists y, scaler. split; [exact Hfit |].
  rewrite length_seq in Hylen.
  split; [| split; [exact Hylen |]].
  - unfold prepare_sequences. fold df_sorted. fold mags.
    unfold Sklearn.fit_transform. rewrite Hfit. cbn [bind].
    rewrite length_map, Hlen. fold mag_bins. rewrite Hy. cbn [bind].
    unfold Numpy.reshape_windows.
    destruct (Nat.eqb_spec L 0) as [E | _]; [lia |].
    cbn [bind]. do 3 f_equal.
    apply map_ext. intros i. apply slice_of_map.
  - intros i Hi.
    rewrite (Hynth i i).
    + unfold mag_bins, mags. rewrite !nth_error_map.
      destruct (nth_error df_sorted (i + L)); reflexivity.
    + rewrite nth_error_seq. apply Nat.ltb_lt in Hi. rewrite Hi. reflexivity.
Qed.

(** C2, as the code has it.  For a table of [N >= 1] readings and a window
    length [L >= 1], [prepare_sequences] returns exactly [max (N - L) 0]
    windows and as many labels; window [i] holds the scaled magnitudes at
    positions [i .. i+L-1] of the readings sorted by time, scaled by the
    scaler fitted on all of them, and label [i] is the bin of the magnitude
    at position [i+L]; with [N <= L] it returns no window and no label. *)
Theorem prepare_sequences_windows (df : DataFrame) (L : nat) :
  (1 <= List.length df)%nat -> (1 <= L)%nat ->
  let df_sorted := Pandas.sort_values time df in
  let mags := map magnitude df_sorted in
  Permutation df_sorted df /\
  Sorted (fun a b => (time a <= time b)%Z) df_sorted /\
  exists X y scaler,
    prepare_sequences df L = Returned (X, y, scaler) /\
    Sklearn.fit mags = Returned scaler /\
    Z.of_nat (List.length X)
    = Z.max (Z.of_nat (List.length df) - Z.of_nat L) 0 /\
    List.length y = List.length X /\
    ((List.length df <= L)%nat -> X = [] /\ y = []) /\
    forall i, (i < List.length X)%nat ->
      nth_error X i
      = Some (map (Sklearn.transform scaler) (firstn L (skipn i mags))) /\
      List.length (firstn L (skipn i mags)) = L /\
      exists m, nth_error mags (i + L) = Some m /\
                nth_error y i = Some (mag_bin m).
Proof.
  intros HN HL df_sorted mags.
  split; [apply sort_values_permutation |].
  split; [apply sort_values_sorted |].
  destruct (prepare_sequences_returns df L HN HL)
    as (y & scaler & Hfit & Hret & Hylen & Hy).
  fold df_sorted in Hfit, Hret, Hy. fold mags in Hfit, Hret, Hy.
  assert (Hlen : List.length mags = List.length df).
  { unfold mags, df_sorted. rewrite length_map. apply sort_values_length. }
  eexists _, y, scaler.
  split; [exact Hret |]. split; [exact Hfit |].
  rewrite length_map, length_seq.
  split; [lia |]. split; [exact Hylen |].
  split.
  - intros Hshort.
    replace (List.length df - L)%nat with 0%nat in * by lia.
    split; [reflexivity |].
    destruct y; [reflexivity | discriminate Hylen].
  - intros i Hi.
    split; [| split].
    + rewrite nth_error_map, nth_error_seq.
      apply Nat.ltb_lt in Hi. rewrite Hi. reflexivity.
    + apply window_length. lia.
    + destruct (nth_error mags (i + L)) as [m |] eqn:Em.
      * exists m. split; [reflexivity |]. rewrite (Hy i Hi), Em. reflexivity.
      * apply nth_error_None in Em. lia.
Qed.

Lemma prepare_sequences_windows_witness :
  exists X y scaler,
    prepare_sequences
      [Demo.row 3 5; Demo.row 1 (45 # 10); Demo.row 2 7;
       Demo.row 4 (81 # 10); Demo.row 0 3] 2
    = Returned (X, y, scaler) /\
    List.length X = 3%nat /\ y = [3; 1; 4]%Z.
Proof.
  pose (df := [Demo.row 3 5; Demo.row 1 (45 # 10); Demo.row 2 7;
               Demo.row 4 (81 # 10); Demo.row 0 3]).
  assert (HN : (1 <= List.length df)%nat) by (cbn; lia).
  assert (HL : (1 <= 2)%nat) by lia.
  destruct (prepare_sequences_windows df 2 HN HL)
    as (_ & _ & X & y & scaler & Hret & _ & HX & Hy & _).
  exists X, y, scaler. split; [exact Hret |].
  assert (Hrun : exists X' s', prepare_sequences df 2
                               = Returned (X', [3; 1; 4]%Z, s')).
  { eexists _, _. vm_compute. reflexivity. }
  destruct Hrun as (X' & s' & Hrun).
  rewrite Hrun in Hret. injection Hret as <- <- <-.
  split; [| reflexivity].
  cbn in HX. lia.
Defined.

(** C2 as the specification states it fails for a table without rows:
    [N = 0 <= L], and the scaler's fit raises instead of returning zero
    windows. *)
Lemma prepare_sequences_empty_counterexample :
  (List.length (@nil reading) <= 10)%nat /\
  prepare_sequences [] 10
  = Raised (Exn ValueError
      "Found array with 0 sample(s) (shape=(0, 1)) while a minimum of 1 is required by MinMaxScaler.").
Proof.
  split; [cbn; lia | reflexivity].
Qed.

(** ** The epoch loop *)

Section EpochLoop.

Context {E : LSTM} (T : Trainer E) (train val : QuakeDataset).

Lemma after_epochs_succ (st : LoopState T) (k : nat) :
  after_epochs train val st (S k)
  = epoch_step train val (after_epochs train val st k).
Proof. reflexivity. Qed.

Lemma after_epochs_shift (st : LoopState T) (k : nat) :
  after_epochs train val (epoch_step train val st) k
  = after_epochs train val st (S k).
Proof.
  unfold after_epochs. symmetry. apply Nat.iter_succ_r.
Qed.

(** The fields one iteration of the body writes, in terms of the recall
    it measured. *)
Lemma epoch_step_fields (st : LoopState T) :
  let st' := epoch_step train val st in
  let improved := Qltb (st_best_recall st) (st_recall st') in
  st_epoch st' = S (st_epoch st) /\
  st_best_recall st'
  = (if improved then st_recall st' else st_best_recall st) /\
  st_checkpoint st'
  = (if improved then Some (state_dict T (st_trainer st'))
     else st_checkpoint st) /\
  st_saves st'
  = (if improved then st_saves st ++ [S (st_epoch st)] else st_saves st) /\
  exists m, st_metrics st' = Some m /\ recall m = st_recall st'.
Proof.
  unfold epoch_step.
  destruct (train_batches T train (st_trainer st)) as [trained epoch_loss].
  cbn. repeat split. eexists. split; reflexivity.
Qed.

Lemma after_epochs_epoch (st : LoopState T) (k : nat) :
  st_epoch (after_epochs train val st k) = (st_epoch st + k)%nat.
Proof.
  induction k as [| k IH].
  - cbn. lia.
  - rewrite after_epochs_succ.
    destruct (epoch_step_fields (after_epochs train val st k)) as (-> & _).
    rewrite IH. lia.
Qed.

Lemma loop_cond_true (st : LoopState T) :
  loop_cond st = true <-> st_recall st < 95 # 100 /\ (st_epoch st < 100)%nat.
Proof.
  unfold loop_cond. rewrite andb_true_iff, Qltb_lt, Nat.ltb_lt. tauto.
Qed.

Lemma loop_cond_false (st : LoopState T) :
  loop_cond st = false <-> 95 # 100 <= st_recall st \/ (100 <= st_epoch st)%nat.
Proof.
  unfold loop_cond. rewrite andb_false_iff, Qltb_ge, Nat.ltb_ge. tauto.
Qed.

(** The loop with [fuel] unrollings runs some [n <= fuel] iterations: the
    condition held before each of them, and it fails after the last unless
    the fuel was used up. *)
Lemma train_loop_iterations (fuel : nat) (st : LoopState T) :
  exists n,
    (n <= fuel)%nat /\
    train_loop fuel train val st = after_epochs train val st n /\
    (forall j, (j < n)%nat -> loop_cond (after_epochs train val st j) = true) /\
    ((n < fuel)%nat -> loop_cond (after_epochs train val st n) = false).
Proof.
  revert st. induction fuel as [| fuel IH]; intros st.
  - exists 0%nat. cbn. repeat split; intros; lia.
  - cbn [train_loop]. destruct (loop_cond st) eqn:Hc.
    + destruct (IH (epoch_step train val st)) as (n & Hn & Hrun & Hbefore & Hafter).
      exists (S n). split; [lia |].
      split; [rewrite Hrun; apply after_epochs_shift |].
      split.
      * intros [| j] Hj; [exact Hc |].
        rewrite <- after_epochs_shift. apply Hbefore. lia.
      * intros Hlt. rewrite <- after_epochs_shift. apply Hafter. lia.
    + exists 0%nat. split; [lia |]. split; [reflexivity |].
      split; [intros j Hj; lia | intros _; exact Hc].
Qed.

Section Run.

Context (weights : list Q) (file : option (StateDict E)).

Let init : LoopState T := loop_init T weights file.
Let final : LoopState T := train_loop max_epochs train val init.

(** A hundred unrollings are the whole loop: it has exited. *)
Lemma train_loop_exits :
  exists n,
    (n <= 100)%nat /\ final = after_epochs train val init n /\ st_epoch final = n /\
    (forall j, (j < n)%nat -> loop_cond (after_epochs train val init j) = true) /\
    loop_cond final = false.
Proof.
  destruct (train_loop_iterations max_epochs init)
    as (n & Hn & Hrun & Hbefore & Hafter).
  fold final in Hrun.
  assert (Hep : st_epoch final = n).
  { rewrite Hrun, after_epochs_epoch. reflexivity. }
  exists n. split; [exact Hn |]. split; [exact Hrun |].
  split; [exact Hep |]. split; [exact Hbefore |].
  unfold max_epochs in *.
  destruct (Nat.eq_dec n 100) as [-> | Hne].
  - apply loop_cond_false. right. rewrite Hep. lia.
  - rewrite Hrun. apply Hafter. lia.
Qed.

(** The loop runs at least once: the recall starts at 0. *)
Lemma train_loop_runs_once : (1 <= st_epoch final)%nat.
Proof.
  destruct train_loop_exits as (n & _ & Hrun & Hep & _ & Hexit).
  destruct n as [| n]; [| lia].
  rewrite Hrun in Hexit. cbn in Hexit. discriminate Hexit.
Qed.

End Run.

End EpochLoop.

Section Termination.

Context {E : LSTM} (T : Trainer E) (train val : QuakeDataset).
Context (weights : list Q) (file : option (StateDict E)).

Let init : LoopState T := loop_init T weights file.
Let final : LoopState T := train_loop max_epochs train val init.
Let recall_of (k : nat) : Q := recall_at train val init k.

(** C3.  The loop goes on exactly while [recall < 0.95] and [epoch < 100].
    Counting epochs from 1 as the loop's counter does: if the validation
    recall first reaches 0.95 in epoch [k <= 100], the loop stops with
    [epoch = k]; if it stays below 0.95 throughout, the loop stops with
    [epoch = 100]; either way it has stopped. *)
Theorem train_loop_stops :
  (forall st : LoopState T,
      loop_cond st = true
      <-> st_recall st < 95 # 100 /\ (st_epoch st < 100)%nat) /\
  (forall k : nat,
      (1 <= k <= 100)%nat ->
      95 # 100 <= recall_of k ->
      (forall j, (1 <= j < k)%nat -> recall_of j < 95 # 100) ->
      st_epoch final = k /\ final = after_epochs train val init k) /\
  ((forall k, (1 <= k <= 100)%nat -> recall_of k < 95 # 100) ->
   st_epoch final = 100%nat /\ final = after_epochs train val init 100) /\
  loop_cond final = false /\
  (1 <= st_epoch final <= 100)%nat.
Proof.
  split; [apply loop_cond_true |].
  destruct (train_loop_exits T train val weights file)
    as (n & Hn & Hrun & Hep & Hbefore & Hexit).
  fold init in Hrun, Hep, Hbefore, Hexit. fold final in Hrun, Hep, Hexit.
  assert (Hrecall0 : recall_of 0 == 0) by reflexivity.
  assert (Hstop : (n < 100)%nat -> 95 # 100 <= recall_of n).
  { intros Hlt. rewrite Hrun in Hexit.
    apply loop_cond_false in Hexit. destruct Hexit as [Hr | He]; [exact Hr |].
    rewrite after_epochs_epoch in He. cbn in He. lia. }
  assert (Hgo : forall j, (j < n)%nat -> recall_of j < 95 # 100).
  { intros j Hj. apply Hbefore in Hj. apply loop_cond_true in Hj.
    destruct Hj as [Hr _]. exact Hr. }
  assert (Hpos : (1 <= n)%nat).
  { destruct n; [| lia]. exfalso.
    assert (H0 : 95 # 100 <= recall_of 0) by (apply Hstop; lia). lra. }
  split; [| split; [| split; [exact Hexit | lia]]].
  - intros k Hk Hreach Hbelow.
    assert (Hnk : n = k); [| rewrite <- Hnk; split; assumption].
    destruct (Nat.lt_trichotomy n k) as [Hlt | [Heq | Hgt]]; [| exact Heq |].
    + exfalso.
      assert (H1 : 95 # 100 <= recall_of n) by (apply Hstop; lia).
      assert (H2 : recall_of n < 95 # 100) by (apply Hbelow; lia).
      lra.
    + exfalso. assert (H2 := Hgo k Hgt). lra.
  - intros Hbelow.
    assert (Hnk : n = 100%nat); [| rewrite <- Hnk; split; assumption].
    destruct (Nat.eq_dec n 100) as [Heq | Hne]; [exact Heq |]. exfalso.
    assert (H1 : 95 # 100 <= recall_of n) by (apply Hstop; lia).
    assert (H2 : recall_of n < 95 # 100) by (apply Hbelow; lia).
    lra.
Qed.

End Termination.

(** The scripted learner measures the recall its schedule gives. *)
Lemma scripted_recall_at (recalls : nat -> Q) (train val : QuakeDataset)
  (weights : list Q) (file : option (StateDict Demo.encoder)) (k : nat) :
  let init := loop_init (Demo.scripted recalls) weights file in
  st_trainer (after_epochs train val init k) = k /\
  recall_at train val init (S k) = recalls (S k).
Proof.
  cbv zeta.
  assert (Htr : forall j,
    st_trainer (after_epochs train val
                  (loop_init (Demo.scripted recalls) weights file) j) = j).
  { induction j as [| j IH]; [reflexivity |].
    rewrite after_epochs_succ. unfold epoch_step. cbn. f_equal. exact IH. }
  split; [apply Htr |].
  unfold recall_at. rewrite after_epochs_succ.
  unfold epoch_step. cbn. f_equal. f_equal. apply Htr.
Qed.

Lemma train_loop_stops_witness :
  st_epoch (train_loop max_epochs Demo.no_data Demo.no_data
              (loop_init (Demo.scripted Demo.rising) [] None)) = 4%nat /\
  st_epoch (train_loop max_epochs Demo.no_data Demo.no_data
              (loop_init (Demo.scripted Demo.stuck) [] None)) = 100%nat.
Proof.
  split.
  - destruct (train_loop_stops (Demo.scripted Demo.rising)
                Demo.no_data Demo.no_data [] None) as (_ & Hreach & _).
    apply (Hreach 4%nat).
    + lia.
    + vm_compute. discriminate.
    + intros j Hj.
      assert (Hcases : j = 1%nat \/ j = 2%nat \/ j = 3%nat) by lia.
      destruct Hcases as [-> | [-> | ->]]; vm_compute; reflexivity.
  - destruct (train_loop_stops (Demo.scripted Demo.stuck)
                Demo.no_data Demo.no_data [] None) as (_ & _ & Hnever & _).
    apply Hnever.
    intros k Hk. destruct k as [| k]; [lia |].
    destruct (scripted_recall_at Demo.stuck Demo.no_data Demo.no_data
                [] None k) as (_ & ->).
    reflexivity.
Defined.

Section Checkpointing.

Context {E : LSTM} (T : Trainer E) (train val : QuakeDataset).
Context (weights : list Q) (file : option (StateDict E)).

Let init : LoopState T := loop_init T weights file.
Let final : LoopState T := train_loop max_epochs train val init.
Let state (k : nat) : LoopState T := after_epochs train val init k.
Let recall_of (k : nat) : Q := recall_at train val init k.
Let best_before (k : nat) : Q := best_prior train val init k.

(** [best_recall] after [n] epochs is the largest recall seen in them, or
    0 if none was positive. *)
Lemma best_recall_after (n : nat) :
  st_best_recall (state n) == best_before (S n).
Proof.
  unfold best_before, best_prior.
  replace (S n - 1)%nat with n by lia.
  induction n as [| n IH].
  - reflexivity.
  - rewrite seq_S, map_app, fold_left_app. cbn [map fold_left Nat.add].
    rewrite <- IH.
    unfold state. rewrite after_epochs_succ.
    destruct (epoch_step_fields T train val (after_epochs train val init n))
      as (_ & -> & _).
    rewrite <- after_epochs_succ.
    change (st_recall (after_epochs train val init (S n)))
      with (recall_at train val init (S n)).
    destruct (Qltb (st_best_recall (after_epochs train val init n))
                   (recall_at train val init (S n))) eqn:Hb.
    + apply Qltb_lt in Hb. symmetry. apply Q.max_r. lra.
    + apply Qltb_ge in Hb. symmetry. apply Q.max_l. exact Hb.
Qed.

(** One epoch writes the checkpoint exactly when its recall exceeds the
    best recall before it. *)
Lemma epoch_saves (n : nat) :
  let improved := Qltb (st_best_recall (state n)) (recall_of (S n)) in
  st_saves (state (S n))
  = (if improved then st_saves (state n) ++ [S n] else st_saves (state n)) /\
  st_best_recall (state (S n))
  = (if improved then recall_of (S n) else st_best_recall (state n)) /\
  st_checkpoint (state (S n))
  = (if improved then Some (state_dict T (st_trainer (state (S n))))
     else st_checkpoint (state n)).
Proof.
  cbv zeta. unfold state, recall_of, recall_at.
  rewrite after_epochs_succ.
  destruct (epoch_step_fields T train val (after_epochs train val init n))
    as (_ & Hbest & Hckpt & Hsaves & _).
  rewrite after_epochs_epoch in Hsaves. cbn [st_epoch init loop_init Nat.add] in Hsaves.
  repeat split; assumption.
Qed.

Lemma saves_after (n k : nat) :
  In k (st_saves (state n))
  <-> (1 <= k <= n)%nat /\ best_before k < recall_of k.
Proof.
  induction n as [| n IH].
  - cbn. split; [intros [] | intros (Hk & _); lia].
  - destruct (epoch_saves n) as (-> & _).
    assert (Hbest := best_recall_after n).
    destruct (Qltb (st_best_recall (state n)) (recall_of (S n))) eqn:Hb.
    + apply Qltb_lt in Hb. rewrite in_app_iff, IH. cbn [In].
      split.
      * intros [(Hk & Hlt) | [<- | []]].
        -- split; [lia | exact Hlt].
        -- split; [lia |]. rewrite <- Hbest. exact Hb.
      * intros (Hk & Hlt).
        destruct (Nat.eq_dec k (S n)) as [-> | Hne]; [right; left; reflexivity |].
        left. split; [lia | exact Hlt].
    + apply Qltb_ge in Hb. rewrite IH.
      split.
      * intros (Hk & Hlt). split; [lia | exact Hlt].
      * intros (Hk & Hlt).
        destruct (Nat.eq_dec k (S n)) as [-> | Hne].
        -- exfalso. rewrite <- Hbest in Hlt. lra.
        -- split; [lia | exact Hlt].
Qed.

(** C4.  In a run of the loop, [torch.save] is called in epoch [k] exactly
    when the recall of epoch [k] strictly exceeds the best recall of the
    epochs before it, [best_recall] starting at 0; [best_recall] is set to
    that recall and the checkpoint to the parameters of that epoch in the
    same step, and both are left alone otherwise. *)
Theorem checkpoint_iff_strictly_better (k : nat) :
  final = state (st_epoch final) /\
  st_best_recall (state 0) = 0 /\
  (In k (st_saves final)
   <-> (1 <= k <= st_epoch final)%nat /\ best_before k < recall_of k) /\
  ((1 <= k)%nat ->
   st_best_recall (state (k - 1)) == best_before k /\
   (best_before k < recall_of k ->
    st_best_recall (state k) = recall_of k /\
    st_checkpoint (state k) = Some (state_dict T (st_trainer (state k)))) /\
   (~ best_before k < recall_of k ->
    st_best_recall (state k) = st_best_recall (state (k - 1)) /\
    st_checkpoint (state k) = st_checkpoint (state (k - 1)))).
Proof.
  destruct (train_loop_exits T train val weights file)
    as (n & _ & Hrun & Hep & _).
  fold init in Hrun, Hep. fold final in Hrun, Hep.
  split; [rewrite Hep; exact Hrun |].
  split; [reflexivity |].
  split.
  - rewrite Hrun at 1. rewrite Hep. apply saves_after.
  - intros Hk. destruct k as [| k]; [lia |].
    replace (S k - 1)%nat with k by lia.
    assert (Hbest := best_recall_after k).
    split; [exact Hbest |].
    destruct (epoch_saves k) as (_ & Hb & Hc).
    destruct (Qltb (st_best_recall (state k)) (recall_of (S k))) eqn:Hlt.
    + apply Qltb_lt in Hlt. split.
      * intros _. split; assumption.
      * intros Hno. exfalso. apply Hno. rewrite <- Hbest. exact Hlt.
    + apply Qltb_ge in Hlt. split.
      * intros Hyes. exfalso. rewrite <- Hbest in Hyes. lra.
      * intros _. split; assumption.
Qed.

End Checkpointing.

Lemma checkpoint_iff_strictly_better_witness :
  let final := train_loop max_epochs Demo.no_data Demo.no_data
                 (loop_init (Demo.scripted Demo.bumpy) [] None) in
  In 4%nat (st_saves final) /\ ~ In 3%nat (st_saves final).
Proof.
  cbv zeta. split.
  - destruct (checkpoint_iff_strictly_better (Demo.scripted Demo.bumpy)
                Demo.no_data Demo.no_data [] None 4) as (_ & _ & Hiff & _).
    apply Hiff. split; [vm_compute; lia | vm_compute; reflexivity].
  - destruct (checkpoint_iff_strictly_better (Demo.scripted Demo.bumpy)
                Demo.no_data Demo.no_data [] None 3) as (_ & _ & Hiff & _).
    intros Hin. apply Hiff in Hin. destruct Hin as (_ & Hlt).
    vm_compute in Hlt. discriminate Hlt.
Defined.

(** ** Softmax and argmax *)

Section Softmax.

Local Open Scope R_scope.

Lemma sum_exp_nonneg (l : list R) : 0 <= sum_exp l.
Proof.
  unfold sum_exp. induction l as [| x l IH]; cbn [map fold_right].
  - lra.
  - pose proof (exp_pos x). lra.
Qed.

Lemma sum_exp_pos (l : list R) : l <> [] -> 0 < sum_exp l.
Proof.
  destruct l as [| x l]; [contradiction |]. intros _.
  unfold sum_exp. cbn [map fold_right].
  pose proof (exp_pos x). pose proof (sum_exp_nonneg l) as Hl.
  unfold sum_exp in Hl. lra.
Qed.

Lemma exp_le_sum_exp (l : list R) (x : R) : In x l -> exp x <= sum_exp l.
Proof.
  unfold sum_exp. induction l as [| y l IH]; intros Hin; [destruct Hin |].
  cbn [map fold_right]. destruct Hin as [-> | Hin].
  - pose proof (sum_exp_nonneg l) as Hl. unfold sum_exp in Hl. lra.
  - pose proof (exp_pos y). specialize (IH Hin). lra.
Qed.

Lemma total_scaled (f : R -> R) (c : R) (l : list R) :
  total (map (fun x => f x / c) l) = total (map f l) / c.
Proof.
  unfold total. induction l as [| x l IH]; cbn [map fold_right].
  - unfold Rdiv. ring.
  - rewrite IH. unfold Rdiv. ring.
Qed.

Lemma softmax_length (l : list R) : List.length (softmax l) = List.length l.
Proof. unfold softmax. apply length_map. Qed.

(** The softmax of a non-empty row is a probability distribution. *)
Lemma softmax_distribution (l : list R) :
  l <> [] ->
  (forall p, In p (softmax l) -> 0 < p <= 1) /\ total (softmax l) = 1.
Proof.
  intros Hne. pose proof (sum_exp_pos l Hne) as Hs.
  split.
  - intros p Hp. unfold softmax in Hp. apply in_map_iff in Hp.
    destruct Hp as (x & <- & Hx).
    pose proof (exp_pos x) as He. pose proof (exp_le_sum_exp l x Hx) as Hle.
    split.
    + apply Rdiv_lt_0_compat; assumption.
    + apply Rmult_le_reg_r with (sum_exp l); [exact Hs |].
      unfold Rdiv. rewrite Rmult_assoc, Rinv_l by lra. lra.
  - unfold softmax. rewrite total_scaled.
    change (total (map exp l)) with (sum_exp l).
    unfold Rdiv. apply Rinv_r. lra.
Qed.

(** Softmax keeps the order of the logits. *)
Lemma softmax_entry_order (l : list R) (x y : R) :
  l <> [] -> (x < y <-> exp x / sum_exp l < exp y / sum_exp l).
Proof.
  intros Hne. pose proof (sum_exp_pos l Hne) as Hs.
  assert (Hi : 0 < / sum_exp l) by (apply Rinv_0_lt_compat; exact Hs).
  unfold Rdiv. split; intros H.
  - apply Rmult_lt_compat_r; [exact Hi | apply exp_increasing; exact H].
  - apply Rmult_lt_reg_r in H; [| exact Hi]. apply exp_lt_inv. exact H.
Qed.

Lemma argmax_from_map (f : R -> R) (l : list R) (best : R) (best_i i : nat) :
  (forall a b, a < b <-> f a < f b) ->
  argmax_from (f best) best_i i (map f l) = argmax_from best best_i i l.
Proof.
  intros Hf. revert best best_i i.
  induction l as [| x l IH]; intros best best_i i; cbn [map argmax_from].
  - reflexivity.
  - destruct (Rlt_dec (f best) (f x)) as [H | H];
    destruct (Rlt_dec best x) as [H' | H'].
    + apply IH.
    + exfalso. apply H'. apply (proj2 (Hf best x)). exact H.
    + exfalso. apply H. apply (proj1 (Hf best x)). exact H'.
    + apply IH.
Qed.

(** The index softmax puts its largest probability at is the index of the
    largest logit. *)
Lemma argmax_softmax (l : list R) : argmax (softmax l) = argmax l.
Proof.
  destruct l as [| x l]; [reflexivity |].
  unfold softmax. cbn [map argmax]. f_equal.
  apply (argmax_from_map (fun z => exp z / sum_exp (x :: l))).
  intros a b. apply softmax_entry_order. discriminate.
Qed.

(** What the scan returns: the first position of the largest entry, which
    is also what folding [Rmax] finds. *)
Lemma argmax_from_first_max (l pre : list R) (best : R) (best_i : nat) :
  nth_error pre best_i = Some best ->
  (forall y, In y pre -> y <= best) ->
  (forall j y, (j < best_i)%nat -> nth_error pre j = Some y -> y < best) ->
  let r := argmax_from best best_i (List.length pre) l in
  let top := fold_left Rmax l best in
  nth_error (pre ++ l) r = Some top /\
  (forall y, In y (pre ++ l) -> y <= top) /\
  (forall j y, (j < r)%nat -> nth_error (pre ++ l) j = Some y -> y < top).
Proof.
  revert pre best best_i.
  induction l as [| x l IH]; intros pre best best_i Hat Hall Hfirst;
    cbn [argmax_from fold_left]; cbv zeta.
  - rewrite app_nil_r. repeat split; assumption.
  - assert (Hbi : (best_i < List.length pre)%nat).
    { apply nth_error_Some. rewrite Hat. discriminate. }
    replace (pre ++ x :: l) with ((pre ++ [x]) ++ l)
      by (rewrite <- app_assoc; reflexivity).
    replace (S (List.length pre)) with (List.length (pre ++ [x]))
      by (rewrite length_app; cbn; lia).
    destruct (Rlt_dec best x) as [Hlt | Hge].
    + replace (Rmax best x) with x by (symmetry; apply Rmax_right; lra).
      apply IH.
      * rewrite nth_error_app2 by lia. rewrite Nat.sub_diag. reflexivity.
      * intros y Hy. apply in_app_iff in Hy. destruct Hy as [Hy | [<- | []]].
        -- specialize (Hall y Hy). lra.
        -- lra.
      * intros j y Hj Hy. rewrite nth_error_app1 in Hy by exact Hj.
        assert (In y pre) by (eapply nth_error_In; exact Hy).
        specialize (Hall y H). lra.
    + replace (Rmax best x) with best by (symmetry; apply Rmax_left; lra).
      apply IH.
      * rewrite nth_error_app1 by exact Hbi. exact Hat.
      * intros y Hy. apply in_app_iff in Hy. destruct Hy as [Hy | [<- | []]].
        -- apply Hall, Hy.
        -- lra.
      * intros j y Hj Hy. rewrite nth_error_app1 in Hy by lia.
        eapply Hfirst; eassumption.
Qed.

Lemma argmax_first_max (x : R) (l : list R) :
  let r := argmax_from x 0 1 l in
  let top := fold_left Rmax l x in
  nth_error (x :: l) r = Some top /\
  (forall y, In y (x :: l) -> y <= top) /\
  (forall j y, (j < r)%nat -> nth_error (x :: l) j = Some y -> y < top) /\
  (r < List.length (x :: l))%nat.
Proof.
  cbv zeta.
  destruct (argmax_from_first_max l [x] x 0) as (Hat & Hall & Hfirst).
  - reflexivity.
  - intros y [<- | []]. lra.
  - intros j y Hj. lia.
  - cbn [List.length app] in Hat, Hall, Hfirst.
    split; [exact Hat |]. split; [exact Hall |]. split; [exact Hfirst |].
    apply (proj1 (nth_error_Some (x :: l) (argmax_from x 0 1 l))).
    rewrite Hat. discriminate.
Qed.

End Softmax.

(** ** The forward pass *)

Lemma zip_with_length {A B C : Type} (f : A -> B -> C) (a : list A) (b : list B) :
  List.length (Numpy.zip_with f a b) = Nat.min (List.length a) (List.length b).
Proof.
  revert b. induction a as [| x a IH]; intros [| y b]; cbn; try reflexivity.
  rewrite IH. reflexivity.
Qed.

Lemma linear_length (l : Linear) (out_features in_features : nat) (x : list R) :
  linear_shape_ok l out_features in_features = true ->
  List.length (linear l x) = out_features.
Proof.
  unfold linear_shape_ok, linear. rewrite !andb_true_iff.
  intros ((Hw & _) & Hb).
  apply Nat.eqb_eq in Hw. apply Nat.eqb_eq in Hb.
  rewrite zip_with_length, Hw, Hb. apply Nat.min_id.
Qed.

Lemma load_state_dict_inv {E : LSTM} (sd sd' : StateDict E) :
  load_state_dict sd = Returned sd' ->
  sd' = sd /\ linear_shape_ok (sd_fc3 sd) num_classes 32 = true.
Proof.
  unfold load_state_dict.
  destruct (linear_shape_ok (sd_fc1 sd) 64 hidden_size); [| discriminate].
  destruct (linear_shape_ok (sd_fc2 sd) 32 64); [| discriminate].
  destruct (linear_shape_ok (sd_fc3 sd) num_classes 32); [| discriminate].
  cbn. intros H. injection H as <-. split; reflexivity.
Qed.

(** The encoder accepts exactly the inputs of shape (batch, time, 1) with
    at least one time step. *)
Lemma lstm_last_returns (E : LSTM) (w : lstm_weights E) (x : Tensor)
  (out : list (list R)) :
  lstm_last E w x = Returned out <->
  exists b t,
    shape x = [b; S t; 1%nat] /\
    out = map (fun window =>
                 lstm_hidden E (fold_left (lstm_cell E w) window (lstm_zeros E)))
              (chunks (S t) b (data x)).
Proof.
  unfold lstm_last. split.
  - destruct (shape x) as [| b [| t [| f [| more rest]]]]; try discriminate.
    destruct (Nat.eqb_spec f 1) as [-> | Hf]; cbn [negb]; [| discriminate].
    destruct t as [| t]; cbn [Nat.eqb]; [discriminate |].
    intros H. injection H as <-. exists b, t. split; reflexivity.
  - intros (b & t & -> & ->). reflexivity.
Qed.

(** On one window the forward pass yields one row of five logits. *)
Lemma forward_single {E : LSTM} (sd : StateDict E) (t : Tensor) (n : nat) :
  linear_shape_ok (sd_fc3 sd) num_classes 32 = true ->
  shape t = [S n; 1%nat] ->
  exists logits,
    forward sd (unsqueeze0 t) = Returned [logits] /\
    List.length logits = 5%nat.
Proof.
  intros Hfc3 Hshape. unfold forward.
  assert (Hl : lstm_last E (sd_lstm sd) (unsqueeze0 t)
               = Returned (map (fun window =>
                   lstm_hidden E (fold_left (lstm_cell E (sd_lstm sd)) window
                                            (lstm_zeros E)))
                   (chunks (S n) 1 (data (unsqueeze0 t))))).
  { apply lstm_last_returns. exists 1%nat, n.
    unfold unsqueeze0. cbn [shape]. rewrite Hshape. split; reflexivity. }
  rewrite Hl. cbn [bind chunks map]. eexists. split; [reflexivity |].
  apply (linear_length _ _ _ _ Hfc3).
Qed.

Lemma forward_inv {E : LSTM} (sd : StateDict E) (t : Tensor)
  (output : list (list R)) :
  forward sd (unsqueeze0 t) = Returned output ->
  exists n, shape t = [S n; 1%nat].
Proof.
  unfold forward.
  destruct (lstm_last E (sd_lstm sd) (unsqueeze0 t)) as [out |] eqn:Hl;
    [| discriminate].
  intros _. apply lstm_last_returns in Hl.
  destruct Hl as (b & n & Hshape & _).
  unfold unsqueeze0 in Hshape. cbn [shape] in Hshape.
  injection Hshape as _ Hs. exists n. exact Hs.
Qed.

Lemma lookup_magnitude_range (bin : nat) :
  (bin < 5)%nat ->
  exists range risk,
    lookup magnitude_ranges bin = Returned range /\
    index risk_levels bin = Returned risk /\
    match bin with
    | 0%nat => range = (0, 4)%Z /\ risk = "low"%string
    | 1%nat => range = (4, 5)%Z /\ risk = "low"%string
    | 2%nat => range = (5, 6)%Z /\ risk = "medium"%string
    | 3%nat => range = (6, 7)%Z /\ risk = "high"%string
    | 4%nat => range = (7, 10)%Z /\ risk = "extreme"%string
    | _ => False
    end.
Proof.
  intros Hbin.
  destruct bin as [| [| [| [| [| bin]]]]]; try lia;
    eexists _, _; repeat split.
Qed.

(** ** The predictor *)

Lemma predict_body_inv {E : LSTM} (file : option (StateDict E))
  (sequence_data : pyvalue) (report : Report) :
  predict_body file sequence_data = Returned report ->
  exists sd t, predictable file sequence_data sd t.
Proof.
  unfold predict_body, predictable.
  destruct file as [sd |]; cbn [Torch.load bind]; [| discriminate].
  destruct (load_state_dict sd) as [model |] eqn:Hload; cbn [bind];
    [| discriminate].
  destruct (tensor sequence_data) as [t |] eqn:Ht; cbn [bind]; [| discriminate].
  destruct (forward model (unsqueeze0 t)) as [output |] eqn:Hf; cbn [bind];
    [| discriminate].
  intros _. apply load_state_dict_inv in Hload as Hinv.
  destruct Hinv as (-> & _).
  exists sd, t. repeat split; try assumption.
  eapply forward_inv. exact Hf.
Qed.

Lemma predict_body_returns {E : LSTM} (file : option (StateDict E))
  (sequence_data : pyvalue) (sd : StateDict E) (t : Tensor) :
  predictable file sequence_data sd t ->
  exists logits report,
    forward sd (unsqueeze0 t) = Returned [logits] /\
    List.length logits = 5%nat /\
    predict_body file sequence_data = Returned report /\
    probabilityDistribution report = softmax logits /\
    argmax logits = Returned (magnitudeBin report) /\
    (magnitudeBin report < 5)%nat /\
    Torch.max (softmax logits) = Returned (confidence report) /\
    lookup magnitude_ranges (magnitudeBin report)
    = Returned (magnitudeRange report) /\
    index risk_levels (magnitudeBin report) = Returned (riskLevel report) /\
    expectedMagnitude report
    = (inject_Z (fst (magnitudeRange report))
       + inject_Z (snd (magnitudeRange report))) / 2.
Proof.
  intros (-> & Hload & Ht & n & Hshape).
  destruct (load_state_dict_inv _ _ Hload) as (_ & Hfc3).
  destruct (forward_single sd t n Hfc3 Hshape) as (logits & Hf & Hlen).
  destruct logits as [| x rest]; [discriminate Hlen |].
  destruct (argmax_first_max x rest) as (_ & _ & _ & Hbin).
  rewrite Hlen in Hbin.
  destruct (lookup_magnitude_range _ Hbin) as (range & risk & Hrange & Hrisk & _).
  exists (x :: rest). eexists.
  split; [exact Hf |]. split; [exact Hlen |].
  unfold predict_body. cbn [Torch.load bind].
  rewrite Hload. cbn [bind]. rewrite Ht. cbn [bind]. rewrite Hf.
  cbn [bind map mapM argmax item List.concat]. rewrite app_nil_r.
  unfold softmax at 1. cbn [map Torch.max bind].
  rewrite Hrange. cbn [bind]. rewrite Hrisk. cbn [bind index nth_error].
  split; [reflexivity |].
  cbn [probabilityDistribution magnitudeBin confidence magnitudeRange
       riskLevel expectedMagnitude].
  repeat split; assumption.
Qed.

Lemma predict_magnitude_prediction {E : LSTM} (file : option (StateDict E))
  (sequence_data : pyvalue) (report : Report) :
  predict_magnitude file sequence_data = Prediction report <->
  predict_body file sequence_data = Returned report.
Proof.
  unfold predict_magnitude.
  destruct (predict_body file sequence_data) as [r | e]; split; intros H;
    try discriminate H; injection H as ->; reflexivity.
Qed.

(** C6.  A successful prediction reports the softmax of the model's
    logits; its bin is the index of the largest probability, its
    confidence is that probability, and risk level, magnitude range and
    expected magnitude are those of the bin: low (0,4) 2.0, low (4,5) 4.5,
    medium (5,6) 5.5, high (6,7) 6.5, extreme (7,10) 8.5. *)
Theorem predict_report {E : LSTM} (file : option (StateDict E))
  (sequence_data : pyvalue) (report : Report) :
  predict_magnitude file sequence_data = Prediction report ->
  exists sd t logits,
    file = Some sd /\ tensor sequence_data = Returned t /\
    forward sd (unsqueeze0 t) = Returned [logits] /\
    probabilityDistribution report = softmax logits /\
    argmax (softmax logits) = Returned (magnitudeBin report) /\
    nth_error (softmax logits) (magnitudeBin report)
    = Some (confidence report) /\
    (forall p, In p (softmax logits) -> (p <= confidence report)%R) /\
    match magnitudeBin report with
    | 0%nat => riskLevel report = "low"%string /\
               magnitudeRange report = (0, 4)%Z /\
               expectedMagnitude report == 2
    | 1%nat => riskLevel report = "low"%string /\
               magnitudeRange report = (4, 5)%Z /\
               expectedMagnitude report == 45 # 10
    | 2%nat => riskLevel report = "medium"%string /\
               magnitudeRange report = (5, 6)%Z /\
               expectedMagnitude report == 55 # 10
    | 3%nat => riskLevel report = "high"%string /\
               magnitudeRange report = (6, 7)%Z /\
               expectedMagnitude report == 65 # 10
    | 4%nat => riskLevel report = "extreme"%string /\
               magnitudeRange report = (7, 10)%Z /\
               expectedMagnitude report == 85 # 10
    | _ => False
    end.
Proof.
  intros Hres. apply predict_magnitude_prediction in Hres.
  destruct (predict_body_inv _ _ _ Hres) as (sd & t & Hable).
  destruct (predict_body_returns _ _ _ _ Hable)
    as (logits & report' & Hf & Hlen & Hbody & Hdist & Hbin & Hlt & Hmax
        & Hrange & Hrisk & Hexp).
  rewrite Hres in Hbody. injection Hbody as <-.
  destruct Hable as (Hfile & _ & Ht & _).
  exists sd, t, logits.
  split; [exact Hfile |]. split; [exact Ht |]. split; [exact Hf |].
  split; [exact Hdist |].
  rewrite argmax_softmax. split; [exact Hbin |].
  assert (Harg : argmax (softmax logits) = Returned (magnitudeBin report))
    by (rewrite argmax_softmax; exact Hbin).
  destruct (softmax logits) as [| p0 ps] eqn:Hsm; [discriminate Hmax |].
  cbn [Torch.max] in Hmax. injection Hmax as Hconf.
  cbn [argmax] in Harg. injection Harg as Hidx.
  destruct (argmax_first_max p0 ps) as (Hat & Hall & _).
  rewrite Hidx, Hconf in Hat. rewrite Hconf in Hall.
  split; [exact Hat |]. split; [exact Hall |].
  destruct (lookup_magnitude_range _ Hlt) as (range & risk & Hr1 & Hr2 & Htable).
  rewrite Hrange in Hr1. injection Hr1 as <-.
  rewrite Hrisk in Hr2. injection Hr2 as <-.
  rewrite Hexp.
  destruct (magnitudeBin report) as [| [| [| [| [| bin]]]]];
    try contradiction;
    destruct Htable as (-> & ->); repeat split; reflexivity.
Qed.

(** C9.  The distribution a successful prediction returns has exactly
    five entries, each between 0 and 1, and they sum to 1. *)
Theorem predict_distribution {E : LSTM} (file : option (StateDict E))
  (sequence_data : pyvalue) (report : Report) :
  predict_magnitude file sequence_data = Prediction report ->
  List.length (probabilityDistribution report) = 5%nat /\
  (forall p, In p (probabilityDistribution report) -> (0 <= p <= 1)%R) /\
  total (probabilityDistribution report) = 1%R.
Proof.
  intros Hres. apply predict_magnitude_prediction in Hres.
  destruct (predict_body_inv _ _ _ Hres) as (sd & t & Hable).
  destruct (predict_body_returns _ _ _ _ Hable)
    as (logits & report' & _ & Hlen & Hbody & Hdist & _).
  rewrite Hres in Hbody. injection Hbody as <-.
  rewrite Hdist.
  assert (Hne : logits <> []) by (intros ->; discriminate Hlen).
  destruct (softmax_distribution logits Hne) as (Hin & Hsum).
  split; [rewrite softmax_length; exact Hlen |].
  split; [| exact Hsum].
  intros p Hp. specialize (Hin p Hp). lra.
Qed.

(** ** Windows as [predict] receives them *)

Lemma mapM_map_returned {A B C : Type} (g : A -> B) (f : B -> outcome C)
  (h : A -> C) (l : list A) :
  (forall a, f (g a) = Returned (h a)) ->
  mapM f (map g l) = Returned (map h l).
Proof.
  intros H. induction l as [| a l IH]; cbn [map mapM]; [reflexivity |].
  rewrite H, IH. reflexivity.
Qed.

Lemma forallb_map_const {A B : Type} (p : B -> bool) (f : A -> B) (l : list A) :
  (forall a, p (f a) = true) -> forallb p (map f l) = true.
Proof.
  intros H. induction l as [| a l IH]; cbn; [reflexivity |].
  rewrite H, IH. reflexivity.
Qed.

Lemma concat_singletons {A B : Type} (f : A -> B) (l : list A) :
  List.concat (map (fun a => [f a]) l) = map f l.
Proof.
  induction l as [| a l IH]; cbn; [reflexivity |]. rewrite IH. reflexivity.
Qed.

(** A window written as [T >= 1] rows is a tensor of shape (T, 1). *)
Lemma tensor_window_rows (readings : list Q) :
  readings <> [] ->
  tensor (window_rows readings)
  = Returned {| shape := [List.length readings; 1%nat];
                data := map Q2R readings |}.
Proof.
  intros Hne. unfold window_rows. cbn [tensor].
  rewrite (mapM_map_returned _ tensor
             (fun m => {| shape := [1%nat]; data := [Q2R m] |}))
    by reflexivity.
  cbn [bind]. destruct readings as [| m rest]; [contradiction |].
  cbn [map].
  rewrite forallb_map_const by reflexivity.
  cbn [shape data List.length List.concat map app].
  rewrite !length_map, map_map. cbn [data].
  rewrite concat_singletons. reflexivity.
Qed.

(** A flat list is a tensor with one axis. *)
Lemma tensor_window_flat (readings : list Q) :
  exists t n, tensor (window_flat readings) = Returned t /\ shape t = [n].
Proof.
  unfold window_flat. cbn [tensor].
  rewrite (mapM_map_returned _ tensor
             (fun m => {| shape := []; data := [Q2R m] |}))
    by reflexivity.
  cbn [bind]. destruct readings as [| m rest]; cbn [map].
  - eexists _, _. split; reflexivity.
  - rewrite forallb_map_const by reflexivity.
    eexists _, _. split; reflexivity.
Qed.

Lemma predict_magnitude_error {E : LSTM} (file : option (StateDict E))
  (sequence_data : pyvalue) :
  (forall report, predict_magnitude file sequence_data <> Prediction report) ->
  exists msg, predict_magnitude file sequence_data = PredictError msg.
Proof.
  intros Hno. destruct (predict_magnitude file sequence_data) as [r | msg].
  - exfalso. apply (Hno r). reflexivity.
  - exists msg. reflexivity.
Qed.

(** C8, as the code has it.  [predict_magnitude] never looks at the length
    of the window.  It returns a prediction exactly when the checkpoint
    loads and the argument is a (T, 1) array with [T >= 1]: so a window
    written as rows of one reading yields a prediction for every length
    [T >= 1], while a flat list of readings and the empty window yield a
    structured error, whatever their length. *)
Theorem predict_ignores_window_length {E : LSTM} (file : option (StateDict E)) :
  (forall sequence_data : pyvalue,
      (exists report, predict_magnitude file sequence_data = Prediction report)
      <-> (exists sd t n,
              file = Some sd /\ load_state_dict sd = Returned sd /\
              tensor sequence_data = Returned t /\ shape t = [S n; 1%nat])) /\
  (forall (sd : StateDict E) (readings : list Q),
      file = Some sd -> load_state_dict sd = Returned sd -> readings <> [] ->
      exists report,
        predict_magnitude file (window_rows readings) = Prediction report) /\
  (forall readings : list Q,
      exists msg, predict_magnitude file (window_flat readings)
                  = PredictError msg) /\
  (exists msg, predict_magnitude file (window_rows []) = PredictError msg).
Proof.
  assert (Hiff : forall sequence_data : pyvalue,
      (exists report, predict_magnitude file sequence_data = Prediction report)
      <-> (exists sd t n,
              file = Some sd /\ load_state_dict sd = Returned sd /\
              tensor sequence_data = Returned t /\ shape t = [S n; 1%nat])).
  { intros sequence_data. split.
    - intros (report & Hres). apply predict_magnitude_prediction in Hres.
      destruct (predict_body_inv _ _ _ Hres)
        as (sd & t & Hfile & Hload & Ht & n & Hshape).
      exists sd, t, n. repeat split; assumption.
    - intros (sd & t & n & Hfile & Hload & Ht & Hshape).
      destruct (predict_body_returns file sequence_data sd t)
        as (logits & report & _ & _ & Hbody & _).
      { repeat split; try assumption. exists n. exact Hshape. }
      exists report. apply predict_magnitude_prediction. exact Hbody. }
  split; [exact Hiff |]. split; [| split].
  - intros sd readings Hfile Hload Hne. apply Hiff.
    destruct readings as [| m rest]; [contradiction |].
    eexists sd, _, (List.length rest).
    split; [exact Hfile |]. split; [exact Hload |].
    split; [apply tensor_window_rows; discriminate | reflexivity].
  - intros readings. apply predict_magnitude_error.
    intros report Hres.
    destruct (proj1 (Hiff _) (ex_intro _ report Hres))
      as (sd & t & n & _ & _ & Ht & Hshape).
    destruct (tensor_window_flat readings) as (t' & n' & Ht' & Hshape').
    rewrite Ht' in Ht. injection Ht as ->.
    rewrite Hshape' in Hshape. discriminate Hshape.
  - apply predict_magnitude_error.
    intros report Hres.
    destruct (proj1 (Hiff _) (ex_intro _ report Hres))
      as (sd & t & n & _ & _ & Ht & Hshape).
    cbn in Ht. injection Ht as <-. discriminate Hshape.
Qed.

(** ** The predictor on the demonstration checkpoint *)

Lemma dot_zeros (n : nat) (v : list R) : dot (repeat 0%R n) v = 0%R.
Proof.
  unfold dot. revert v.
  induction n as [| n IH]; intros [| x v]; cbn; try reflexivity.
  rewrite IH. ring.
Qed.

Lemma demo_predictable (readings : list Q) :
  readings <> [] ->
  predictable (Some Demo.parameters) (window_rows readings) Demo.parameters
    {| shape := [List.length readings; 1%nat]; data := map Q2R readings |}.
Proof.
  intros Hne. split; [reflexivity |]. split; [reflexivity |].
  split; [apply tensor_window_rows, Hne |].
  destruct readings as [| m rest]; [contradiction |].
  exists (List.length rest). reflexivity.
Qed.

Lemma forward_rows {E : LSTM} (sd : StateDict E) (x : Tensor)
  (output : list (list R)) (logits : list R) :
  forward sd x = Returned output -> In logits output ->
  exists v, logits = linear (sd_fc3 sd) v.
Proof.
  unfold forward.
  destruct (lstm_last E (sd_lstm sd) x) as [out |]; cbn [bind];
    [| discriminate].
  intros H Hin. injection H as <-.
  apply in_map_iff in Hin. destruct Hin as (h & <- & _).
  eexists. reflexivity.
Qed.

Lemma linear_five_rows (z v : list R) (b0 b1 b2 b3 b4 : R) :
  linear {| weight := repeat z 5; bias := [b0; b1; b2; b3; b4] |} v
  = [dot z v + b0; dot z v + b1; dot z v + b2; dot z v + b3; dot z v + b4]%R.
Proof. reflexivity. Qed.

(** Its logits are the bias of the last layer, whatever the window. *)
Lemma demo_logits (t : Tensor) (logits : list R) :
  forward Demo.parameters (unsqueeze0 t) = Returned [logits] ->
  logits = [0 + 0; 0 + 0; 0 + 1; 0 + 0; 0 + 0]%R.
Proof.
  intros Hf.
  destruct (forward_rows _ _ _ logits Hf) as (v & ->); [left; reflexivity |].
  change (sd_fc3 Demo.parameters)
    with {| weight := repeat (repeat 0%R 32) 5; bias := [0; 0; 1; 0; 0]%R |}.
  rewrite linear_five_rows, dot_zeros. reflexivity.
Qed.

Lemma demo_argmax :
  argmax [0 + 0; 0 + 0; 0 + 1; 0 + 0; 0 + 0]%R = Returned 2%nat.
Proof.
  cbn [argmax argmax_from].
  repeat match goal with
         | |- context [Rlt_dec ?a ?b] =>
             destruct (Rlt_dec a b); try (exfalso; lra)
         end.
  reflexivity.
Qed.

Lemma predict_report_witness :
  exists report,
    predict_magnitude (Some Demo.parameters) (window_rows [1; 1; 1])
    = Prediction report /\
    magnitudeBin report = 2%nat /\
    riskLevel report = "medium"%string /\
    magnitudeRange report = (5, 6)%Z /\
    expectedMagnitude report == 55 # 10 /\
    nth_error (probabilityDistribution report) 2 = Some (confidence report).
Proof.
  assert (Hne : [1; 1; 1] <> @nil Q) by discriminate.
  destruct (predict_body_returns _ _ _ _ (demo_predictable [1; 1; 1] Hne))
    as (logits0 & report & _ & _ & Hbody & _).
  apply predict_magnitude_prediction in Hbody.
  exists report. split; [exact Hbody |].
  destruct (predict_report _ _ _ Hbody)
    as (sd & t & logits & Hfile & Ht & Hf & Hdist & Hbin & Hconf & _ & Htable).
  injection Hfile as <-.
  apply demo_logits in Hf. subst logits.
  rewrite argmax_softmax, demo_argmax in Hbin. injection Hbin as Hbin.
  rewrite <- Hbin in Htable, Hconf. rewrite <- Hdist in Hconf.
  destruct Htable as (Hrisk & Hrange & Hexp).
  repeat split; try assumption. symmetry. exact Hbin.
Defined.

Lemma predict_distribution_witness :
  exists report,
    predict_magnitude (Some Demo.parameters) (window_rows [1; 1; 1])
    = Prediction report /\
    List.length (probabilityDistribution report) = 5%nat /\
    total (probabilityDistribution report) = 1%R.
Proof.
  assert (Hne : [1; 1; 1] <> @nil Q) by discriminate.
  destruct (predict_body_returns _ _ _ _ (demo_predictable [1; 1; 1] Hne))
    as (logits0 & report & _ & _ & Hbody & _).
  apply predict_magnitude_prediction in Hbody.
  exists report. split; [exact Hbody |].
  destruct (predict_distribution _ _ _ Hbody) as (Hlen & _ & Hsum).
  split; assumption.
Defined.

Lemma predict_ignores_window_length_witness :
  exists report,
    predict_magnitude (Some Demo.parameters) (window_rows [1; 1; 1])
    = Prediction report.
Proof.
  destruct (predict_ignores_window_length (Some Demo.parameters))
    as (_ & Hrows & _).
  apply (Hrows Demo.parameters [1; 1; 1]).
  - reflexivity.
  - reflexivity.
  - discriminate.
Defined.

(** C8 as the specification states it fails: the training window length
    is 10, and windows of 3 and of 12 readings both yield a prediction. *)
Lemma predict_other_length_counterexample :
  List.length [1; 1; 1] <> seq_length /\
  List.length (repeat 1 12) <> seq_length /\
  (exists report,
      predict_magnitude (Some Demo.parameters) (window_rows [1; 1; 1])
      = Prediction report) /\
  (exists report,
      predict_magnitude (Some Demo.parameters) (window_rows (repeat 1 12))
      = Prediction report).
Proof.
  split; [discriminate |]. split; [discriminate |].
  split.
  - destruct (predict_body_returns _ _ _ _
                (demo_predictable [1; 1; 1] ltac:(discriminate)))
      as (_ & report & _ & _ & Hbody & _).
    exists report. apply predict_magnitude_prediction. exact Hbody.
  - destruct (predict_body_returns _ _ _ _
                (demo_predictable (repeat 1 12) ltac:(discriminate)))
      as (_ & report & _ & _ & Hbody & _).
    exists report. apply predict_magnitude_prediction. exact Hbody.
Qed.

(** ** [train_model] and the class-weight computation *)

(** The class weights by the largest label of a non-empty split: with 0
    the single count is stretched over the five amplification factors;
    with 1, 2 or 3 the counts cannot be broadcast against them. *)
Lemma class_weights_by_top (y : list Z) :
  y <> [] -> (forall l, In l y -> (0 <= l)%Z) ->
  (Numpy.amax y = 0%Z ->
   exists c w,
     Numpy.bincount y = Returned [c] /\
     class_weights y = Returned w /\ List.length w = 5%nat) /\
  ((1 <= Numpy.amax y <= 3)%Z ->
   (exists counts,
       Numpy.bincount y = Returned counts /\
       (2 <= List.length counts <= 4)%nat) /\
   class_weights y = Raised Numpy.broadcast_error).
Proof.
  intros Hne Hpos. pose proof (bincount_nonneg y Hne Hpos) as Hcount.
  split.
  - intros Htop. rewrite Htop in Hcount.
    eexists _, _. split; [exact Hcount |].
    unfold class_weights. rewrite Hcount. split; reflexivity.
  - intros Htop.
    assert (Hcases : Numpy.amax y = 1%Z \/ Numpy.amax y = 2%Z
                     \/ Numpy.amax y = 3%Z) by lia.
    unfold class_weights.
    destruct Hcases as [H | [H | H]]; rewrite H in Hcount; rewrite Hcount;
      (split; [eexists; split;
                 [reflexivity | rewrite length_map, length_seq; lia]
             | reflexivity]).
Qed.

Lemma loaded_magnitudes_positive (source : outcome DataFrame) (df : DataFrame) :
  load_earthquake_data source = Some df ->
  forall r, In r df -> 0 < magnitude r.
Proof.
  unfold load_earthquake_data. destruct source as [raw | e]; [| discriminate].
  intros H r Hr. injection H as <-.
  apply filter_In in Hr. destruct Hr as (_ & Hr). apply Qltb_lt, Hr.
Qed.

(** Every label [prepare_sequences] realises is the bin of a magnitude of
    the table, and there are as many labels as windows. *)
Lemma prepared_labels_origin (df : DataFrame) (L : nat) (X : list (list Q))
  (y : list Z) (scaler : Sklearn.MinMaxScaler) :
  prepare_sequences df L = Returned (X, y, scaler) ->
  List.length X = (List.length df - L)%nat /\
  List.length y = (List.length df - L)%nat /\
  forall l, In l y -> exists r, In r df /\ l = mag_bin (magnitude r).
Proof.
  intros Hprep.
  destruct df as [| r0 df'] eqn:Edf; [discriminate Hprep |].
  rewrite <- Edf in *. clear r0 df' Edf.
  destruct L as [| L'] eqn:EL.
  { exfalso. unfold prepare_sequences in Hprep.
    destruct (Sklearn.fit_transform _) as [[scaled s] |]; cbn [bind] in Hprep;
      [| discriminate].
    destruct (mapM _ _); cbn [bind] in Hprep; discriminate. }
  rewrite <- EL in *.
  assert (HN : (1 <= List.length df)%nat).
  { destruct df; [discriminate Hprep | cbn; lia]. }
  assert (HL : (1 <= L)%nat) by lia.
  destruct (prepare_sequences_returns df L HN HL)
    as (y' & scaler' & _ & Hret & Hylen & Hy).
  rewrite Hret in Hprep. injection Hprep as <- <- <-.
  split; [rewrite length_map, length_seq; reflexivity |].
  split; [exact Hylen |].
  intros l Hl. apply In_nth_error in Hl. destruct Hl as (i & Hi).
  assert (Hlt : (i < List.length df - L)%nat).
  { rewrite <- Hylen. apply nth_error_Some. rewrite Hi. discriminate. }
  rewrite (Hy i Hlt) in Hi.
  destruct (nth_error (map magnitude (Pandas.sort_values time df)) (i + L))
    as [m |] eqn:Em; [| discriminate].
  injection Hi as <-.
  apply nth_error_In in Em. apply in_map_iff in Em.
  destruct Em as (r & <- & Hr).
  exists r. split; [| reflexivity].
  eapply Permutation_in; [apply sort_values_permutation | exact Hr].
Qed.

(** The labels realised from positive magnitudes are bins. *)
Lemma prepared_labels (df : DataFrame) (L : nat) (X : list (list Q))
  (y : list Z) (scaler : Sklearn.MinMaxScaler) :
  prepare_sequences df L = Returned (X, y, scaler) ->
  (forall r, In r df -> 0 < magnitude r) ->
  List.length X = List.length y /\
  forall l, In l y -> (0 <= l <= 4)%Z.
Proof.
  intros Hprep Hpos.
  destruct (prepared_labels_origin _ _ _ _ _ Hprep) as (HX & Hy & Hfrom).
  split; [lia |].
  intros l Hl. destruct (Hfrom l Hl) as (r & Hr & ->).
  apply mag_bin_range, Hpos, Hr.
Qed.

Section TrainModel.

Context {E : LSTM} (T : Trainer E).
Context (source : outcome DataFrame) (file : option (StateDict E)).
Context (df : DataFrame) (X : list (list Q)) (y : list Z).
Context (scaler : Sklearn.MinMaxScaler).

Hypothesis Hload : load_earthquake_data source = Some df.
Hypothesis Hprep : prepare_sequences df seq_length = Returned (X, y, scaler).

Let split_idx : nat := (List.length X * 4 / 5)%nat.
Let y_train : list Z := firstn split_idx y.

Hypothesis Hsplit : y_train <> [].

Lemma train_split_nonempty : firstn split_idx X <> [].
Proof.
  destruct (prepared_labels _ _ _ _ _ Hprep
              (loaded_magnitudes_positive _ _ Hload)) as (Hlen & _).
  intros HX. apply Hsplit.
  apply (f_equal (@List.length _)) in HX.
  rewrite length_firstn in HX. cbn [List.length] in HX.
  apply length_zero_iff_nil. unfold y_train.
  rewrite length_firstn. rewrite <- Hlen. exact HX.
Qed.

(** Past the data loader, [train_model] stands or falls with the class
    weights. *)
Lemma train_model_raises (e : exn) :
  class_weights y_train = Raised e -> train_model T source file = Raised e.
Proof.
  intros Hw. unfold train_model. rewrite Hload, Hprep. cbn [bind].
  unfold shuffled_loader. cbn [ds_X].
  pose proof train_split_nonempty as HX. fold split_idx.
  destruct (firstn split_idx X) as [| w ws] eqn:EX; [contradiction |].
  cbn [List.length Nat.eqb bind]. fold y_train. rewrite Hw. reflexivity.
Qed.

Lemma train_model_completes (weights : list Q) :
  class_weights y_train = Returned weights ->
  exists final_epoch final_metrics checkpoint,
    train_model T source file
    = Returned (TrainCompleted final_epoch final_metrics, checkpoint) /\
    (1 <= final_epoch <= 100)%nat.
Proof.
  intros Hw. unfold train_model. rewrite Hload, Hprep. cbn [bind].
  unfold shuffled_loader. cbn [ds_X].
  pose proof train_split_nonempty as HX. fold split_idx.
  destruct (firstn split_idx X) as [| w ws] eqn:EX; [contradiction |].
  cbn [List.length Nat.eqb bind]. fold y_train. rewrite Hw. cbn [bind].
  set (train := {| ds_X := w :: ws; ds_y := y_train |}).
  set (val := {| ds_X := skipn split_idx X; ds_y := skipn split_idx y |}).
  destruct (train_loop_exits T train val weights file)
    as (n & Hn & Hrun & Hep & _ & _).
  pose proof (train_loop_runs_once T train val weights file) as Honce.
  rewrite Hep in Honce.
  destruct n as [| n]; [lia |].
  assert (Hm : exists m,
             st_metrics (train_loop max_epochs train val
                           (loop_init T weights file)) = Some m).
  { rewrite Hrun, after_epochs_succ.
    destruct (epoch_step_fields T train val
                (after_epochs train val (loop_init T weights file) n))
      as (_ & _ & _ & _ & m & Hm & _).
    exists m. exact Hm. }
  destruct Hm as (m & Hm). rewrite Hm.
  eexists _, m, _. split; [reflexivity |]. rewrite Hep. lia.
Qed.

End TrainModel.

Lemma in_firstn {A : Type} (n : nat) (l : list A) (a : A) :
  In a (firstn n l) -> In a l.
Proof.
  intros H. rewrite <- (firstn_skipn n l). apply in_or_app. left. exact H.
Qed.

(** C10, as the code has it.  For a non-empty training split the realised
    labels are bins 0..4.  If the largest label present is 1, 2 or 3,
    [np.bincount] yields 2 to 4 counts, which cannot be broadcast against
    the five amplification factors: the class-weight computation raises
    [ValueError] and [train_model] lets it through, returning nothing.  If
    the largest label is 0, the single count is stretched over the five
    factors, and [train_model] runs the loop and returns its result. *)
Theorem train_model_missing_bins {E : LSTM} (T : Trainer E)
  (source : outcome DataFrame) (file : option (StateDict E))
  (df : DataFrame) (X : list (list Q)) (y : list Z)
  (scaler : Sklearn.MinMaxScaler) :
  load_earthquake_data source = Some df ->
  prepare_sequences df seq_length = Returned (X, y, scaler) ->
  let y_train := firstn (List.length X * 4 / 5) y in
  y_train <> [] ->
  (forall l, In l y_train -> (0 <= l <= 4)%Z) /\
  ((1 <= Numpy.amax y_train <= 3)%Z ->
   (exists counts,
       Numpy.bincount y_train = Returned counts /\
       (2 <= List.length counts <= 4)%nat) /\
   class_weights y_train = Raised Numpy.broadcast_error /\
   train_model T source file = Raised Numpy.broadcast_error) /\
  (Numpy.amax y_train = 0%Z ->
   (exists c w,
       Numpy.bincount y_train = Returned [c] /\
       class_weights y_train = Returned w /\ List.length w = 5%nat) /\
   exists final_epoch final_metrics checkpoint,
     train_model T source file
     = Returned (TrainCompleted final_epoch final_metrics, checkpoint)).
Proof.
  intros Hload Hprep y_train Hsplit.
  destruct (prepared_labels _ _ _ _ _ Hprep
              (loaded_magnitudes_positive _ _ Hload)) as (_ & Hbins).
  assert (Hrange : forall l, In l y_train -> (0 <= l <= 4)%Z).
  { intros l Hl. apply Hbins. eapply in_firstn. exact Hl. }
  split; [exact Hrange |].
  assert (Hpos : forall l, In l y_train -> (0 <= l)%Z).
  { intros l Hl. apply Hrange in Hl. lia. }
  destruct (class_weights_by_top y_train Hsplit Hpos) as (Hzero & Hmissing).
  split.
  - intros Htop. destruct (Hmissing Htop) as (Hcounts & Hw).
    split; [exact Hcounts |]. split; [exact Hw |].
    apply (train_model_raises T source file df X y scaler Hload Hprep Hsplit).
    exact Hw.
  - intros Htop. destruct (Hzero Htop) as (c & w & Hc & Hw & Hlen).
    split; [exists c, w; repeat split; assumption |].
    destruct (train_model_completes T source file df X y scaler
                Hload Hprep Hsplit w Hw)
      as (final_epoch & final_metrics & checkpoint & Hret & _).
    exists final_epoch, final_metrics, checkpoint. exact Hret.
Qed.

(** Thirty readings of magnitude 5 (bin 1) and of magnitude 3 (bin 0):
    twenty windows, every label the bin of that magnitude. *)
Lemma constant_table_prepared (m : Q) (label : Z) :
  (m = 5 /\ label = 1%Z) \/ (m = 3 /\ label = 0%Z) ->
  exists X scaler,
    load_earthquake_data (Returned (Demo.constant_table 30 m))
    = Some (Demo.constant_table 30 m) /\
    prepare_sequences (Demo.constant_table 30 m) seq_length
    = Returned (X, repeat label 20, scaler) /\
    List.length X = 20%nat.
Proof.
  intros [(-> & ->) | (-> & ->)];
    eexists _, _; (split; [| split]); vm_compute; reflexivity.
Qed.

Lemma train_model_missing_bins_witness :
  train_model (Demo.scripted Demo.rising)
    (Returned (Demo.constant_table 30 5)) None
  = Raised Numpy.broadcast_error.
Proof.
  destruct (constant_table_prepared 5 1%Z) as (X & scaler & Hload & Hprep & HX);
    [left; split; reflexivity |].
  destruct (train_model_missing_bins (Demo.scripted Demo.rising)
              (Returned (Demo.constant_table 30 5)) None
              (Demo.constant_table 30 5) X (repeat 1%Z 20) scaler Hload Hprep)
    as (_ & Hmissing & _).
  - rewrite HX. discriminate.
  - apply Hmissing. rewrite HX. cbn. lia.
Defined.

(** C10 as the specification states it fails when bin 0 is the only bin:
    thirty readings of magnitude 3 give a training split of sixteen labels,
    all 0, so the largest label is below 4; the class weights are computed
    and [train_model] returns a result. *)
Lemma train_model_single_bin_counterexample :
  exists X scaler final_epoch final_metrics checkpoint,
    prepare_sequences (Demo.constant_table 30 3) seq_length
    = Returned (X, repeat 0%Z 20, scaler) /\
    List.length X = 20%nat /\
    firstn (20 * 4 / 5) (repeat 0%Z 20) <> [] /\
    (Numpy.amax (firstn (20 * 4 / 5) (repeat 0%Z 20)) < 4)%Z /\
    Py.raises (class_weights (firstn (20 * 4 / 5) (repeat 0%Z 20))) = false /\
    train_model (Demo.scripted Demo.rising)
      (Returned (Demo.constant_table 30 3)) None
    = Returned (TrainCompleted final_epoch final_metrics, checkpoint).
Proof.
  destruct (constant_table_prepared 3 0%Z) as (X & scaler & Hload & Hprep & HX);
    [right; split; reflexivity |].
  assert (Hsplit : firstn (List.length X * 4 / 5) (repeat 0%Z 20) <> [])
    by (rewrite HX; discriminate).
  assert (Hw : exists w,
             class_weights (firstn (List.length X * 4 / 5) (repeat 0%Z 20))
             = Returned w)
    by (rewrite HX; eexists; vm_compute; reflexivity).
  destruct Hw as (w & Hw).
  destruct (train_model_completes (Demo.scripted Demo.rising)
              (Returned (Demo.constant_table 30 3)) None
              (Demo.constant_table 30 3) X (repeat 0%Z 20) scaler
              Hload Hprep Hsplit w Hw)
    as (final_epoch & final_metrics & checkpoint & Hret & _).
  exists X, scaler, final_epoch, final_metrics, checkpoint.
  split; [exact Hprep |]. split; [exact HX |].
  split; [discriminate |]. split; [cbn; lia |].
  split; [vm_compute; reflexivity | exact Hret].
Qed.

(** ** Tables of one magnitude *)

Lemma constant_table_rows (n : nat) (m : Q) (r : reading) :
  In r (Demo.constant_table n m) -> magnitude r = m.
Proof.
  unfold Demo.constant_table. intros H. apply in_map_iff in H.
  destruct H as (t & <- & _). reflexivity.
Qed.

Lemma load_constant_table (n : nat) (m : Q) :
  0 < m ->
  load_earthquake_data (Returned (Demo.constant_table n m))
  = Some (Demo.constant_table n m).
Proof.
  intros Hpos. unfold load_earthquake_data. f_equal.
  apply forallb_filter_id. apply forallb_forall.
  intros r Hr. rewrite (constant_table_rows _ _ _ Hr). apply Qltb_lt, Hpos.
Qed.

(** Training on [n >= 12] readings of magnitude 5: every label is bin 1,
    the training split is not empty, and the class weights cannot be
    computed. *)
Lemma train_model_constant_five {E : LSTM} (T : Trainer E) (n : nat)
  (file : option (StateDict E)) :
  (12 <= n)%nat ->
  train_model T (Returned (Demo.constant_table n 5)) file
  = Raised Numpy.broadcast_error.
Proof.
  intros Hn.
  assert (Hload := load_constant_table n 5 ltac:(reflexivity)).
  assert (Hrows : List.length (Demo.constant_table n 5) = n).
  { unfold Demo.constant_table. rewrite length_map, length_seq. reflexivity. }
  assert (Hprep : exists X y scaler,
             prepare_sequences (Demo.constant_table n 5) seq_length
             = Returned (X, y, scaler)).
  { destruct (prepare_sequences_returns (Demo.constant_table n 5) seq_length)
      as (y & scaler & _ & Hprep & _); [lia | unfold seq_length; lia |].
    eexists _, y, scaler. exact Hprep. }
  destruct Hprep as (X & y & scaler & Hprep).
  destruct (prepared_labels_origin _ _ _ _ _ Hprep) as (HX & Hy & Hfrom).
  rewrite Hrows in HX, Hy. unfold seq_length in HX, Hy.
  set (y_train := firstn (List.length X * 4 / 5) y).
  assert (Hidx : (1 <= List.length X * 4 / 5 <= List.length y)%nat).
  { rewrite HX, Hy. split.
    - apply Nat.div_le_lower_bound; lia.
    - apply Nat.Div0.div_le_upper_bound. lia. }
  assert (Hsplit : y_train <> []).
  { intros Hnil. apply (f_equal (@List.length _)) in Hnil.
    unfold y_train in Hnil. rewrite length_firstn in Hnil.
    cbn [List.length] in Hnil. lia. }
  assert (Hones : forall l, In l y_train -> l = 1%Z).
  { intros l Hl. apply in_firstn in Hl.
    destruct (Hfrom l Hl) as (r & Hr & ->).
    rewrite (constant_table_rows _ _ _ Hr). reflexivity. }
  assert (Htop : Numpy.amax y_train = 1%Z).
  { destruct y_train as [| l0 rest] eqn:Ey; [contradiction |].
    assert (H0 : l0 = 1%Z) by (apply Hones; left; reflexivity).
    apply amax_of_top; [lia | left; exact H0 |].
    intros l Hl. rewrite (Hones l Hl). lia. }
  assert (Hpos : forall l, In l y_train -> (0 <= l)%Z).
  { intros l Hl. rewrite (Hones l Hl). lia. }
  destruct (class_weights_by_top y_train Hsplit Hpos) as (_ & Hmissing).
  apply (train_model_raises T _ file _ X y scaler Hload Hprep Hsplit).
  apply Hmissing. rewrite Htop. lia.
Qed.

(** ** The command dispatch *)

(** The [predict] branch catches everything: whatever the arguments, the
    parser and the checkpoint, the script prints a result, and that result
    is a report or has the shape [{"error": message}]. *)
Lemma main_predict_never_raises {E : LSTM} (T : Trainer E)
  (json_loads : string -> outcome pyvalue) (script : string)
  (rest : list string) (source : outcome DataFrame)
  (file : option (StateDict E)) :
  exists out,
    main T json_loads (script :: "predict"%string :: rest) source file
    = Returned out /\
    ((exists report, out = OutPredict (Prediction report))
     \/ exists msg, error_of out = Some msg).
Proof.
  unfold main. cbn [String.eqb Ascii.eqb Bool.eqb andb].
  destruct (index (script :: "predict"%string :: rest) 2) as [arg | e];
    cbn [bind].
  - destruct (json_loads arg) as [v | e]; cbn [bind].
    + eexists. split; [reflexivity |].
      destruct (predict_magnitude file v) as [report | msg].
      * left. exists report. reflexivity.
      * right. exists msg. reflexivity.
    + eexists. split; [reflexivity |]. right. eexists. reflexivity.
  - eexists. split; [reflexivity |]. right. eexists. reflexivity.
Qed.

Lemma main_train_raises {E : LSTM} (T : Trainer E)
  (json_loads : string -> outcome pyvalue) (script : string)
  (rest : list string) (source : outcome DataFrame)
  (file : option (StateDict E)) (e : exn) :
  train_model T source file = Raised e ->
  main T json_loads (script :: "train"%string :: rest) source file = Raised e.
Proof.
  intros H. unfold main. cbn [String.eqb Ascii.eqb Bool.eqb andb].
  rewrite H. reflexivity.
Qed.

(** The [train] branch catches nothing: the script ends in an uncaught
    exception exactly when [train_model] raises, and in that very
    exception. *)
Theorem main_train_propagates {E : LSTM} (T : Trainer E)
  (json_loads : string -> outcome pyvalue) (script : string)
  (rest : list string) (source : outcome DataFrame)
  (file : option (StateDict E)) (e : exn) :
  train_model T source file = Raised e <->
  main T json_loads (script :: "train"%string :: rest) source file = Raised e.
Proof.
  split; [apply main_train_raises |].
  unfold main. cbn [String.eqb Ascii.eqb Bool.eqb andb].
  destruct (train_model T source file) as [result | e']; cbn [bind];
    [discriminate | intros H; injection H as ->; reflexivity].
Qed.

(** C7 fails on the [train] operation.  With readings that are all of
    magnitude 5 the training labels miss bins 2..4 (for the 10000 readings
    the generator builds as for 30), and with five readings there is no
    window at all: in each of these runs the script ends in an uncaught
    [ValueError] instead of printing [{"error": ...}].  The [predict]
    operation, given an argument that does not parse, prints the error. *)
Theorem main_train_uncaught :
  let json_loads := fun _ : string =>
    raise JSONDecodeError "Expecting value" : outcome pyvalue in
  main (Demo.scripted Demo.rising) json_loads
    ["enhanced_lstm.py"; "train"]%string
    (Returned (Demo.constant_table (100 * 100) 5)) None
  = Raised Numpy.broadcast_error /\
  main (Demo.scripted Demo.rising) json_loads
    ["enhanced_lstm.py"; "train"]%string
    (Returned (Demo.constant_table 30 5)) None
  = Raised Numpy.broadcast_error /\
  main (Demo.scripted Demo.rising) json_loads
    ["enhanced_lstm.py"; "train"]%string
    (Returned (Demo.constant_table 5 5)) None
  = Raised (Exn ValueError
      "num_samples should be a positive integer value, but got num_samples=0") /\
  main (Demo.scripted Demo.rising) json_loads
    ["enhanced_lstm.py"; "predict"; "[[5.0"]%string
    (Returned (Demo.constant_table 30 5)) None
  = Returned (OutError "Expecting value").
Proof.
  cbv zeta. split; [| split; [| split]].
  - apply main_train_raises, train_model_constant_five. lia.
  - apply main_train_raises, train_model_constant_five. lia.
  - vm_compute. reflexivity.
  - vm_compute. reflexivity.
Qed.

(** ** Further properties of the two operations *)

(** When the data cannot be loaded, [train_model] reports
    [{"error": "Failed to load data"}] without touching the checkpoint,
    and the script prints it. *)
Theorem train_model_data_unavailable {E : LSTM} (T : Trainer E)
  (json_loads : string -> outcome pyvalue) (script : string) (e : exn)
  (file : option (StateDict E)) :
  train_model T (Raised e) file
  = Returned (TrainError "Failed to load data", file) /\
  main T json_loads [script; "train"%string] (Raised e) file
  = Returned (OutTrain (TrainError "Failed to load data")).
Proof.
  split; reflexivity.
Qed.

Lemma main_train_propagates_witness :
  main (Demo.scripted Demo.rising) (fun _ => Returned (PyNum 0))
    ["enhanced_lstm.py"; "train"]%string
    (Returned (Demo.constant_table 30 5)) None
  = Raised Numpy.broadcast_error.
Proof.
  apply (proj1 (main_train_propagates _ _ _ _ _ _ _)). vm_compute. reflexivity.
Defined.

(** What a completed training run reports: between 1 and 100 epochs, and
    a recall of at least 0.95 unless the cap of 100 epochs was reached. *)
Theorem train_model_report {E : LSTM} (T : Trainer E)
  (source : outcome DataFrame) (file checkpoint : option (StateDict E))
  (final_epoch : nat) (final_metrics : Metrics) :
  train_model T source file
  = Returned (TrainCompleted final_epoch final_metrics, checkpoint) ->
  (1 <= final_epoch <= 100)%nat /\
  ((final_epoch < 100)%nat -> 95 # 100 <= recall final_metrics).
Proof.
  unfold train_model.
  destruct (load_earthquake_data source) as [df |]; [| discriminate].
  destruct (prepare_sequences df seq_length) as [[[X y] scaler] |];
    cbn [bind]; [| discriminate].
  destruct (shuffled_loader _) as [train |]; cbn [bind]; [| discriminate].
  destruct (class_weights _) as [weights |]; cbn [bind]; [| discriminate].
  set (val := {| ds_X := _; ds_y := _ |}).
  destruct (train_loop_exits T train val weights file)
    as (n & Hn & Hrun & Hep & _ & Hexit).
  pose proof (train_loop_runs_once T train val weights file) as Honce.
  remember (train_loop max_epochs train val (loop_init T weights file))
    as final eqn:Hfinal.
  destruct (st_metrics final) as [m |] eqn:Hm; [| discriminate].
  intros H.
  assert (Hepoch : st_epoch final = final_epoch) by congruence.
  assert (Hmetrics : m = final_metrics) by congruence.
  clear H. subst final_epoch final_metrics.
  split; [lia |].
  intros Hlt.
  apply loop_cond_false in Hexit. destruct Hexit as [Hr | He]; [| lia].
  rewrite Hep in Honce. destruct n as [| n]; [lia |].
  rewrite Hrun, after_epochs_succ in Hm, Hr.
  destruct (epoch_step_fields T train val
              (after_epochs train val (loop_init T weights file) n))
    as (_ & _ & _ & _ & m' & Hm' & Hrec).
  rewrite Hm' in Hm. injection Hm as ->.
  rewrite Hrec. exact Hr.
Qed.

Lemma train_model_report_witness :
  exists final_epoch final_metrics checkpoint,
    train_model (Demo.scripted Demo.rising)
      (Returned (Demo.constant_table 30 3)) None
    = Returned (TrainCompleted final_epoch final_metrics, checkpoint) /\
    (1 <= final_epoch <= 100)%nat.
Proof.
  destruct (constant_table_prepared 3 0%Z) as (X & scaler & Hload & Hprep & HX);
    [right; split; reflexivity |].
  assert (Hsplit : firstn (List.length X * 4 / 5) (repeat 0%Z 20) <> [])
    by (rewrite HX; discriminate).
  assert (Hw : exists w,
             class_weights (firstn (List.length X * 4 / 5) (repeat 0%Z 20))
             = Returned w)
    by (rewrite HX; eexists; vm_compute; reflexivity).
  destruct Hw as (w & Hw).
  destruct (train_model_completes (Demo.scripted Demo.rising)
              (Returned (Demo.constant_table 30 3)) None
              (Demo.constant_table 30 3) X (repeat 0%Z 20) scaler
              Hload Hprep Hsplit w Hw)
    as (final_epoch & final_metrics & checkpoint & Hret & _).
  exists final_epoch, final_metrics, checkpoint.
  split; [exact Hret |].
  apply (train_model_report _ _ _ _ _ _ Hret).
Defined.

(** ** Scaled magnitudes *)

Lemma fold_min_lower (l : list Q) (x : Q) :
  fold_left Qmin l x <= x /\ forall v, In v l -> fold_left Qmin l x <= v.
Proof.
  revert x. induction l as [| a l IH]; intros x; cbn [fold_left].
  - split; [lra | intros v []].
  - destruct (IH (Qmin x a)) as (Hx & Hl).
    pose proof (Q.le_min_l x a). pose proof (Q.le_min_r x a).
    split; [lra |].
    intros v [<- | Hv]; [lra | apply Hl, Hv].
Qed.

Lemma fold_max_upper (l : list Q) (x : Q) :
  x <= fold_left Qmax l x /\ forall v, In v l -> v <= fold_left Qmax l x.
Proof.
  revert x. induction l as [| a l IH]; intros x; cbn [fold_left].
  - split; [lra | intros v []].
  - destruct (IH (Qmax x a)) as (Hx & Hl).
    pose proof (Q.le_max_l x a). pose proof (Q.le_max_r x a).
    split; [lra |].
    intros v [<- | Hv]; [lra | apply Hl, Hv].
Qed.

(** The fitted scaler maps every value of its column into [0, 1]. *)
Lemma fitted_transform_unit (column : list Q) (scaler : Sklearn.MinMaxScaler)
  (v : Q) :
  Sklearn.fit column = Returned scaler -> In v column ->
  0 <= Sklearn.transform scaler v <= 1.
Proof.
  destruct column as [| x rest]; [discriminate |].
  cbn [Sklearn.fit]. intros H Hv. injection H as <-.
  unfold Sklearn.transform. cbn [Sklearn.scale_ Sklearn.min_].
  set (lo := fold_left Qmin rest x). set (hi := fold_left Qmax rest x).
  assert (Hlo : lo <= v).
  { destruct (fold_min_lower rest x) as (H1 & H2).
    destruct Hv as [<- | Hv]; [exact H1 | apply H2, Hv]. }
  assert (Hhi : v <= hi).
  { destruct (fold_max_upper rest x) as (H1 & H2).
    destruct Hv as [<- | Hv]; [exact H1 | apply H2, Hv]. }
  destruct (Qeq_bool (hi - lo) 0) eqn:Hrange.
  - apply Qeq_bool_iff in Hrange.
    assert (Hval : v * (1 / 1) + (0 - lo * (1 / 1)) == v - lo) by field.
    rewrite Hval. lra.
  - apply Qeq_bool_false in Hrange.
    assert (Hpos : 0 < hi - lo).
    { destruct (Qlt_le_dec 0 (hi - lo)) as [H | H]; [exact H |].
      exfalso. apply Hrange. lra. }
    assert (Hval : v * (1 / (hi - lo)) + (0 - lo * (1 / (hi - lo)))
                   == (v - lo) / (hi - lo)) by (field; lra).
    rewrite Hval. split.
    + apply Qle_shift_div_l; [exact Hpos | lra].
    + apply Qle_shift_div_r; [exact Hpos | lra].
Qed.

(** Every entry of every window [prepare_sequences] returns lies between
    0 and 1. *)
Theorem windows_in_unit_interval (df : DataFrame) (L : nat)
  (X : list (list Q)) (y : list Z) (scaler : Sklearn.MinMaxScaler) :
  prepare_sequences df L = Returned (X, y, scaler) ->
  forall window v, In window X -> In v window -> 0 <= v <= 1.
Proof.
  unfold prepare_sequences, Sklearn.fit_transform.
  set (mags := map magnitude (Pandas.sort_values time df)).
  destruct (Sklearn.fit mags) as [s |] eqn:Hfit; cbn [bind]; [| discriminate].
  destruct (mapM _ _) as [labels' |]; cbn [bind]; [| discriminate].
  unfold Numpy.reshape_windows.
  destruct (L =? 0)%nat; cbn [bind]; [discriminate |].
  intros H. injection H as <- _ _.
  intros window v Hw Hv.
  apply in_map_iff in Hw. destruct Hw as (i & <- & _).
  unfold slice in Hv. apply in_firstn in Hv.
  assert (Hin : In v (map (Sklearn.transform s) mags)).
  { rewrite <- (firstn_skipn i (map (Sklearn.transform s) mags)).
    apply in_or_app. right. exact Hv. }
  apply in_map_iff in Hin. destruct Hin as (m & <- & Hm).
  eapply fitted_transform_unit; eassumption.
Qed.

Lemma windows_in_unit_interval_witness :
  exists X y scaler,
    prepare_sequences
      [Demo.row 3 5; Demo.row 1 (45 # 10); Demo.row 2 7;
       Demo.row 4 (81 # 10); Demo.row 0 3] 2
    = Returned (X, y, scaler) /\
    forall window v, In window X -> In v window -> 0 <= v <= 1.
Proof.
  eexists _, _, _. split.
  - vm_compute. reflexivity.
  - eapply (windows_in_unit_interval
              [Demo.row 3 5; Demo.row 1 (45 # 10); Demo.row 2 7;
               Demo.row 4 (81 # 10); Demo.row 0 3] 2).
    vm_compute. reflexivity.
Defined.

(** * Further properties *)

(** ** The datasets of [train_model] *)

(** [train_model] trains and validates on the two halves of
    [train_val_split]. *)
Lemma train_model_uses_split {E : LSTM} (T : Trainer E)
  (source : outcome DataFrame) (file : option (StateDict E))
  (df : DataFrame) (X : list (list Q)) (y : list Z)
  (scaler : Sklearn.MinMaxScaler) :
  load_earthquake_data source = Some df ->
  prepare_sequences df seq_length = Returned (X, y, scaler) ->
  train_model T source file
  = (let '(train_dataset, val_dataset) := train_val_split X y in
     train_loader <- shuffled_loader train_dataset ;;
     weights <- class_weights (ds_y train_dataset) ;;
     let final :=
       train_loop max_epochs train_loader val_dataset
         (loop_init T weights file) in
     match st_metrics final with
     | Some m =>
         Returned (TrainCompleted (st_epoch final) m, st_checkpoint final)
     | None =>
         raise UnboundLocalError "local variable referenced before assignment"
     end).
Proof.
  intros Hload Hprep. unfold train_model. rewrite Hload, Hprep. reflexivity.
Qed.

Lemma getitem_in_range (d : QuakeDataset) (idx : nat) :
  List.length (ds_X d) = List.length (ds_y d) ->
  ((idx < QuakeDataset_len d)%nat ->
   exists w l,
     QuakeDataset_getitem d idx = Returned (w, l) /\
     nth_error (ds_X d) idx = Some w /\ nth_error (ds_y d) idx = Some l) /\
  ((QuakeDataset_len d <= idx)%nat ->
   QuakeDataset_getitem d idx
   = Raised (Exn IndexError "index out of range")).
Proof.
  intros Hlen. unfold QuakeDataset_len, QuakeDataset_getitem, index. split.
  - intros Hidx.
    destruct (nth_error (ds_X d) idx) as [w |] eqn:Ew;
      [| apply nth_error_None in Ew; lia].
    destruct (nth_error (ds_y d) idx) as [l |] eqn:El;
      [| apply nth_error_None in El; lia].
    exists w, l. repeat split.
  - intros Hidx.
    destruct (nth_error (ds_X d) idx) as [w |] eqn:Ew; [| reflexivity].
    exfalso. assert (nth_error (ds_X d) idx <> None) by congruence.
    apply nth_error_Some in H. lia.
Qed.

(** The datasets [train_model] builds from what [prepare_sequences]
    returns.  Together they hold every window and label once, in time
    order; training gets [floor(0.8 n)] of the [n] windows, validation
    the rest, which is at least one whenever there is a window; item
    [idx] of the training set is window [idx] with label [idx], item [idx]
    of the validation set is window [split + idx] with its label, and an
    index from the length on raises [IndexError]. *)
Theorem train_val_datasets (df : DataFrame) (L : nat) (X : list (list Q))
  (y : list Z) (scaler : Sklearn.MinMaxScaler) :
  prepare_sequences df L = Returned (X, y, scaler) ->
  let train := fst (train_val_split X y) in
  let val := snd (train_val_split X y) in
  let split := QuakeDataset_len train in
  ds_X train ++ ds_X val = X /\ ds_y train ++ ds_y val = y /\
  (5 * split <= 4 * List.length X < 5 * (split + 1))%nat /\
  (split + QuakeDataset_len val = List.length X)%nat /\
  (X <> [] -> (1 <= QuakeDataset_len val)%nat) /\
  forall idx : nat,
    ((idx < split)%nat ->
     exists w l,
       QuakeDataset_getitem train idx = Returned (w, l) /\
       nth_error X idx = Some w /\ nth_error y idx = Some l) /\
    ((split <= idx)%nat ->
     QuakeDataset_getitem train idx
     = Raised (Exn IndexError "index out of range")) /\
    ((idx < QuakeDataset_len val)%nat ->
     exists w l,
       QuakeDataset_getitem val idx = Returned (w, l) /\
       nth_error X (split + idx) = Some w /\
       nth_error y (split + idx) = Some l) /\
    ((QuakeDataset_len val <= idx)%nat ->
     QuakeDataset_getitem val idx
     = Raised (Exn IndexError "index out of range")).
Proof.
  intros Hprep train val split.
  destruct (prepared_labels_origin _ _ _ _ _ Hprep) as (HX & Hy & _).
  assert (Hxy : List.length X = List.length y) by lia.
  set (k := (List.length X * 4 / 5)%nat).
  assert (Hk : (5 * k <= 4 * List.length X < 5 * (k + 1))%nat).
  { unfold k.
    pose proof (Nat.div_mod_eq (List.length X * 4) 5) as Hdm.
    pose proof (Nat.mod_upper_bound (List.length X * 4) 5) as Hub.
    lia. }
  assert (Hsplit : split = k).
  { unfold split, train, train_val_split, QuakeDataset_len, QuakeDataset_init.
    cbn [fst ds_X]. fold k. rewrite length_firstn. lia. }
  assert (Htrain : List.length (ds_X train) = List.length (ds_y train)).
  { unfold train, train_val_split, QuakeDataset_init. cbn [fst ds_X ds_y].
    rewrite !length_firstn. lia. }
  assert (Hval : List.length (ds_X val) = List.length (ds_y val)).
  { unfold val, train_val_split, QuakeDataset_init. cbn [snd ds_X ds_y].
    rewrite !length_skipn. lia. }
  assert (Hvlen : QuakeDataset_len val = (List.length X - k)%nat).
  { unfold QuakeDataset_len, val, train_val_split, QuakeDataset_init.
    cbn [snd ds_X]. fold k. apply length_skipn. }
  split; [apply firstn_skipn |]. split; [apply firstn_skipn |].
  rewrite Hsplit. split; [exact Hk |]. split; [lia |].
  split.
  { intros Hne. destruct X as [| w X']; [contradiction |].
    cbn [List.length] in *. lia. }
  intros idx.
  destruct (getitem_in_range train idx Htrain) as (Hin & Hout).
  destruct (getitem_in_range val idx Hval) as (Hvin & Hvout).
  fold split in Hin, Hout. rewrite Hsplit in Hin, Hout.
  split; [| split; [exact Hout | split; [| exact Hvout]]].
  - intros Hidx. destruct (Hin Hidx) as (w & l & Hget & Hw & Hl).
    exists w, l. split; [exact Hget |].
    unfold train, train_val_split, QuakeDataset_init in Hw, Hl.
    cbn [fst ds_X ds_y] in Hw, Hl. fold k in Hw, Hl.
    rewrite nth_error_firstn in Hw, Hl.
    apply Nat.ltb_lt in Hidx. rewrite Hidx in Hw, Hl.
    split; assumption.
  - intros Hidx. destruct (Hvin Hidx) as (w & l & Hget & Hw & Hl).
    exists w, l. split; [exact Hget |].
    unfold val, train_val_split, QuakeDataset_init in Hw, Hl.
    cbn [snd ds_X ds_y] in Hw, Hl. fold k in Hw, Hl.
    rewrite nth_error_skipn in Hw, Hl. split; assumption.
Qed.

Lemma train_val_datasets_witness :
  exists X y scaler,
    prepare_sequences (Demo.constant_table 30 3) seq_length
    = Returned (X, y, scaler) /\
    QuakeDataset_len (fst (train_val_split X y)) = 16%nat /\
    QuakeDataset_len (snd (train_val_split X y)) = 4%nat.
Proof.
  destruct (constant_table_prepared 3 0%Z) as (X & scaler & _ & Hprep & HX);
    [right; split; reflexivity |].
  exists X, (repeat 0%Z 20), scaler. split; [exact Hprep |].
  destruct (train_val_datasets _ _ _ _ _ Hprep)
    as (_ & _ & Hfloor & Hsum & _).
  rewrite HX in Hfloor, Hsum. split; lia.
Defined.

(** ** What the script lets through *)

(** The script ends in an uncaught exception only on the [train] command,
    and only with an exception of [train_model]: every other argument
    list, [predict] included, makes it print a result. *)
Theorem main_raises_only_in_train {E : LSTM} (T : Trainer E)
  (json_loads : string -> outcome pyvalue) (argv : list string)
  (source : outcome DataFrame) (file : option (StateDict E)) (e : exn) :
  main T json_loads argv source file = Raised e <->
  exists script rest,
    argv = script :: "train"%string :: rest /\
    train_model T source file = Raised e.
Proof.
  split.
  - unfold main. destruct argv as [| script [| command rest]];
      try discriminate.
    destruct (String.eqb_spec command "train") as [-> | Hnot].
    + intros H. exists script, rest. split; [reflexivity |].
      destruct (train_model T source file) as [r | e']; cbn [bind] in H;
        [discriminate | injection H as ->; reflexivity].
    + destruct (command =? "predict")%string; [| discriminate].
      destruct (_ <- index _ 2 ;; _); discriminate.
  - intros (script & rest & -> & H). apply main_train_raises. exact H.
Qed.

Lemma main_raises_only_in_train_witness :
  exists script rest,
    ["enhanced_lstm.py"; "train"]%string = script :: "train"%string :: rest /\
    train_model (Demo.scripted Demo.rising)
      (Returned (Demo.constant_table 30 5)) None
    = Raised Numpy.broadcast_error.
Proof.
  apply (main_raises_only_in_train (Demo.scripted Demo.rising)
           (fun _ => Returned (PyNum 0))).
  apply main_train_raises. vm_compute. reflexivity.
Defined.

(** ** Labels and the three guards before the loop *)









(** [train_model] needs twelve positive readings.  With fewer, it raises
    [ValueError] before the loop: from the scaler when no reading is
    left, from the shuffling loader otherwise, because at most one window
    exists and 80% of it is no window.  With twelve or more, windows and
    a non-empty training split exist, and [train_model] raises exactly
    when the class weights cannot be computed. *)
Theorem train_model_minimum_readings {E : LSTM} (T : Trainer E)
  (source : outcome DataFrame) (file : option (StateDict E))
  (df : DataFrame) :
  load_earthquake_data source = Some df ->
  ((List.length df < 12)%nat ->
   exists msg, train_model T source file = Raised (Exn ValueError msg)) /\
  ((12 <= List.length df)%nat ->
   exists X y scaler,
     prepare_sequences df seq_length = Returned (X, y, scaler) /\
     (1 <= QuakeDataset_len (fst (train_val_split X y)))%nat /\
     forall e,
       train_model T source file = Raised e
       <-> class_weights (ds_y (fst (train_val_split X y))) = Raised e).
Proof.
  intros Hload. split.
  - intros Hfew. unfold train_model. rewrite Hload.
    destruct df as [| r df'] eqn:Edf.
    { eexists. reflexivity. }
    rewrite <- Edf in *.
    destruct (prepare_sequences_returns df seq_length)
      as (y & scaler & _ & Hprep & Hylen & _);
      [rewrite Edf; cbn; lia | unfold seq_length; lia |].
    rewrite Hprep. cbn [bind]. rewrite length_map, length_seq.
    unfold seq_length.
    assert (Hk : ((List.length df - 10) * 4 / 5 = 0)%nat).
    { apply Nat.div_small. lia. }
    rewrite Hk. cbn [firstn shuffled_loader ds_X List.length Nat.eqb bind].
    eexists. reflexivity.
  - intros Hmany.
    destruct (prepare_sequences_returns df seq_length)
      as (y & scaler & _ & Hprep & Hylen & _);
      [lia | unfold seq_length; lia |].
    set (X := map _ _) in Hprep.
    assert (HX : List.length X = (List.length df - 10)%nat).
    { unfold X. rewrite length_map, length_seq. reflexivity. }
    unfold seq_length in Hylen.
    assert (Hk : (1 <= List.length X * 4 / 5 <= List.length X)%nat).
    { pose proof (Nat.div_mod_eq (List.length X * 4) 5) as Hdm.
      pose proof (Nat.mod_upper_bound (List.length X * 4) 5) as Hub.
      lia. }
    exists X, y, scaler. split; [exact Hprep |].
    assert (Hlen : QuakeDataset_len (fst (train_val_split X y))
                   = (List.length X * 4 / 5)%nat).
    { unfold QuakeDataset_len, train_val_split, QuakeDataset_init.
      cbn [fst ds_X]. rewrite length_firstn. lia. }
    split; [rewrite Hlen; lia |].
    assert (Hsplit : firstn (List.length X * 4 / 5) y <> []).
    { intros Hnil. apply (f_equal (@List.length _)) in Hnil.
      rewrite length_firstn in Hnil. cbn [List.length] in Hnil. lia. }
    intros e. unfold train_val_split, QuakeDataset_init. cbn [fst ds_y].
    split.
    + intros Hraise.
      destruct (class_weights (firstn (List.length X * 4 / 5) y))
        as [w | e'] eqn:Hw.
      * destruct (train_model_completes T source file df X y scaler
                    Hload Hprep Hsplit w Hw) as (a & b & c & Hret & _).
        rewrite Hret in Hraise. discriminate Hraise.
      * rewrite (train_model_raises T source file df X y scaler
                   Hload Hprep Hsplit e' Hw) in Hraise.
        injection Hraise as ->. reflexivity.
    + apply (train_model_raises T source file df X y scaler
               Hload Hprep Hsplit).
Qed.

Lemma train_model_minimum_readings_witness :
  exists msg,
    train_model (Demo.scripted Demo.rising)
      (Returned (Demo.constant_table 11 5)) None
    = Raised (Exn ValueError msg).
Proof.
  destruct (train_model_minimum_readings (Demo.scripted Demo.rising)
              (Returned (Demo.constant_table 11 5)) None
              (Demo.constant_table 11 5)) as (Hfew & _).
  - vm_compute. reflexivity.
  - apply Hfew. cbn. lia.
Defined.

(** ** The classifier on batches and on the argument of [predict] *)

Lemma chunks_length {A : Type} (len n : nat) (l : list A) :
  List.length (chunks len n l) = n.
Proof.
  revert l. induction n as [| n IH]; intros l; cbn; [reflexivity |].
  rewrite IH. reflexivity.
Qed.

Lemma forward_classify {E : LSTM} (sd : StateDict E) (x : Tensor) (b t : nat) :
  shape x = [b; S t; 1%nat] ->
  forward sd x = Returned (map (classify sd) (chunks (S t) b (data x))).
Proof.
  intros Hshape. unfold forward.
  rewrite (proj2 (lstm_last_returns E (sd_lstm sd) x _)
             (ex_intro _ b (ex_intro _ t (conj Hshape eq_refl)))).
  cbn [bind]. rewrite map_map. reflexivity.
Qed.

Lemma classify_length {E : LSTM} (sd : StateDict E) (window : list R) :
  load_state_dict sd = Returned sd ->
  List.length (classify sd window) = num_classes.
Proof.
  intros Hload. destruct (load_state_dict_inv _ _ Hload) as (_ & Hfc3).
  unfold classify. apply (linear_length _ _ _ _ Hfc3).
Qed.

(** The shape contract of [EarthquakeLSTM.forward] with loaded
    parameters: it accepts exactly the inputs of shape (batch, time, 1)
    with at least one time step and raises on every other shape; what it
    returns has one row per batch entry, each of five logits. *)
Theorem forward_shape {E : LSTM} (sd : StateDict E) (x : Tensor) :
  load_state_dict sd = Returned sd ->
  ((exists output, forward sd x = Returned output)
   <-> exists b t, shape x = [b; S t; 1%nat]) /\
  forall output,
    forward sd x = Returned output ->
    List.length output = hd 0%nat (shape x) /\
    forall row, In row output -> List.length row = 5%nat.
Proof.
  intros Hload.
  assert (Hinv : forall output, forward sd x = Returned output ->
                 exists b t, shape x = [b; S t; 1%nat]).
  { intros output Hf. unfold forward in Hf.
    destruct (lstm_last E (sd_lstm sd) x) as [out |] eqn:Hl; [| discriminate].
    apply lstm_last_returns in Hl. destruct Hl as (b & t & Hs & _).
    exists b, t. exact Hs. }
  split.
  - split.
    + intros (output & Hf). exact (Hinv output Hf).
    + intros (b & t & Hs). eexists. apply (forward_classify sd x b t Hs).
  - intros output Hf. destruct (Hinv output Hf) as (b & t & Hs).
    rewrite (forward_classify sd x b t Hs) in Hf. injection Hf as <-.
    rewrite Hs. cbn [hd]. split.
    + rewrite length_map. apply chunks_length.
    + intros row Hrow. apply in_map_iff in Hrow.
      destruct Hrow as (w & <- & _). apply (classify_length sd w Hload).
Qed.

Lemma forward_shape_witness :
  exists output,
    forward Demo.parameters
      {| shape := [2%nat; 3%nat; 1%nat]; data := [1; 2; 3; 4; 5; 6]%R |}
    = Returned output /\
    List.length output = 2%nat.
Proof.
  destruct (forward_shape Demo.parameters
              {| shape := [2%nat; 3%nat; 1%nat]; data := [1; 2; 3; 4; 5; 6]%R |})
    as (Hiff & Hout); [reflexivity |].
  destruct (proj2 Hiff) as (output & Hf).
  - exists 2%nat, 2%nat. reflexivity.
  - exists output. split; [exact Hf |]. apply (Hout output Hf).
Defined.

Lemma chunks_concat {A : Type} (len : nat) (ws : list (list A)) :
  (forall w, In w ws -> List.length w = len) ->
  chunks len (List.length ws) (List.concat ws) = ws.
Proof.
  induction ws as [| w ws IH]; intros Hlen; [reflexivity |].
  cbn [List.length chunks List.concat].
  assert (Hw : List.length w = len) by (apply Hlen; left; reflexivity).
  rewrite firstn_app, skipn_app, Hw, Nat.sub_diag.
  rewrite <- Hw at 1 3. rewrite firstn_all, skipn_all.
  cbn [firstn skipn app]. rewrite app_nil_r. f_equal.
  apply IH. intros w' Hw'. apply Hlen. right. exact Hw'.
Qed.

Lemma collate_returns (windows : list (list Q)) (t : nat) :
  windows <> [] ->
  (forall w, In w windows -> List.length w = S t) ->
  collate windows
  = Returned {| shape := [List.length windows; S t; 1%nat];
                data := List.concat (map (map Q2R) windows) |}.
Proof.
  intros Hne Hlen. destruct windows as [| w rest]; [contradiction |].
  unfold collate.
  assert (Hw : List.length w = S t) by (apply Hlen; left; reflexivity).
  assert (Hall : forallb (fun w' => (List.length w' =? List.length w)%nat) rest
                 = true).
  { apply forallb_forall. intros w' Hw'. apply Nat.eqb_eq.
    rewrite Hw. apply Hlen. right. exact Hw'. }
  rewrite Hall, Hw. reflexivity.
Qed.

Lemma forward_collated {E : LSTM} (sd : StateDict E)
  (windows : list (list Q)) (t : nat) :
  (forall w, In w windows -> List.length w = S t) ->
  forward sd {| shape := [List.length windows; S t; 1%nat];
                data := List.concat (map (map Q2R) windows) |}
  = Returned (map (fun w => classify sd (map Q2R w)) windows).
Proof.
  intros Hlen.
  rewrite (forward_classify sd _ (List.length windows) t) by reflexivity.
  cbn [data].
  rewrite <- (length_map (map Q2R) windows) at 1.
  rewrite (chunks_concat (S t)).
  - rewrite map_map. reflexivity.
  - intros w' Hw'. apply in_map_iff in Hw'. destruct Hw' as (w0 & <- & Hw0).
    rewrite length_map. apply Hlen, Hw0.
Qed.

(** A batch is classified window by window.  Windows of one length
    [T >= 1] are collated into one tensor, and the forward pass on it
    returns, in order, the logits [classify] gives each window by itself:
    in evaluation mode the batch a window travels in does not matter. *)
Theorem forward_on_batch {E : LSTM} (sd : StateDict E)
  (windows : list (list Q)) (t : nat) :
  windows <> [] ->
  (forall w, In w windows -> List.length w = S t) ->
  exists x,
    collate windows = Returned x /\
    forward sd x
    = Returned (map (fun w => classify sd (map Q2R w)) windows).
Proof.
  intros Hne Hlen. eexists. split.
  - apply (collate_returns windows t Hne Hlen).
  - apply (forward_collated sd windows t Hlen).
Qed.

Lemma forward_on_batch_witness :
  exists x,
    collate [[1; 2]; [3; 4]; [5; 6]] = Returned x /\
    forward Demo.parameters x
    = Returned (map (fun w => classify Demo.parameters (map Q2R w))
                    [[1; 2]; [3; 4]; [5; 6]]).
Proof.
  apply (forward_on_batch Demo.parameters [[1; 2]; [3; 4]; [5; 6]] 1).
  - discriminate.
  - intros w [<- | [<- | [<- | []]]]; reflexivity.
Defined.

(** [predict_magnitude] classifies the readings as they are given.  For a
    window written as rows, the reported distribution is the softmax of
    the logits of exactly these readings, read in order, and the bin is
    their argmax: no scaler is applied on the way to the encoder. *)
Theorem predict_classifies_raw_readings {E : LSTM}
  (file : option (StateDict E)) (readings : list Q) (report : Report) :
  predict_magnitude file (window_rows readings) = Prediction report ->
  exists sd,
    file = Some sd /\
    probabilityDistribution report = softmax (classify sd (map Q2R readings)) /\
    argmax (classify sd (map Q2R readings)) = Returned (magnitudeBin report).
Proof.
  intros Hres. apply predict_magnitude_prediction in Hres.
  destruct (predict_body_inv _ _ _ Hres) as (sd & t & Hable).
  destruct (predict_body_returns _ _ _ _ Hable)
    as (logits & report' & Hf & _ & Hbody & Hdist & Hbin & _).
  rewrite Hres in Hbody. injection Hbody as <-.
  destruct Hable as (Hfile & _ & Ht & n & Hshape).
  destruct readings as [| m rest] eqn:Er.
  { cbn in Ht. injection Ht as <-. discriminate Hshape. }
  rewrite <- Er in *.
  rewrite tensor_window_rows in Ht by (rewrite Er; discriminate).
  injection Ht as <-.
  rewrite (forward_classify sd _ 1 (List.length rest)) in Hf
    by (cbn [unsqueeze0 shape]; rewrite Er; reflexivity).
  cbn [unsqueeze0 data chunks map] in Hf.
  replace (S (List.length rest)) with (List.length (map Q2R readings)) in Hf
    by (rewrite length_map, Er; reflexivity).
  rewrite firstn_all in Hf. injection Hf as <-.
  exists sd. repeat split; assumption.
Qed.

Lemma predict_classifies_raw_readings_witness :
  exists report,
    predict_magnitude (Some Demo.parameters) (window_rows [1; 1; 1])
    = Prediction report /\
    probabilityDistribution report
    = softmax (classify Demo.parameters (map Q2R [1; 1; 1])).
Proof.
  assert (Hne : [1; 1; 1] <> @nil Q) by discriminate.
  destruct (predict_body_returns _ _ _ _ (demo_predictable [1; 1; 1] Hne))
    as (logits0 & report & _ & _ & Hbody & _).
  apply predict_magnitude_prediction in Hbody.
  exists report. split; [exact Hbody |].
  destruct (predict_classifies_raw_readings _ _ _ Hbody)
    as (sd & Hfile & Hdist & _).
  injection Hfile as <-. exact Hdist.
Defined.

(** ** The validation metrics *)

Section MetricSums.

Context {A : Type}.

Lemma nat_sum_add (f g : A -> nat) (l : list A) :
  fold_right Nat.add 0%nat (map (fun c => (f c + g c)%nat) l)
  = (fold_right Nat.add 0%nat (map f l)
     + fold_right Nat.add 0%nat (map g l))%nat.
Proof.
  induction l as [| c l IH]; cbn; [reflexivity | rewrite IH; lia].
Qed.

Lemma nat_sum_zero (f : A -> nat) (l : list A) :
  (forall c, In c l -> f c = 0%nat) ->
  fold_right Nat.add 0%nat (map f l) = 0%nat.
Proof.
  induction l as [| c l IH]; intros Hz; cbn; [reflexivity |].
  rewrite (Hz c) by (left; reflexivity).
  rewrite IH; [reflexivity |]. intros c' Hc'. apply Hz. right. exact Hc'.
Qed.

(** A family that vanishes off one label of a duplicate-free list sums
    to its value at that label. *)
Lemma nat_sum_single (f : A -> nat) (a : A) (l : list A) :
  NoDup l -> In a l -> (forall c, c <> a -> f c = 0%nat) ->
  fold_right Nat.add 0%nat (map f l) = f a.
Proof.
  intros Hnd Hin Hoff. induction Hnd as [| c l Hc Hnd IH]; [destruct Hin |].
  cbn [map fold_right]. destruct Hin as [-> | Hin].
  - rewrite nat_sum_zero; [lia |].
    intros c' Hc'. apply Hoff. intros ->. contradiction.
  - rewrite (IH Hin), Hoff; [reflexivity |]. intros ->. contradiction.
Qed.

Lemma Qsum_ext (f g : A -> Q) (l : list A) :
  (forall c, In c l -> f c == g c) ->
  fold_right Qplus 0 (map f l) == fold_right Qplus 0 (map g l).
Proof.
  induction l as [| c l IH]; intros Hfg; cbn [map fold_right]; [reflexivity |].
  rewrite (Hfg c) by (left; reflexivity).
  rewrite IH; [reflexivity |]. intros c' Hc'. apply Hfg. right. exact Hc'.
Qed.

Lemma Qsum_le (f g : A -> Q) (l : list A) :
  (forall c, In c l -> f c <= g c) ->
  fold_right Qplus 0 (map f l) <= fold_right Qplus 0 (map g l).
Proof.
  induction l as [| c l IH]; intros Hfg; cbn [map fold_right]; [lra |].
  apply Qplus_le_compat.
  - apply Hfg. left. reflexivity.
  - apply IH. intros c' Hc'. apply Hfg. right. exact Hc'.
Qed.

Lemma Qsum_nonneg (f : A -> Q) (l : list A) :
  (forall c, In c l -> 0 <= f c) -> 0 <= fold_right Qplus 0 (map f l).
Proof.
  induction l as [| c l IH]; intros Hf; cbn [map fold_right]; [lra |].
  assert (H1 : 0 <= f c) by (apply Hf; left; reflexivity).
  assert (H2 : 0 <= fold_right Qplus 0 (map f l))
    by (apply IH; intros c' Hc'; apply Hf; right; exact Hc').
  lra.
Qed.

Lemma Qsum_of_nat (f : A -> nat) (l : list A) :
  fold_right Qplus 0 (map (fun c => SklearnMetrics.of_nat (f c)) l)
  == SklearnMetrics.of_nat (fold_right Nat.add 0%nat (map f l)).
Proof.
  induction l as [| c l IH]; cbn [map fold_right]; [reflexivity |].
  rewrite IH. unfold SklearnMetrics.of_nat.
  rewrite Nat2Z.inj_add, inject_Z_plus. reflexivity.
Qed.

End MetricSums.

Lemma of_nat_le (a b : nat) :
  (a <= b)%nat -> SklearnMetrics.of_nat a <= SklearnMetrics.of_nat b.
Proof.
  intros H. unfold SklearnMetrics.of_nat. rewrite <- Zle_Qle. lia.
Qed.

Lemma of_nat_pos (a : nat) : (0 < a)%nat -> 0 < SklearnMetrics.of_nat a.
Proof.
  intros H. unfold SklearnMetrics.of_nat.
  change 0 with (inject_Z 0). rewrite <- Zlt_Qlt. lia.
Qed.

Lemma of_nat_nonneg (a : nat) : 0 <= SklearnMetrics.of_nat a.
Proof.
  unfold SklearnMetrics.of_nat.
  change 0 with (inject_Z 0). rewrite <- Zle_Qle. lia.
Qed.

Lemma prf_divide_bounds (n d : nat) :
  (n <= d)%nat -> 0 <= SklearnMetrics.prf_divide n d <= 1.
Proof.
  intros Hnd. unfold SklearnMetrics.prf_divide.
  destruct (d =? 0)%nat eqn:Ed; [lra |].
  apply Nat.eqb_neq in Ed.
  assert (Hd : 0 < SklearnMetrics.of_nat d) by (apply of_nat_pos; lia).
  split.
  - apply Qle_shift_div_l; [exact Hd |].
    rewrite Qmult_0_l. apply of_nat_nonneg.
  - apply Qle_shift_div_r; [exact Hd |].
    rewrite Qmult_1_l. apply of_nat_le, Hnd.
Qed.

Lemma prf_divide_times (n d : nat) :
  (n <= d)%nat ->
  SklearnMetrics.prf_divide n d * SklearnMetrics.of_nat d
  == SklearnMetrics.of_nat n.
Proof.
  intros Hnd. unfold SklearnMetrics.prf_divide.
  destruct (d =? 0)%nat eqn:Ed.
  - apply Nat.eqb_eq in Ed. assert (n = 0%nat) as -> by lia.
    rewrite Qmult_0_l. reflexivity.
  - apply Nat.eqb_neq in Ed.
    assert (Hd : 0 < SklearnMetrics.of_nat d) by (apply of_nat_pos; lia).
    field. lra.
Qed.

(** The pairs that agree on a label, counted per label, are together the
    pairs that agree. *)
Lemma tp_sum_pairs (pairs : list (Z * Z)) (ls : list Z) :
  NoDup ls -> (forall p, In p pairs -> In (fst p) ls) ->
  fold_right Nat.add 0%nat
    (map (fun c => List.length
                     (filter (fun tp => (fst tp =? c)%Z && (snd tp =? c)%Z)
                             pairs)) ls)
  = List.length (filter (fun tp => (fst tp =? snd tp)%Z) pairs).
Proof.
  intros Hnd. induction pairs as [| [a b] pairs IH]; intros Hin.
  - cbn [filter List.length]. apply nat_sum_zero. reflexivity.
  - assert (IH' := IH (fun p Hp => Hin p (or_intror Hp))). clear IH.
    assert (Ha : In a ls) by (apply (Hin (a, b)); left; reflexivity).
    cbn [filter fst snd].
    rewrite (map_ext
               (fun c => List.length
                  (if (a =? c)%Z && (b =? c)%Z
                   then (a, b)
                        :: filter (fun tp => (fst tp =? c)%Z && (snd tp =? c)%Z)
                                  pairs
                   else filter (fun tp => (fst tp =? c)%Z && (snd tp =? c)%Z)
                               pairs))
               (fun c => ((if (a =? c)%Z && (b =? c)%Z then 1 else 0)
                          + List.length
                              (filter (fun tp => (fst tp =? c)%Z
                                                 && (snd tp =? c)%Z) pairs))%nat))
      by (intros c; destruct ((a =? c)%Z && (b =? c)%Z); reflexivity).
    rewrite nat_sum_add, IH'.
    rewrite (nat_sum_single _ a ls Hnd Ha).
    + rewrite Z.eqb_refl. cbn [andb]. rewrite (Z.eqb_sym b a).
      destruct (a =? b)%Z; reflexivity.
    + intros c Hc. destruct (a =? c)%Z eqn:Eac; [| reflexivity].
      apply Z.eqb_eq in Eac. congruence.
Qed.

Lemma true_sum_labels (y : list Z) (ls : list Z) :
  NoDup ls -> (forall a, In a y -> In a ls) ->
  fold_right Nat.add 0%nat (map (SklearnMetrics.true_sum y) ls)
  = List.length y.
Proof.
  intros Hnd. unfold SklearnMetrics.true_sum.
  induction y as [| a y IH]; intros Hin.
  - cbn [count_occ List.length]. apply nat_sum_zero. reflexivity.
  - assert (IH' := IH (fun c Hc => Hin c (or_intror Hc))). clear IH.
    assert (Ha : In a ls) by (apply Hin; left; reflexivity).
    rewrite (map_ext (count_occ Z.eq_dec (a :: y))
               (fun c => ((if Z.eq_dec a c then 1 else 0)
                          + count_occ Z.eq_dec y c)%nat))
      by (intros c; cbn [count_occ]; destruct (Z.eq_dec a c); reflexivity).
    rewrite nat_sum_add, (nat_sum_single _ a ls Hnd Ha).
    + destruct (Z.eq_dec a a); [| contradiction].
      cbn [List.length Nat.add]. f_equal. exact IH'.
    + intros c Hc. destruct (Z.eq_dec a c); [congruence | reflexivity].
Qed.

Lemma tp_sum_le_true (y_true y_pred : list Z) (c : Z) :
  (SklearnMetrics.tp_sum y_true y_pred c
   <= SklearnMetrics.true_sum y_true c)%nat.
Proof.
  unfold SklearnMetrics.tp_sum, SklearnMetrics.true_sum.
  revert y_pred. induction y_true as [| a y IH]; intros [| b y_pred];
    cbn [combine filter List.length count_occ fst snd]; try lia.
  specialize (IH y_pred).
  destruct (Z.eq_dec a c) as [-> | Hne].
  - rewrite Z.eqb_refl. cbn [andb].
    destruct (b =? c)%Z; cbn [List.length]; lia.
  - apply Z.eqb_neq in Hne. rewrite Hne. cbn [andb]. exact IH.
Qed.

Lemma tp_sum_le_pred (y_true y_pred : list Z) (c : Z) :
  (SklearnMetrics.tp_sum y_true y_pred c
   <= SklearnMetrics.pred_sum y_pred c)%nat.
Proof.
  unfold SklearnMetrics.tp_sum, SklearnMetrics.pred_sum.
  revert y_pred. induction y_true as [| a y IH]; intros [| b y_pred];
    cbn [combine filter List.length count_occ fst snd]; try lia.
  specialize (IH y_pred).
  destruct (Z.eq_dec b c) as [-> | Hne].
  - destruct ((a =? c)%Z && (c =? c)%Z); cbn [List.length]; lia.
  - apply Z.eqb_neq in Hne. rewrite Hne, andb_false_r. exact IH.
Qed.

Lemma total_support_length (y_true y_pred : list Z) :
  SklearnMetrics.total_support y_true y_pred = List.length y_true.
Proof.
  unfold SklearnMetrics.total_support, SklearnMetrics.unique_labels.
  apply true_sum_labels.
  - apply NoDup_nodup.
  - intros a Ha. apply nodup_In, in_or_app. left. exact Ha.
Qed.

(** A weighted average of scores in [0, 1] lies in [0, 1]. *)
Lemma weighted_bounds (y_true y_pred : list Z) (score : Z -> Q) :
  (forall c, 0 <= score c <= 1) ->
  0 <= SklearnMetrics.weighted y_true y_pred score <= 1.
Proof.
  intros Hscore. unfold SklearnMetrics.weighted.
  destruct (SklearnMetrics.total_support y_true y_pred =? 0)%nat eqn:Et; [lra |].
  apply Nat.eqb_neq in Et.
  assert (Ht : 0 < SklearnMetrics.of_nat
                     (SklearnMetrics.total_support y_true y_pred))
    by (apply of_nat_pos; lia).
  split.
  - apply Qle_shift_div_l; [exact Ht |]. rewrite Qmult_0_l.
    apply Qsum_nonneg. intros c _.
    apply Qmult_le_0_compat; [apply Hscore | apply of_nat_nonneg].
  - apply Qle_shift_div_r; [exact Ht |]. rewrite Qmult_1_l.
    unfold SklearnMetrics.total_support at 1.
    rewrite <- Qsum_of_nat. apply Qsum_le. intros c _.
    rewrite <- (Qmult_1_l (SklearnMetrics.of_nat _)) at 2.
    apply Qmult_le_compat_r; [apply Hscore | apply of_nat_nonneg].
Qed.

Lemma recall_score_hits (y_true y_pred : list Z) :
  y_true <> [] ->
  SklearnMetrics.recall_score y_true y_pred
  == SklearnMetrics.of_nat
       (List.length (filter (fun tp => (fst tp =? snd tp)%Z)
                            (combine y_true y_pred)))
     / SklearnMetrics.of_nat (List.length y_true).
Proof.
  intros Hne. unfold SklearnMetrics.recall_score, SklearnMetrics.weighted.
  rewrite total_support_length.
  destruct (List.length y_true =? 0)%nat eqn:En.
  { apply Nat.eqb_eq, length_zero_iff_nil in En. contradiction. }
  rewrite (Qsum_ext _ (fun c => SklearnMetrics.of_nat
                                  (SklearnMetrics.tp_sum y_true y_pred c)))
    by (intros c _; apply prf_divide_times, tp_sum_le_true).
  rewrite Qsum_of_nat.
  unfold SklearnMetrics.tp_sum, SklearnMetrics.unique_labels.
  rewrite tp_sum_pairs; [reflexivity | apply NoDup_nodup |].
  intros [a b] Hp. apply nodup_In, in_or_app. left.
  apply (in_combine_l _ _ _ _ Hp).
Qed.

Lemma hits_le_length (y_true y_pred : list Z) :
  (List.length (filter (fun tp => (fst tp =? snd tp)%Z) (combine y_true y_pred))
   <= List.length y_true)%nat.
Proof.
  etransitivity; [apply filter_length_le |].
  rewrite length_combine. lia.
Qed.

(** The weighted recall the loop tests is the accuracy.  For predictions
    and labels of one non-empty validation pass, [recall_score] with
    [average="weighted"] equals [accuracy_score]: both are the share of
    windows whose predicted bin is the labelled one.  So the loop goes on
    (as far as the recall decides) exactly while fewer than 19 in 20
    validation windows are classified correctly. *)
Theorem validation_recall_is_accuracy (val_actuals : list Z)
  (val_preds : list nat) :
  List.length val_preds = List.length val_actuals ->
  val_actuals <> [] ->
  let m := validation_metrics val_actuals val_preds in
  let hits :=
    List.length (filter (fun tp => (fst tp =? snd tp)%Z)
                        (combine val_actuals (map Z.of_nat val_preds))) in
  recall m == accuracy m /\
  recall m == inject_Z (Z.of_nat hits)
              / inject_Z (Z.of_nat (List.length val_actuals)) /\
  (Qltb (recall m) (95 # 100) = true
   <-> (20 * hits < 19 * List.length val_actuals)%nat).
Proof.
  intros Hlen Hne m hits.
  assert (Hrec : recall m
                 == SklearnMetrics.of_nat hits
                    / SklearnMetrics.of_nat (List.length val_actuals))
    by (apply recall_score_hits, Hne).
  split; [exact Hrec |]. split; [exact Hrec |].
  assert (Hn : 0 < SklearnMetrics.of_nat (List.length val_actuals)).
  { apply of_nat_pos. destruct val_actuals; [contradiction | cbn; lia]. }
  rewrite Qltb_lt, Hrec. unfold SklearnMetrics.of_nat in *.
  split.
  - intros Hlt.
    destruct (lt_dec (20 * hits) (19 * List.length val_actuals)) as [H | H];
      [exact H | exfalso].
    apply (Qlt_not_le _ _ Hlt).
    apply Qle_shift_div_l; [exact Hn |].
    unfold Qle, inject_Z. cbn [Qnum Qden Qmult]. lia.
  - intros Hlt. apply Qlt_shift_div_r; [exact Hn |].
    unfold Qlt, inject_Z. cbn [Qnum Qden Qmult]. lia.
Qed.

Lemma validation_recall_is_accuracy_witness :
  recall (validation_metrics [0; 1; 1; 2]%Z [0; 1; 2; 2]%nat)
  == accuracy (validation_metrics [0; 1; 1; 2]%Z [0; 1; 2; 2]%nat).
Proof.
  apply (validation_recall_is_accuracy [0; 1; 1; 2]%Z [0; 1; 2; 2]%nat).
  - reflexivity.
  - discriminate.
Defined.

(** The four metrics of a validation pass lie between 0 and 1. *)
Theorem validation_metrics_bounds (val_actuals : list Z) (val_preds : list nat) :
  List.length val_preds = List.length val_actuals ->
  val_actuals <> [] ->
  let m := validation_metrics val_actuals val_preds in
  0 <= accuracy m <= 1 /\ 0 <= precision m <= 1 /\
  0 <= recall m <= 1 /\ 0 <= f1_score m <= 1.
Proof.
  intros Hlen Hne m.
  assert (Hn : 0 < SklearnMetrics.of_nat (List.length val_actuals)).
  { apply of_nat_pos. destruct val_actuals; [contradiction | cbn; lia]. }
  assert (Hacc : 0 <= accuracy m <= 1).
  { cbn [m validation_metrics accuracy]. unfold SklearnMetrics.accuracy_score.
    split.
    - apply Qle_shift_div_l; [exact Hn |]. rewrite Qmult_0_l.
      apply of_nat_nonneg.
    - apply Qle_shift_div_r; [exact Hn |]. rewrite Qmult_1_l.
      apply of_nat_le, hits_le_length. }
  split; [exact Hacc |]. split; [| split].
  - apply weighted_bounds. intros c. apply prf_divide_bounds, tp_sum_le_pred.
  - apply weighted_bounds. intros c. apply prf_divide_bounds, tp_sum_le_true.
  - apply weighted_bounds. intros c. apply prf_divide_bounds.
    pose proof (tp_sum_le_pred val_actuals (map Z.of_nat val_preds) c).
    pose proof (tp_sum_le_true val_actuals (map Z.of_nat val_preds) c).
    lia.
Qed.

Lemma validation_metrics_bounds_witness :
  0 <= precision (validation_metrics [0; 1; 1; 2]%Z [0; 1; 2; 2]%nat) <= 1.
Proof.
  apply (validation_metrics_bounds [0; 1; 1; 2]%Z [0; 1; 2; 2]%nat).
  - reflexivity.
  - discriminate.
Defined.

(** ** The validation pass *)

Lemma mapM_returned_in {A B : Type} (f : A -> outcome B) (h : A -> B)
  (l : list A) :
  (forall a, In a l -> f a = Returned (h a)) ->
  mapM f l = Returned (map h l).
Proof.
  induction l as [| a l IH]; intros H; cbn [map mapM]; [reflexivity |].
  rewrite (H a) by (left; reflexivity). cbn [bind].
  rewrite IH by (intros a' Ha'; apply H; right; exact Ha').
  reflexivity.
Qed.

Lemma map_nth_seq {A : Type} (l : list A) (d : A) :
  map (fun i => nth i l d) (seq 0 (List.length l)) = l.
Proof.
  apply (nth_ext _ _ d d).
  - rewrite length_map, length_seq. reflexivity.
  - intros k Hk. rewrite length_map, length_seq in Hk.
    rewrite (nth_indep _ d (nth 0%nat l d))
      by (rewrite length_map, length_seq; exact Hk).
    rewrite (map_nth (fun i => nth i l d) (seq 0 (List.length l)) 0%nat k).
    rewrite seq_nth by exact Hk. reflexivity.
Qed.

(** The batches of a loader with a positive batch size are non-empty
    runs of the items and, put end to end, give the items back. *)
Lemma batches_from_spec {A : Type} (fuel batch_size : nat) (l : list A) :
  (1 <= batch_size)%nat -> (List.length l <= fuel)%nat ->
  List.concat (batches_from fuel batch_size l) = l /\
  forall b, In b (batches_from fuel batch_size l) ->
            b <> [] /\ (List.length b <= batch_size)%nat /\
            forall a, In a b -> In a l.
Proof.
  intros Hbs. revert l. induction fuel as [| fuel IH]; intros l Hfuel.
  - destruct l; [| cbn in Hfuel; lia]. cbn. split; [reflexivity |].
    intros b [].
  - destruct l as [| a l]; [cbn; split; [reflexivity | intros b []] |].
    cbn [batches_from]. remember (a :: l) as items eqn:Ei.
    assert (Hitems : (1 <= List.length items <= S fuel)%nat)
      by (split; [rewrite Ei; cbn [List.length]; lia | exact Hfuel]).
    destruct (IH (skipn batch_size items)) as (Hcat & Hin).
    { rewrite length_skipn. lia. }
    split.
    + cbn [List.concat]. rewrite Hcat. apply firstn_skipn.
    + intros b [<- | Hb].
      * split; [| split].
        -- rewrite Ei. destruct batch_size; [lia |]. discriminate.
        -- apply firstn_le_length.
        -- intros x Hx. apply (in_firstn _ _ _ Hx).
      * destruct (Hin b Hb) as (Hne & Hle & Hsub).
        split; [exact Hne |]. split; [exact Hle |].
        intros x Hx. specialize (Hsub x Hx).
        rewrite <- (firstn_skipn batch_size items).
        apply in_or_app. right. exact Hsub.
Qed.

Lemma validation_pass_returns {E : LSTM} (sd : StateDict E)
  (batch_size : nat) (val : QuakeDataset) (t : nat) :
  load_state_dict sd = Returned sd ->
  (1 <= batch_size)%nat ->
  List.length (ds_y val) = List.length (ds_X val) ->
  (forall w, In w (ds_X val) -> List.length w = S t) ->
  exists val_preds,
    mapM (fun w => argmax (classify sd (map Q2R w))) (ds_X val)
    = Returned val_preds /\
    validation_pass sd batch_size val = Returned (val_preds, ds_y val).
Proof.
  intros Hload Hbs Hy Hlen.
  set (pred := fun w : list Q =>
                 match classify sd (map Q2R w) with
                 | [] => 0%nat
                 | x :: l => argmax_from x 0 1 l
                 end).
  assert (Hpred : forall w, argmax (classify sd (map Q2R w)) = Returned (pred w)).
  { intros w. unfold pred.
    pose proof (classify_length sd (map Q2R w) Hload) as H5.
    destruct (classify sd (map Q2R w)); [discriminate H5 | reflexivity]. }
  exists (map pred (ds_X val)). split.
  { apply mapM_returned_in. intros w _. apply Hpred. }
  unfold validation_pass.
  destruct (batch_size =? 0)%nat eqn:Eb; [apply Nat.eqb_eq in Eb; lia |].
  set (X := ds_X val) in *. set (y := ds_y val) in *.
  set (window_at := fun i : nat => nth i X []).
  set (label_at := fun i : nat => nth i y 0%Z).
  destruct (batches_from_spec (List.length (seq 0 (QuakeDataset_len val)))
              batch_size (seq 0 (QuakeDataset_len val)) Hbs (le_n _))
    as (Hcat & Hbatch).
  fold (batches batch_size (seq 0 (QuakeDataset_len val))) in Hcat, Hbatch.
  assert (Hitem : forall i, (i < List.length X)%nat ->
            QuakeDataset_getitem val i = Returned (window_at i, label_at i)).
  { intros i Hi. unfold QuakeDataset_getitem, index. fold X. fold y.
    rewrite (nth_error_nth' X [] Hi).
    rewrite (nth_error_nth' y 0%Z) by (rewrite Hy; exact Hi).
    reflexivity. }
  rewrite (mapM_returned_in _
             (fun indices => (map (fun i => pred (window_at i)) indices,
                              map label_at indices))).
  - cbn [bind]. f_equal.
    rewrite !map_map. cbn [fst snd].
    rewrite <- !concat_map, Hcat.
    unfold QuakeDataset_len. fold X.
    rewrite <- (map_map window_at pred).
    unfold window_at, label_at.
    rewrite map_nth_seq. rewrite <- Hy, map_nth_seq. reflexivity.
  - intros indices Hin. destruct (Hbatch indices Hin) as (Hne & _ & Hsub).
    assert (Hrange : forall i, In i indices -> (i < List.length X)%nat).
    { intros i Hi. apply Hsub, in_seq in Hi.
      unfold QuakeDataset_len in Hi. fold X in Hi. lia. }
    rewrite (mapM_returned_in _ (fun i => (window_at i, label_at i)))
      by (intros i Hi; apply Hitem, Hrange, Hi).
    cbn [bind].
    replace (map fst (map (fun i => (window_at i, label_at i)) indices))
      with (map window_at indices) by (rewrite map_map; reflexivity).
    replace (map snd (map (fun i => (window_at i, label_at i)) indices))
      with (map label_at indices) by (rewrite map_map; reflexivity).
    assert (Hws : forall w, In w (map window_at indices) -> List.length w = S t).
    { intros w Hw. apply in_map_iff in Hw. destruct Hw as (i & <- & Hi).
      apply Hlen. apply nth_In, Hrange, Hi. }
    assert (Hsome : map window_at indices <> []).
    { intros Hnil. apply map_eq_nil in Hnil. contradiction. }
    rewrite (collate_returns (map window_at indices) t Hsome Hws).
    cbn [bind]. rewrite (forward_collated sd _ t Hws). cbn [bind].
    rewrite (mapM_map_returned (fun w => classify sd (map Q2R w)) argmax pred)
      by (intros w; apply Hpred).
    cbn [bind]. rewrite map_map. reflexivity.
Qed.

(** The validation pass predicts window by window.  With a positive batch
    size, on a validation set with as many labels as windows, all of one
    length [T >= 1], the pass returns the labels as they are, and for
    every window the argmax of its own logits, in the order of the set:
    what it returns does not depend on the batch size. *)
Theorem validation_pass_per_window {E : LSTM} (sd : StateDict E)
  (batch_size : nat) (val : QuakeDataset) (t : nat) :
  load_state_dict sd = Returned sd ->
  (1 <= batch_size)%nat ->
  List.length (ds_y val) = List.length (ds_X val) ->
  (forall w, In w (ds_X val) -> List.length w = S t) ->
  exists val_preds,
    mapM (fun w => argmax (classify sd (map Q2R w))) (ds_X val)
    = Returned val_preds /\
    validation_pass sd batch_size val = Returned (val_preds, ds_y val).
Proof.
  intros Hload Hbs Hy Hlen.
  apply (validation_pass_returns sd batch_size val t Hload Hbs Hy Hlen).
Qed.

Lemma validation_pass_per_window_witness :
  exists val_preds,
    validation_pass Demo.parameters 2
      {| ds_X := [[1; 2]; [3; 4]; [5; 6]]; ds_y := [0; 1; 2]%Z |}
    = Returned (val_preds, [0; 1; 2]%Z).
Proof.
  destruct (validation_pass_per_window Demo.parameters 2
              {| ds_X := [[1; 2]; [3; 4]; [5; 6]]; ds_y := [0; 1; 2]%Z |} 1)
    as (val_preds & _ & Hpass).
  - reflexivity.
  - lia.
  - reflexivity.
  - intros w [<- | [<- | [<- | []]]]; reflexivity.
  - exists val_preds. exact Hpass.
Defined.

(** ** What [prepare_sequences] hands to the loaders *)

Lemma prepared_inv (df : DataFrame) (L : nat) (X : list (list Q))
  (y : list Z) (scaler : Sklearn.MinMaxScaler) :
  prepare_sequences df L = Returned (X, y, scaler) ->
  let mags := map magnitude (Pandas.sort_values time df) in
  (1 <= List.length df)%nat /\ (1 <= L)%nat /\
  Sklearn.fit mags = Returned scaler /\
  X = map (fun i => map (Sklearn.transform scaler) (firstn L (skipn i mags)))
          (seq 0 (List.length df - L)) /\
  List.length y = (List.length df - L)%nat /\
  forall i, (i < List.length df - L)%nat ->
            nth_error y i = option_map mag_bin (nth_error mags (i + L)).
Proof.
  intros Hprep mags.
  assert (HN : (1 <= List.length df)%nat).
  { destruct df; [discriminate Hprep | cbn; lia]. }
  assert (HL : (1 <= L)%nat).
  { destruct L as [| L']; [| lia]. exfalso.
    unfold prepare_sequences in Hprep.
    destruct (Sklearn.fit_transform _) as [[scaled s] |]; cbn [bind] in Hprep;
      [| discriminate].
    destruct (mapM _ _); cbn [bind] in Hprep; discriminate. }
  destruct (prepare_sequences_returns df L HN HL)
    as (y' & scaler' & Hfit & Hret & Hylen & Hy).
  rewrite Hret in Hprep. injection Hprep as <- <- <-.
  repeat split; assumption.
Qed.

Lemma prepared_windows_length (df : DataFrame) (L : nat) (X : list (list Q))
  (y : list Z) (scaler : Sklearn.MinMaxScaler) :
  prepare_sequences df L = Returned (X, y, scaler) ->
  (1 <= L)%nat /\ List.length y = List.length X /\
  forall w, In w X -> List.length w = L.
Proof.
  intros Hprep.
  destruct (prepared_inv _ _ _ _ _ Hprep) as (_ & HL & _ & HX & Hy & _).
  split; [exact HL |]. split.
  - rewrite HX, length_map, length_seq. exact Hy.
  - intros w Hw. rewrite HX in Hw. apply in_map_iff in Hw.
    destruct Hw as (i & <- & Hi). apply in_seq in Hi.
    rewrite length_map, length_firstn, length_skipn, length_map.
    rewrite (Permutation_length (sort_values_permutation time df)). lia.
Qed.

(** The validation pass of [train_model] is defined.  On the validation
    set split off what [prepare_sequences] returned, with the batch size
    64 of the script and parameters of the constructor's shapes, the pass
    raises nothing: it returns one predicted bin per validation window
    together with the validation labels, of which there is at least one,
    so that the metrics are taken of two lists of one positive length. *)
Theorem train_validation_defined {E : LSTM} (sd : StateDict E) (df : DataFrame)
  (X : list (list Q)) (y : list Z) (scaler : Sklearn.MinMaxScaler) :
  prepare_sequences df seq_length = Returned (X, y, scaler) ->
  X <> [] ->
  load_state_dict sd = Returned sd ->
  let val := snd (train_val_split X y) in
  exists val_preds,
    validation_pass sd 64 val = Returned (val_preds, ds_y val) /\
    List.length val_preds = List.length (ds_y val) /\
    (1 <= List.length (ds_y val))%nat /\
    ds_y val = skipn (List.length X * 4 / 5) y.
Proof.
  intros Hprep Hne Hload val.
  destruct (prepared_windows_length _ _ _ _ _ Hprep) as (HL & Hy & Hlen).
  assert (Hvy : List.length (ds_y val) = List.length (ds_X val)).
  { unfold val, train_val_split, QuakeDataset_init. cbn [snd ds_X ds_y].
    rewrite !length_skipn. lia. }
  assert (Hvlen : forall w, In w (ds_X val) -> List.length w = S (seq_length - 1)).
  { intros w Hw. unfold val, train_val_split, QuakeDataset_init in Hw.
    cbn [snd ds_X] in Hw.
    rewrite (Hlen w); [reflexivity |].
    rewrite <- (firstn_skipn (List.length X * 4 / 5) X).
    apply in_or_app. right. exact Hw. }
  destruct (validation_pass_returns sd 64 val (seq_length - 1) Hload)
    as (val_preds & Hmap & Hpass); [lia | exact Hvy | exact Hvlen |].
  exists val_preds. split; [exact Hpass |].
  assert (Hpl : List.length val_preds = List.length (ds_X val)).
  { clear - Hmap. revert val_preds Hmap.
    induction (ds_X val) as [| w ws IH]; intros val_preds Hmap.
    - injection Hmap as <-. reflexivity.
    - cbn [mapM] in Hmap.
      destruct (argmax _) as [p |]; cbn [bind] in Hmap; [| discriminate].
      destruct (mapM _ ws) as [ps |]; cbn [bind] in Hmap; [| discriminate].
      injection Hmap as <-. cbn [List.length]. f_equal. apply IH. reflexivity. }
  split; [lia |]. split; [| reflexivity].
  rewrite Hvy. unfold val, train_val_split, QuakeDataset_init.
  cbn [snd ds_X]. rewrite length_skipn.
  destruct X as [| w X']; [contradiction |].
  pose proof (Nat.div_mod_eq (List.length (w :: X') * 4) 5) as Hdm.
  pose proof (Nat.mod_upper_bound (List.length (w :: X') * 4) 5) as Hub.
  cbn [List.length] in *. lia.
Qed.

Lemma train_validation_defined_witness :
  exists X y scaler val_preds,
    prepare_sequences (Demo.constant_table 30 3) seq_length
    = Returned (X, y, scaler) /\
    validation_pass Demo.parameters 64 (snd (train_val_split X y))
    = Returned (val_preds, ds_y (snd (train_val_split X y))).
Proof.
  destruct (constant_table_prepared 3 0%Z) as (X & scaler & _ & Hprep & HX);
    [right; split; reflexivity |].
  destruct (train_validation_defined Demo.parameters _ _ _ _ Hprep)
    as (val_preds & Hpass & _).
  - intros ->. discriminate HX.
  - reflexivity.
  - exists X, (repeat 0%Z 20), scaler, val_preds. split; assumption.
Defined.

(** ** The checkpoint a run leaves behind *)

Section FinalCheckpoint.

Context {E : LSTM} (T : Trainer E) (train val : QuakeDataset).
Context (weights : list Q) (file : option (StateDict E)).

Let init : LoopState T := loop_init T weights file.
Let final : LoopState T := train_loop max_epochs train val init.
Let state (k : nat) : LoopState T := after_epochs train val init k.
Let recall_of (k : nat) : Q := recall_at train val init k.

(** After [n] epochs: either nothing was saved, the file is as it was
    found and no recall was positive; or the file holds the parameters of
    the epoch [k] of the last save, whose recall is positive, is
    [best_recall], is not exceeded by any epoch so far and is not reached
    by any epoch before [k]. *)
Lemma checkpoint_origin (n : nat) :
  (st_saves (state n) = [] /\ st_checkpoint (state n) = file /\
   st_best_recall (state n) = 0 /\
   forall j, (1 <= j <= n)%nat -> recall_of j <= 0) \/
  (exists k,
      (1 <= k <= n)%nat /\
      last (st_saves (state n)) 0%nat = k /\
      st_checkpoint (state n) = Some (state_dict T (st_trainer (state k))) /\
      st_best_recall (state n) = recall_of k /\
      0 < recall_of k /\
      (forall j, (1 <= j <= n)%nat -> recall_of j <= recall_of k) /\
      (forall j, (1 <= j < k)%nat -> recall_of j < recall_of k)).
Proof.
  induction n as [| n IH].
  - left. repeat split. intros j Hj. lia.
  - pose proof (epoch_saves T train val weights file n) as Hstep.
    cbv zeta in Hstep. fold init in Hstep. fold state in Hstep.
    fold recall_of in Hstep.
    destruct Hstep as (Hsaves & Hbest & Hckpt).
    destruct (Qltb (st_best_recall (state n)) (recall_of (S n))) eqn:Hb.
    + apply Qltb_lt in Hb. right. exists (S n).
      split; [lia |]. split; [rewrite Hsaves; apply last_last |].
      split; [exact Hckpt |]. split; [exact Hbest |].
      destruct IH as [(_ & _ & H0 & Hnone) | (k & Hk & _ & _ & Hbk & Hpos & Hmax & _)].
      * rewrite H0 in Hb. split; [exact Hb |]. split.
        -- intros j Hj. destruct (Nat.eq_dec j (S n)) as [-> | Hne]; [lra |].
           assert (Hj' : (1 <= j <= n)%nat) by lia.
           specialize (Hnone j Hj'). lra.
        -- intros j Hj. assert (Hj' : (1 <= j <= n)%nat) by lia.
           specialize (Hnone j Hj'). lra.
      * rewrite Hbk in Hb. split; [lra |]. split.
        -- intros j Hj. destruct (Nat.eq_dec j (S n)) as [-> | Hne]; [lra |].
           assert (Hj' : (1 <= j <= n)%nat) by lia.
           specialize (Hmax j Hj'). lra.
        -- intros j Hj. assert (Hj' : (1 <= j <= n)%nat) by lia.
           specialize (Hmax j Hj'). lra.
    + apply Qltb_ge in Hb.
      destruct IH as [(Hs & Hf & H0 & Hnone) | (k & Hk & Hlast & Hc & Hbk & Hpos & Hmax & Hfirst)].
      * left. rewrite Hsaves, Hckpt, Hbest.
        split; [exact Hs |]. split; [exact Hf |]. split; [exact H0 |].
        intros j Hj. destruct (Nat.eq_dec j (S n)) as [-> | Hne].
        -- rewrite H0 in Hb. exact Hb.
        -- apply Hnone. lia.
      * right. exists k. rewrite Hsaves, Hckpt, Hbest.
        split; [lia |]. split; [exact Hlast |]. split; [exact Hc |].
        split; [exact Hbk |]. split; [exact Hpos |]. split; [| exact Hfirst].
        intros j Hj. destruct (Nat.eq_dec j (S n)) as [-> | Hne].
        -- rewrite Hbk in Hb. exact Hb.
        -- apply Hmax. lia.
Qed.

(** The checkpoint file after the loop.  If no epoch of the run had a
    positive validation recall, nothing was saved and the file is as it
    was found.  Otherwise the file holds the parameters as they were at
    the end of the first epoch that attained the best recall of the run,
    which need not be the last epoch; this is the epoch of the last
    [torch.save]. *)
Theorem final_checkpoint_is_first_best :
  let n := st_epoch final in
  (st_saves final = [] /\ st_checkpoint final = file /\
   forall j, (1 <= j <= n)%nat -> recall_of j <= 0) \/
  (exists k,
      (1 <= k <= n)%nat /\
      last (st_saves final) 0%nat = k /\
      st_checkpoint final = Some (state_dict T (st_trainer (state k))) /\
      0 < recall_of k /\
      (forall j, (1 <= j <= n)%nat -> recall_of j <= recall_of k) /\
      (forall j, (1 <= j < k)%nat -> recall_of j < recall_of k)).
Proof.
  destruct (train_loop_exits T train val weights file)
    as (n & _ & Hrun & Hep & _).
  fold init in Hrun, Hep. fold final in Hrun, Hep.
  rewrite Hep. cbv zeta. rewrite Hrun. fold (state n).
  destruct (checkpoint_origin n)
    as [(Hs & Hf & _ & Hnone) | (k & Hk & Hlast & Hc & _ & Hpos & Hmax & Hfirst)].
  - left. repeat split; assumption.
  - right. exists k. repeat split; try assumption; lia.
Qed.

(** Once an epoch has a positive recall there is a checkpoint, and it is
    one the trainer wrote. *)
Lemma checkpoint_written (n j : nat) :
  (1 <= j <= n)%nat -> 0 < recall_of j ->
  exists k, st_checkpoint (state n)
            = Some (state_dict T (st_trainer (state k))).
Proof.
  intros Hj Hpos.
  destruct (checkpoint_origin n)
    as [(_ & _ & _ & Hnone) | (k & _ & _ & Hc & _)].
  - specialize (Hnone j Hj). lra.
  - exists k. exact Hc.
Qed.

End FinalCheckpoint.

(** ** From training to prediction *)

Lemma train_model_completed_inv {E : LSTM} (T : Trainer E)
  (source : outcome DataFrame) (file checkpoint : option (StateDict E))
  (final_epoch : nat) (final_metrics : Metrics) :
  train_model T source file
  = Returned (TrainCompleted final_epoch final_metrics, checkpoint) ->
  exists (train val : QuakeDataset) (weights : list Q) (final : LoopState T),
    final = train_loop max_epochs train val (loop_init T weights file) /\
    st_epoch final = final_epoch /\
    st_metrics final = Some final_metrics /\
    st_checkpoint final = checkpoint.
Proof.
  unfold train_model.
  destruct (load_earthquake_data source) as [df |]; [| discriminate].
  destruct (prepare_sequences df seq_length) as [[[X y] scaler] |];
    cbn [bind]; [| discriminate].
  destruct (shuffled_loader _) as [train |]; cbn [bind]; [| discriminate].
  destruct (class_weights _) as [weights |]; cbn [bind]; [| discriminate].
  set (val := {| ds_X := _; ds_y := _ |}).
  remember (train_loop max_epochs train val (loop_init T weights file))
    as final eqn:Hfinal.
  destruct (st_metrics final) as [m |] eqn:Hm; [| discriminate].
  intros H. exists train, val, weights, final.
  split; [exact Hfinal |]. repeat split; congruence.
Qed.

Lemma predict_rows_returns {E : LSTM} (sd : StateDict E) (readings : list Q) :
  load_state_dict sd = Returned sd -> readings <> [] ->
  exists report,
    predict_magnitude (Some sd) (window_rows readings) = Prediction report.
Proof.
  intros Hload Hne.
  assert (Hable : predictable (Some sd) (window_rows readings) sd
                    {| shape := [List.length readings; 1%nat];
                       data := map Q2R readings |}).
  { split; [reflexivity |]. split; [exact Hload |].
    split; [apply tensor_window_rows, Hne |].
    destruct readings as [| m rest]; [contradiction |].
    exists (List.length rest). reflexivity. }
  destruct (predict_body_returns _ _ _ _ Hable)
    as (logits & report & _ & _ & Hbody & _).
  exists report. apply predict_magnitude_prediction. exact Hbody.
Qed.

(** The final metrics are those of the last epoch, whose recall ended the
    loop unless the epoch cap did. *)
Lemma final_recall {E : LSTM} (T : Trainer E) (train val : QuakeDataset)
  (weights : list Q) (file : option (StateDict E)) (m : Metrics) :
  let init := loop_init T weights file in
  let final := train_loop max_epochs train val init in
  st_metrics final = Some m ->
  (1 <= st_epoch final <= 100)%nat /\
  final = after_epochs train val init (st_epoch final) /\
  recall m = recall_at train val init (st_epoch final) /\
  ((st_epoch final < 100)%nat -> 95 # 100 <= recall m).
Proof.
  intros init final Hm.
  destruct (train_loop_exits T train val weights file)
    as (n & Hn & Hrun & Hep & _ & Hexit).
  pose proof (train_loop_runs_once T train val weights file) as Honce.
  fold init in Hrun, Hep, Hexit, Honce. fold final in Hrun, Hep, Hexit, Honce.
  clearbody final. rewrite Hep in *.
  split; [lia |]. split; [exact Hrun |].
  destruct n as [| n]; [lia |].
  assert (Hrec : recall m = st_recall final).
  { rewrite Hrun, after_epochs_succ in Hm |- *.
    destruct (epoch_step_fields T train val (after_epochs train val init n))
      as (_ & _ & _ & _ & m' & Hm' & Hrec).
    rewrite Hm' in Hm. injection Hm as ->. exact Hrec. }
  split.
  - rewrite Hrec, Hrun. reflexivity.
  - intros Hlt. apply loop_cond_false in Hexit.
    destruct Hexit as [Hr | He]; [| lia].
    rewrite Hrec. exact Hr.
Qed.

(** Training, then prediction.  When a training run completes with a
    positive final recall, or before the epoch cap, it leaves a
    checkpoint written by its own trainer, whatever the file held before;
    if the models of the trainer have the shapes of the constructor,
    [predict_magnitude] then returns a prediction for every non-empty
    window given as rows. *)
Theorem train_then_predict {E : LSTM} (T : Trainer E)
  (source : outcome DataFrame) (file checkpoint : option (StateDict E))
  (final_epoch : nat) (final_metrics : Metrics) (readings : list Q) :
  train_model T source file
  = Returned (TrainCompleted final_epoch final_metrics, checkpoint) ->
  (forall s, load_state_dict (state_dict T s) = Returned (state_dict T s)) ->
  0 < recall final_metrics \/ (final_epoch < 100)%nat ->
  readings <> [] ->
  (exists s, checkpoint = Some (state_dict T s)) /\
  exists report,
    predict_magnitude checkpoint (window_rows readings) = Prediction report.
Proof.
  intros Hret Hshapes Hgood Hne.
  destruct (train_model_completed_inv _ _ _ _ _ _ Hret)
    as (train & val & weights & final & Hfinal & Hep & Hm & Hc).
  rewrite Hfinal in Hep, Hm, Hc.
  destruct (final_recall T train val weights file final_metrics Hm)
    as (Hn & Hrun & Hrec & Hexit).
  rewrite Hep in Hn, Hrun, Hrec, Hexit.
  assert (Hpos : 0 < recall final_metrics).
  { destruct Hgood as [Hpos | Hlt]; [exact Hpos |].
    specialize (Hexit Hlt). lra. }
  destruct (checkpoint_written T train val weights file final_epoch final_epoch)
    as (k & Hk); [lia | rewrite <- Hrec; exact Hpos |].
  rewrite <- Hrun, Hc in Hk.
  split; [eexists; exact Hk |].
  rewrite Hk. apply predict_rows_returns; [apply Hshapes | exact Hne].
Qed.

Lemma train_then_predict_witness :
  exists checkpoint report,
    train_model (Demo.scripted Demo.rising)
      (Returned (Demo.constant_table 30 3)) None
    = Returned (TrainCompleted 4 {| accuracy := 4 # 4; precision := 4 # 4;
                                    recall := 4 # 4; f1_score := 4 # 4 |},
                checkpoint) /\
    predict_magnitude checkpoint (window_rows [1; 2; 3]) = Prediction report.
Proof.
  destruct (train_model (Demo.scripted Demo.rising)
              (Returned (Demo.constant_table 30 3)) None)
    as [[result checkpoint] | e] eqn:Hret.
  - assert (Hres : result
                   = TrainCompleted 4 {| accuracy := 4 # 4; precision := 4 # 4;
                                         recall := 4 # 4; f1_score := 4 # 4 |}).
    { assert (H : fst (result, checkpoint)
                  = TrainCompleted 4 {| accuracy := 4 # 4; precision := 4 # 4;
                                        recall := 4 # 4; f1_score := 4 # 4 |}).
      { change (match Returned (result, checkpoint) with
                | Returned a => fst a
                | Raised _ => TrainError "no result"
                end = TrainCompleted 4 {| accuracy := 4 # 4; precision := 4 # 4;
                                          recall := 4 # 4; f1_score := 4 # 4 |}).
        rewrite <- Hret. vm_compute. reflexivity. }
      exact H. }
    subst result.
    destruct (train_then_predict _ _ _ _ _ _ [1; 2; 3] Hret)
      as (_ & report & Hpredict).
    + intros s. reflexivity.
    + right. lia.
    + discriminate.
    + exists checkpoint, report. split; [reflexivity | exact Hpredict].
  - exfalso.
    assert (H : raises (train_model (Demo.scripted Demo.rising)
                          (Returned (Demo.constant_table 30 3)) None) = false)
      by (vm_compute; reflexivity).
    rewrite Hret in H. discriminate H.
Defined.

(** ** Consecutive windows *)

Lemma window_entry {A B : Type} (f : A -> B) (l : list A) (L i j : nat) :
  nth_error (map f (firstn L (skipn i l))) j
  = if (j <? L)%nat then option_map f (nth_error l (i + j)) else None.
Proof.
  rewrite nth_error_map, nth_error_firstn.
  destruct (j <? L)%nat; [rewrite nth_error_skipn |]; reflexivity.
Qed.

Lemma nth_error_map_seq {A : Type} (g : nat -> A) (n i : nat) (a : A) :
  nth_error (map g (seq 0 n)) i = Some a -> (i < n)%nat /\ a = g i.
Proof.
  intros H.
  assert (Hi : (i < List.length (map g (seq 0 n)))%nat)
    by (apply nth_error_Some; rewrite H; discriminate).
  rewrite length_map, length_seq in Hi.
  split; [exact Hi |].
  rewrite nth_error_map, nth_error_seq in H.
  apply Nat.ltb_lt in Hi. rewrite Hi in H. cbn in H. congruence.
Qed.

Lemma windows_shift (df : DataFrame) (L : nat) (X : list (list Q))
  (y : list Z) (scaler : Sklearn.MinMaxScaler) (i : nat) (w w' : list Q) :
  prepare_sequences df L = Returned (X, y, scaler) ->
  nth_error X i = Some w -> nth_error X (S i) = Some w' ->
  (forall j, (S j < L)%nat -> nth_error w (S j) = nth_error w' j) /\
  exists r,
    In r df /\
    nth_error w' (L - 1) = Some (Sklearn.transform scaler (magnitude r)) /\
    nth_error y i = Some (mag_bin (magnitude r)).
Proof.
  intros Hprep Hw Hw'.
  destruct (prepared_inv _ _ _ _ _ Hprep) as (_ & HL & _ & HX & _ & Hy).
  set (mags := map magnitude (Pandas.sort_values time df)) in *.
  rewrite HX in Hw, Hw'.
  apply nth_error_map_seq in Hw, Hw'.
  destruct Hw as (_ & ->). destruct Hw' as (Hi & ->).
  split.
  - intros j Hj. rewrite !window_entry.
    assert (H1 : (S j <? L)%nat = true) by (apply Nat.ltb_lt; lia).
    assert (H2 : (j <? L)%nat = true) by (apply Nat.ltb_lt; lia).
    rewrite H1, H2. replace (i + S j)%nat with (S i + j)%nat by lia.
    reflexivity.
  - assert (Hlen : List.length mags = List.length df).
    { unfold mags. rewrite length_map.
      apply Permutation_length, sort_values_permutation. }
    destruct (nth_error mags (i + L)) as [m |] eqn:Em;
      [| apply nth_error_None in Em; lia].
    assert (Hin := nth_error_In _ _ Em). unfold mags in Hin.
    apply in_map_iff in Hin. destruct Hin as (r & <- & Hr).
    exists r. split.
    { eapply Permutation_in; [apply sort_values_permutation | exact Hr]. }
    split.
    + rewrite window_entry.
      assert (H1 : (L - 1 <? L)%nat = true) by (apply Nat.ltb_lt; lia).
      rewrite H1. replace (S i + (L - 1))%nat with (i + L)%nat by lia.
      rewrite Em. reflexivity.
    + rewrite (Hy i) by lia. rewrite Em. reflexivity.
Qed.

(** The windows slide by one reading.  Window [i + 1] is window [i]
    shifted by one position, and the reading that enters it at the end is
    the one window [i] is labelled with: its scaled value is the last
    entry of window [i + 1], and its bin is label [i]. *)
Theorem consecutive_windows (df : DataFrame) (L : nat) (X : list (list Q))
  (y : list Z) (scaler : Sklearn.MinMaxScaler) (i : nat) (w w' : list Q) :
  prepare_sequences df L = Returned (X, y, scaler) ->
  nth_error X i = Some w -> nth_error X (S i) = Some w' ->
  (forall j, (S j < L)%nat -> nth_error w (S j) = nth_error w' j) /\
  exists r,
    In r df /\
    nth_error w' (L - 1) = Some (Sklearn.transform scaler (magnitude r)) /\
    nth_error y i = Some (mag_bin (magnitude r)).
Proof.
  intros Hprep Hw Hw'.
  apply (windows_shift df L X y scaler i w w' Hprep Hw Hw').
Qed.

Lemma consecutive_windows_witness :
  exists X y scaler w w',
    prepare_sequences (Demo.constant_table 30 3) seq_length
    = Returned (X, y, scaler) /\
    nth_error X 0 = Some w /\ nth_error X 1 = Some w' /\
    nth_error w 1 = nth_error w' 0.
Proof.
  destruct (constant_table_prepared 3 0%Z) as (X & scaler & _ & Hprep & HX);
    [right; split; reflexivity |].
  destruct X as [| w [| w' X']]; try (cbn in HX; lia).
  exists (w :: w' :: X'), (repeat 0%Z 20), scaler, w, w'.
  split; [exact Hprep |]. split; [reflexivity |]. split; [reflexivity |].
  destruct (consecutive_windows _ _ _ _ _ 0 w w' Hprep) as (Hshift & _);
    [reflexivity | reflexivity |].
  apply Hshift. unfold seq_length. lia.
Defined.

(** ** The weight of a bin without training labels *)

(** A bin that has no label in the training split is not left out of the
    loss: against a count of 0 only the [1e-6] stands in the denominator,
    so whenever the five counts are there (label 4 occurs) the weight of
    an absent bin is more than 300000 times the weight of any bin that
    has a label. *)
Theorem absent_bin_weight (y : list Z) (w : list Q) (b b' : nat) (wb wb' : Q) :
  (forall l, In l y -> (0 <= l <= 4)%Z) -> In 4%Z y ->
  class_weights y = Returned w ->
  nth_error w b = Some wb -> nth_error w b' = Some wb' ->
  label_count y (Z.of_nat b) = 0%nat ->
  (1 <= label_count y (Z.of_nat b'))%nat ->
  300000 * wb' < wb.
Proof.
  intros Hrange Hin Hw Hb Hb' Hzero Hsome.
  pose proof (class_weights_five y Hrange Hin) as Hfive. cbv zeta in Hfive.
  rewrite Hfive in Hw. injection Hw as <-. clear Hfive.
  destruct (normalised_sum
              (inverse_frequency y 0 * 1) (inverse_frequency y 1 * (12 # 10))
              (inverse_frequency y 2 * (15 # 10)) (inverse_frequency y 3 * 2)
              (inverse_frequency y 4 * 3)) as (Hs & _);
    try (apply inverse_count_pos; reflexivity).
  cbv zeta in Hs.
  set (s := Numpy.sum _) in *.
  assert (Hentry : forall k wk,
             nth_error [inverse_frequency y 0 * 1 / s;
                        inverse_frequency y 1 * (12 # 10) / s;
                        inverse_frequency y 2 * (15 # 10) / s;
                        inverse_frequency y 3 * 2 / s;
                        inverse_frequency y 4 * 3 / s] k = Some wk ->
             exists a, 1 <= a <= 3 /\
                       wk = inverse_frequency y (Z.of_nat k) * a / s).
  { intros k wk Hk.
    do 5 (destruct k as [| k];
          [injection Hk as <-; eexists; split; [| reflexivity]; lra |]).
    destruct k; discriminate Hk. }
  destruct (Hentry b wb Hb) as (a & Ha & ->).
  destruct (Hentry b' wb' Hb') as (a' & Ha' & ->).
  unfold inverse_frequency. rewrite Hzero.
  assert (Hc : 1 <= inject_Z (Z.of_nat (label_count y (Z.of_nat b')))).
  { change 1 with (inject_Z 1). rewrite <- Zle_Qle. lia. }
  set (c := inject_Z (Z.of_nat (label_count y (Z.of_nat b')))) in *.
  assert (He : epsilon == 1 # 1000000) by reflexivity.
  change (inject_Z (Z.of_nat 0)) with 0.
  assert (E1 : 300000 * (1 / (c + epsilon) * a' / s)
               == 300000 * (a' / (c + epsilon)) / s) by (field; split; lra).
  assert (E2 : 1 / (0 + epsilon) * a / s == 1000000 * a / s)
    by (rewrite He; field; lra).
  rewrite E1, E2. apply div_lt_div_pos; [exact Hs |].
  assert (Hq : a' / (c + epsilon) < 3) by (apply Qlt_shift_div_r; lra).
  lra.
Qed.

Lemma absent_bin_weight_witness :
  exists w wb wb',
    class_weights [0; 0; 4]%Z = Returned w /\
    nth_error w 1 = Some wb /\ nth_error w 0 = Some wb' /\
    300000 * wb' < wb.
Proof.
  destruct (class_weights [0; 0; 4]%Z) as [w |] eqn:Hw;
    [| vm_compute in Hw; discriminate Hw].
  destruct w as [| wb' [| wb w']]; try (vm_compute in Hw; discriminate Hw).
  exists (wb' :: wb :: w'), wb, wb'.
  split; [reflexivity |]. split; [reflexivity |]. split; [reflexivity |].
  apply (absent_bin_weight [0; 0; 4]%Z (wb' :: wb :: w') 1 0 wb wb').
  - intros l [<- | [<- | [<- | []]]]; lia.
  - right. right. left. reflexivity.
  - exact Hw.
  - reflexivity.
  - reflexivity.
  - reflexivity.
  - vm_compute. lia.
Defined.

(** ** The report against the labelling *)

(** The labelling of training and the report of prediction agree.  The
    expected magnitude a prediction reports lies strictly inside the
    reported range, and [prepare_sequences] would label a reading of
    that magnitude with the predicted bin. *)
Theorem expected_magnitude_in_bin {E : LSTM} (file : option (StateDict E))
  (sequence_data : pyvalue) (report : Report) :
  predict_magnitude file sequence_data = Prediction report ->
  mag_bin (expectedMagnitude report) = Z.of_nat (magnitudeBin report) /\
  inject_Z (fst (magnitudeRange report)) < expectedMagnitude report
  < inject_Z (snd (magnitudeRange report)).
Proof.
  intros Hres. apply predict_magnitude_prediction in Hres.
  destruct (predict_body_inv _ _ _ Hres) as (sd & t & Hable).
  destruct (predict_body_returns _ _ _ _ Hable)
    as (logits & report' & _ & _ & Hbody & _ & _ & Hlt & _ & Hrange & _ & Hexp).
  rewrite Hres in Hbody. injection Hbody as <-.
  destruct (lookup_magnitude_range _ Hlt) as (range & risk & Hlook & _ & Hcase).
  rewrite Hlook in Hrange. injection Hrange as Hrange.
  rewrite Hexp, <- Hrange.
  destruct (magnitudeBin report) as [| [| [| [| [| bin]]]]];
    try contradiction; destruct Hcase as (-> & _);
    (split; [vm_compute; reflexivity | split; reflexivity]).
Qed.

Lemma expected_magnitude_in_bin_witness :
  exists report,
    predict_magnitude (Some Demo.parameters) (window_rows [1; 1; 1])
    = Prediction report /\
    mag_bin (expectedMagnitude report) = Z.of_nat (magnitudeBin report).
Proof.
  destruct (predict_rows_returns Demo.parameters [1; 1; 1])
    as (report & Hres); [reflexivity | discriminate |].
  exists report. split; [exact Hres |].
  apply (expected_magnitude_in_bin _ _ _ Hres).
Defined.

(** The confidence of a prediction is at least one fifth and less than
    one: it is the largest of five positive probabilities that sum
    to 1 (in exact arithmetic). *)
Theorem confidence_bounds {E : LSTM} (file : option (StateDict E))
  (sequence_data : pyvalue) (report : Report) :
  predict_magnitude file sequence_data = Prediction report ->
  (1 / 5 <= confidence report < 1)%R.
Proof.
  intros Hres. apply predict_magnitude_prediction in Hres.
  destruct (predict_body_inv _ _ _ Hres) as (sd & t & Hable).
  destruct (predict_body_returns _ _ _ _ Hable)
    as (logits & report' & _ & Hlen & Hbody & _ & _ & _ & Hmax & _).
  rewrite Hres in Hbody. injection Hbody as <-.
  assert (Hne : logits <> []) by (intros ->; discriminate Hlen).
  destruct (softmax_distribution logits Hne) as (Hpos & Hsum).
  assert (Hlen' : List.length (softmax logits) = 5%nat)
    by (unfold softmax; rewrite length_map; exact Hlen).
  destruct (softmax logits) as [| p0 [| p1 [| p2 [| p3 [| p4 [| p5 ps]]]]]];
    try discriminate Hlen'.
  cbn [Torch.max fold_left] in Hmax. injection Hmax as <-.
  unfold total in Hsum. cbn [fold_right] in Hsum.
  assert (H0 := Hpos p0 (or_introl eq_refl)).
  assert (H1 := Hpos p1 (or_intror (or_introl eq_refl))).
  assert (H2 := Hpos p2 (or_intror (or_intror (or_introl eq_refl)))).
  assert (H3 := Hpos p3 (or_intror (or_intror (or_intror (or_introl eq_refl))))).
  assert (H4 := Hpos p4 (or_intror (or_intror (or_intror (or_intror
                                                (or_introl eq_refl)))))).
  unfold Rmax. repeat destruct (Rle_dec _ _); lra.
Qed.

Lemma confidence_bounds_witness :
  exists report,
    predict_magnitude (Some Demo.parameters) (window_rows [1; 1; 1])
    = Prediction report /\
    (1 / 5 <= confidence report < 1)%R.
Proof.
  destruct (predict_rows_returns Demo.parameters [1; 1; 1])
    as (report & Hres); [reflexivity | discriminate |].
  exists report. split; [exact Hres |].
  apply (confidence_bounds _ _ _ Hres).
Defined.

(** ** The order of the rows *)

Section RowOrder.

Context {A : Type} (key : A -> Z).

Let key_le (a b : A) : Prop := (key a <= key b)%Z.

Lemma key_le_transitive : Relations_1.Transitive key_le.
Proof.
  intros a b c Hab Hbc. unfold key_le in *. lia.
Qed.

Lemma same_key_same_row (l : list A) (a b : A) :
  NoDup (map key l) -> In a l -> In b l -> key a = key b -> a = b.
Proof.
  induction l as [| c l IH]; intros Hnd Ha Hb Hk; [destruct Ha |].
  cbn [map] in Hnd. inversion Hnd as [| k ks Hnotin Hnd']; subst.
  destruct Ha as [-> | Ha], Hb as [-> | Hb].
  - reflexivity.
  - exfalso. apply Hnotin. rewrite Hk. apply in_map, Hb.
  - exfalso. apply Hnotin. rewrite <- Hk. apply in_map, Ha.
  - apply IH; assumption.
Qed.

(** Rows with distinct keys have one ascending arrangement. *)
Lemma sorted_arrangement_unique (l1 l2 : list A) :
  Sorted key_le l1 -> Sorted key_le l2 -> Permutation l1 l2 ->
  NoDup (map key l1) -> l1 = l2.
Proof.
  revert l2. induction l1 as [| a1 l1 IH]; intros l2 Hs1 Hs2 Hperm Hnd.
  - apply Permutation_nil in Hperm. congruence.
  - destruct l2 as [| a2 l2].
    { apply Permutation_sym, Permutation_nil in Hperm. discriminate. }
    assert (Hss1 := Sorted_StronglySorted key_le_transitive Hs1).
    assert (Hss2 := Sorted_StronglySorted key_le_transitive Hs2).
    inversion Hss1 as [| x1 xs1 Hss1' Hall1]; subst.
    inversion Hss2 as [| x2 xs2 Hss2' Hall2]; subst.
    rewrite Forall_forall in Hall1, Hall2.
    assert (Hin2 : In a2 (a1 :: l1)).
    { apply (Permutation_in a2 (Permutation_sym Hperm)). left. reflexivity. }
    assert (Hin1 : In a1 (a2 :: l2)).
    { apply (Permutation_in a1 Hperm). left. reflexivity. }
    assert (Hk : key a1 = key a2).
    { assert (H12 : (key a1 <= key a2)%Z).
      { destruct Hin2 as [<- | Hin2]; [lia | apply Hall1, Hin2]. }
      assert (H21 : (key a2 <= key a1)%Z).
      { destruct Hin1 as [<- | Hin1]; [lia | apply Hall2, Hin1]. }
      lia. }
    assert (Heq : a1 = a2).
    { apply (same_key_same_row (a1 :: l1)); try assumption.
      left. reflexivity. }
    subst a2. f_equal.
    apply IH.
    + inversion Hs1; assumption.
    + inversion Hs2; assumption.
    + apply (Permutation_cons_inv Hperm).
    + cbn [map] in Hnd. inversion Hnd; assumption.
Qed.

Lemma sort_values_row_order (df df' : list A) :
  NoDup (map key df) -> Permutation df df' ->
  Pandas.sort_values key df = Pandas.sort_values key df'.
Proof.
  intros Hnd Hperm.
  apply sorted_arrangement_unique.
  - apply sort_values_sorted.
  - apply sort_values_sorted.
  - eapply perm_trans; [apply sort_values_permutation |].
    eapply perm_trans; [exact Hperm |].
    apply Permutation_sym, sort_values_permutation.
  - eapply Permutation_NoDup; [| exact Hnd].
    apply Permutation_map, Permutation_sym, sort_values_permutation.
Qed.

End RowOrder.

(** [prepare_sequences] does not depend on the order of the rows it is
    given.  When the timestamps of the table are distinct, any
    rearrangement of its rows yields the same windows, labels and scaler,
    or the same exception: the rows are sorted by time before anything
    else is done with them. *)
Theorem prepare_sequences_row_order (df df' : DataFrame) (L : nat) :
  NoDup (map time df) -> Permutation df df' ->
  prepare_sequences df L = prepare_sequences df' L.
Proof.
  intros Hnd Hperm. unfold prepare_sequences.
  rewrite (sort_values_row_order time df df' Hnd Hperm). reflexivity.
Qed.

Lemma prepare_sequences_row_order_witness :
  prepare_sequences [Demo.row 0 3; Demo.row 1 5; Demo.row 2 8] 1
  = prepare_sequences [Demo.row 1 5; Demo.row 2 8; Demo.row 0 3] 1.
Proof.
  apply prepare_sequences_row_order.
  - cbn [map time Demo.row].
    repeat constructor; cbn [In]; intuition discriminate.
  - apply Permutation_cons_append
      with (l := [Demo.row 1 5; Demo.row 2 8]) (x := Demo.row 0 3).
Defined.

(** ** The scaler *)

Lemma fold_min_attained (l : list Q) (x : Q) :
  exists v, In v (x :: l) /\ fold_left Qmin l x == v.
Proof.
  revert x. induction l as [| a l IH]; intros x; cbn [fold_left].
  - exists x. split; [left; reflexivity | reflexivity].
  - destruct (IH (Qmin x a)) as (v & [<- | Hv] & Heq).
    + destruct (Q.min_dec x a) as [Hm | Hm].
      * exists x. split; [left; reflexivity | rewrite Heq; exact Hm].
      * exists a. split; [right; left; reflexivity | rewrite Heq; exact Hm].
    + exists v. split; [right; right; exact Hv | exact Heq].
Qed.

Lemma fold_max_attained (l : list Q) (x : Q) :
  exists v, In v (x :: l) /\ fold_left Qmax l x == v.
Proof.
  revert x. induction l as [| a l IH]; intros x; cbn [fold_left].
  - exists x. split; [left; reflexivity | reflexivity].
  - destruct (IH (Qmax x a)) as (v & [<- | Hv] & Heq).
    + destruct (Q.max_dec x a) as [Hm | Hm].
      * exists x. split; [left; reflexivity | rewrite Heq; exact Hm].
      * exists a. split; [right; left; reflexivity | rewrite Heq; exact Hm].
    + exists v. split; [right; right; exact Hv | exact Heq].
Qed.

(** The scaler is fitted on the whole table.  The scaler that
    [prepare_sequences] returns has as its minimum and maximum the
    smallest and the largest magnitude among all rows of the table, the
    rows that end up in the validation split included; it maps the
    smallest magnitude to 0, the largest to 1 if the two differ, and it
    keeps the order of magnitudes. *)
Theorem scaler_spans_table (df : DataFrame) (L : nat) (X : list (list Q))
  (y : list Z) (scaler : Sklearn.MinMaxScaler) :
  prepare_sequences df L = Returned (X, y, scaler) ->
  let lo := Sklearn.data_min_ scaler in
  let hi := Sklearn.data_max_ scaler in
  (forall r, In r df -> lo <= magnitude r <= hi) /\
  (exists r, In r df /\ magnitude r == lo) /\
  (exists r, In r df /\ magnitude r == hi) /\
  Sklearn.transform scaler lo == 0 /\
  (~ lo == hi -> Sklearn.transform scaler hi == 1) /\
  (forall m m', m <= m' ->
                Sklearn.transform scaler m <= Sklearn.transform scaler m').
Proof.
  intros Hprep lo hi.
  destruct (prepared_inv _ _ _ _ _ Hprep) as (_ & _ & Hfit & _).
  set (mags := map magnitude (Pandas.sort_values time df)) in *.
  assert (Hrows : forall v, In v mags <-> exists r, In r df /\ magnitude r = v).
  { intros v. unfold mags. rewrite in_map_iff. split.
    - intros (r & Hr & Hin). exists r. split; [| exact Hr].
      eapply Permutation_in; [apply sort_values_permutation | exact Hin].
    - intros (r & Hin & Hr). exists r. split; [exact Hr |].
      eapply Permutation_in;
        [apply Permutation_sym, sort_values_permutation | exact Hin]. }
  destruct mags as [| x rest] eqn:Em; [discriminate Hfit |].
  cbn [Sklearn.fit] in Hfit. injection Hfit as Hs.
  assert (Hlo : lo = fold_left Qmin rest x) by (unfold lo; rewrite <- Hs; reflexivity).
  assert (Hhi : hi = fold_left Qmax rest x) by (unfold hi; rewrite <- Hs; reflexivity).
  destruct (fold_min_lower rest x) as (Hmin_x & Hmin).
  destruct (fold_max_upper rest x) as (Hmax_x & Hmax).
  rewrite <- Hlo in Hmin_x, Hmin. rewrite <- Hhi in Hmax_x, Hmax.
  assert (Hle : lo <= hi) by lra.
  assert (Hscale : 0 < Sklearn.scale_ scaler /\
                   (~ lo == hi -> Sklearn.scale_ scaler * (hi - lo) == 1)).
  { rewrite <- Hs. cbn [Sklearn.scale_]. rewrite <- Hlo, <- Hhi.
    destruct (Qeq_bool (hi - lo) 0) eqn:Ez.
    - apply Qeq_bool_iff in Ez. split; [reflexivity |].
      intros Hne. exfalso. apply Hne. lra.
    - apply Qeq_bool_neq in Ez.
      assert (Hpos : 0 < hi - lo).
      { destruct (Qlt_le_dec 0 (hi - lo)) as [H | H]; [exact H |].
        exfalso. apply Ez. lra. }
      split.
      + apply Qlt_shift_div_l; lra.
      + intros _. field. lra. }
  destruct Hscale as (Hsc & Hunit).
  assert (Hmin_ : Sklearn.min_ scaler == 0 - lo * Sklearn.scale_ scaler).
  { rewrite <- Hs. cbn [Sklearn.min_ Sklearn.scale_]. rewrite <- Hlo, <- Hhi.
    reflexivity. }
  split; [| split; [| split; [| split; [| split]]]].
  - intros r Hr.
    assert (Hin : In (magnitude r) (x :: rest))
      by (apply Hrows; exists r; split; [exact Hr | reflexivity]).
    destruct Hin as [<- | Hin]; [lra |].
    specialize (Hmin _ Hin). specialize (Hmax _ Hin). lra.
  - destruct (fold_min_attained rest x) as (v & Hv & Heq).
    apply Hrows in Hv. destruct Hv as (r & Hr & <-).
    exists r. split; [exact Hr |]. rewrite Hlo, Heq. reflexivity.
  - destruct (fold_max_attained rest x) as (v & Hv & Heq).
    apply Hrows in Hv. destruct Hv as (r & Hr & <-).
    exists r. split; [exact Hr |]. rewrite Hhi, Heq. reflexivity.
  - unfold Sklearn.transform. rewrite Hmin_. ring.
  - intros Hne. unfold Sklearn.transform. rewrite Hmin_.
    rewrite <- (Hunit Hne). ring.
  - intros m m' Hm. unfold Sklearn.transform.
    apply Qplus_le_compat; [| lra].
    apply Qmult_le_compat_r; [exact Hm | lra].
Qed.

Lemma scaler_spans_table_witness :
  exists X y scaler,
    prepare_sequences [Demo.row 0 3; Demo.row 1 5; Demo.row 2 8] 1
    = Returned (X, y, scaler) /\
    Sklearn.transform scaler (Sklearn.data_min_ scaler) == 0.
Proof.
  destruct (prepare_sequences [Demo.row 0 3; Demo.row 1 5; Demo.row 2 8] 1)
    as [[[X y] scaler] | e] eqn:Hprep; [| vm_compute in Hprep; discriminate Hprep].
  exists X, y, scaler. split; [reflexivity |].
  apply (scaler_spans_table _ _ _ _ _ Hprep).
Defined.

(** ** The seam between training and validation *)

(** The validation split is not disjoint from the training split.  With
    at least two windows, the first validation window is the last
    training window shifted by one reading: nine of its ten entries are
    entries of that training window, and its tenth is the scaled
    magnitude of the reading whose bin is the last training label. *)
Theorem train_val_overlap (df : DataFrame) (X : list (list Q)) (y : list Z)
  (scaler : Sklearn.MinMaxScaler) :
  prepare_sequences df seq_length = Returned (X, y, scaler) ->
  (2 <= List.length X)%nat ->
  let train := fst (train_val_split X y) in
  let val := snd (train_val_split X y) in
  let last_idx := (QuakeDataset_len train - 1)%nat in
  exists w w' r,
    nth_error (ds_X train) last_idx = Some w /\
    nth_error (ds_X val) 0 = Some w' /\
    (forall j, (j < 9)%nat -> nth_error w (S j) = nth_error w' j) /\
    In r df /\
    nth_error w' 9 = Some (Sklearn.transform scaler (magnitude r)) /\
    nth_error (ds_y train) last_idx = Some (mag_bin (magnitude r)).
Proof.
  intros Hprep Hmany train val last_idx.
  destruct (prepared_windows_length _ _ _ _ _ Hprep) as (_ & Hy & _).
  set (k := (List.length X * 4 / 5)%nat).
  assert (Hk : (1 <= k < List.length X)%nat).
  { unfold k.
    pose proof (Nat.div_mod_eq (List.length X * 4) 5) as Hdm.
    pose proof (Nat.mod_upper_bound (List.length X * 4) 5) as Hub.
    lia. }
  assert (Hlast : last_idx = (k - 1)%nat).
  { unfold last_idx, train, train_val_split, QuakeDataset_len, QuakeDataset_init.
    cbn [fst ds_X]. fold k. rewrite length_firstn. lia. }
  assert (HXtrain : nth_error (ds_X train) last_idx = nth_error X (k - 1)).
  { rewrite Hlast. unfold train, train_val_split, QuakeDataset_init.
    cbn [fst ds_X]. fold k. rewrite nth_error_firstn.
    replace (k - 1 <? k)%nat with true by (symmetry; apply Nat.ltb_lt; lia).
    reflexivity. }
  assert (Hytrain : nth_error (ds_y train) last_idx = nth_error y (k - 1)).
  { rewrite Hlast. unfold train, train_val_split, QuakeDataset_init.
    cbn [fst ds_y]. fold k. rewrite nth_error_firstn.
    replace (k - 1 <? k)%nat with true by (symmetry; apply Nat.ltb_lt; lia).
    reflexivity. }
  assert (HXval : nth_error (ds_X val) 0 = nth_error X (S (k - 1))).
  { unfold val, train_val_split, QuakeDataset_init.
    cbn [snd ds_X]. fold k. rewrite nth_error_skipn.
    f_equal. lia. }
  destruct (nth_error X (k - 1)) as [w |] eqn:Ew;
    [| apply nth_error_None in Ew; lia].
  destruct (nth_error X (S (k - 1))) as [w' |] eqn:Ew';
    [| apply nth_error_None in Ew'; lia].
  destruct (windows_shift df seq_length X y scaler (k - 1) w w' Hprep Ew Ew')
    as (Hshift & r & Hr & Hentry & Hlabel).
  exists w, w', r.
  split; [exact HXtrain |]. split; [exact HXval |].
  split; [intros j Hj; apply Hshift; unfold seq_length; lia |].
  split; [exact Hr |]. split; [exact Hentry |].
  rewrite Hytrain. exact Hlabel.
Qed.

Lemma train_val_overlap_witness :
  exists X y scaler w w',
    prepare_sequences (Demo.constant_table 30 3) seq_length
    = Returned (X, y, scaler) /\
    nth_error (ds_X (fst (train_val_split X y))) 15 = Some w /\
    nth_error (ds_X (snd (train_val_split X y))) 0 = Some w' /\
    nth_error w 1 = nth_error w' 0.
Proof.
  destruct (constant_table_prepared 3 0%Z) as (X & scaler & _ & Hprep & HX);
    [right; split; reflexivity |].
  destruct (train_val_overlap _ _ _ _ Hprep)
    as (w & w' & r & Hw & Hw' & Hshift & _); [lia |].
  exists X, (repeat 0%Z 20), scaler, w, w'.
  split; [exact Hprep |].
  unfold QuakeDataset_len, train_val_split, QuakeDataset_init in Hw.
  cbn [fst ds_X] in Hw. rewrite length_firstn, HX in Hw.
  split.
  { unfold train_val_split, QuakeDataset_init. cbn [fst ds_X].
    rewrite HX. exact Hw. }
  split; [exact Hw' |].
  apply Hshift. lia.
Defined.

(** ** Stopping before the cap *)

Section EarlyStop.

Context {E : LSTM} (T : Trainer E) (train val : QuakeDataset).
Context (weights : list Q) (file : option (StateDict E)).

Let init : LoopState T := loop_init T weights file.
Let final : LoopState T := train_loop max_epochs train val init.

(** When the loop stops before the epoch cap, the checkpoint is the model
    it stopped with.  The last epoch then is the only one whose recall
    reached 0.95, so it is the epoch of the last [torch.save]: the file
    holds the final parameters and [best_recall] is the final recall. *)
Theorem early_stop_checkpoint :
  (st_epoch final < 100)%nat ->
  95 # 100 <= st_recall final /\
  st_best_recall final = st_recall final /\
  last (st_saves final) 0%nat = st_epoch final /\
  st_checkpoint final = Some (state_dict T (st_trainer final)) /\
  forall j, (j < st_epoch final)%nat ->
            recall_at train val init j < 95 # 100.
Proof.
  intros Hearly.
  destruct (train_loop_exits T train val weights file)
    as (n & Hn & Hrun & Hep & Hbefore & Hexit).
  fold init in Hrun, Hep, Hbefore, Hexit. fold final in Hrun, Hep, Hexit.
  rewrite Hep in *. clearbody final.
  apply loop_cond_false in Hexit. destruct Hexit as [Hstop | Hcap];
    [| rewrite Hep in Hcap; lia].
  assert (Hprior : forall j, (j < n)%nat ->
                             recall_at train val init j < 95 # 100).
  { intros j Hj. specialize (Hbefore j Hj).
    apply loop_cond_true in Hbefore. apply Hbefore. }
  split; [exact Hstop |].
  destruct (checkpoint_origin T train val weights file n)
    as [(_ & _ & _ & Hnone) | (k & Hk & Hlast & Hc & Hbest & _ & Hmax & _)].
  - exfalso. destruct n as [| n].
    + rewrite Hrun in Hstop. change (95 # 100 <= 0) in Hstop. lra.
    + assert (H := Hnone (S n) (conj (le_n_S _ _ (Nat.le_0_l n)) (le_n _))).
      unfold recall_at in H. fold init in H. rewrite <- Hrun in H. lra.
  - assert (Hkn : k = n).
    { destruct (Nat.eq_dec k n) as [Heq | Hne]; [exact Heq | exfalso].
      assert (Hlt : (k < n)%nat) by lia.
      specialize (Hprior k Hlt).
      assert (Hn1 : (1 <= n <= n)%nat) by lia.
      specialize (Hmax n Hn1).
      change (recall_at train val init n <= recall_at train val init k) in Hmax.
      assert (Hrn : recall_at train val init n = st_recall final)
        by (rewrite Hrun; reflexivity).
      rewrite Hrn in Hmax. lra. }
    rewrite Hkn in Hlast, Hc, Hbest.
    split; [rewrite Hrun; exact Hbest |].
    split; [rewrite Hrun; exact Hlast |].
    split; [rewrite Hrun; exact Hc |].
    exact Hprior.
Qed.

End EarlyStop.

Lemma early_stop_checkpoint_witness :
  let final := train_loop max_epochs Demo.no_data Demo.no_data
                 (loop_init (Demo.scripted Demo.rising) [] None) in
  st_epoch final = 4%nat /\
  st_checkpoint final = Some Demo.parameters.
Proof.
  cbv zeta. split; [vm_compute; reflexivity |].
  destruct (early_stop_checkpoint (Demo.scripted Demo.rising)
              Demo.no_data Demo.no_data [] None) as (_ & _ & _ & Hc & _).
  - vm_compute. lia.
  - exact Hc.
Defined.

(** ** The weights when only bin 0 is present *)

(** When every training label is 0, the single count is stretched over
    the five amplification factors and cancels in the normalisation: the
    class weights are the amplification factors divided by their sum 8.7,
    whatever the number of labels (exact arithmetic). *)
Theorem class_weights_single_bin (y : list Z) :
  y <> [] -> (forall l, In l y -> l = 0%Z) ->
  exists w0 w1 w2 w3 w4,
    class_weights y = Returned [w0; w1; w2; w3; w4] /\
    w0 == 10 # 87 /\ w1 == 12 # 87 /\ w2 == 15 # 87 /\
    w3 == 20 # 87 /\ w4 == 30 # 87.
Proof.
  intros Hne Hzero.
  assert (Hmax : Numpy.amax y = 0%Z).
  { destruct y as [| l y']; [contradiction |].
    apply amax_of_top; [lia | | ].
    - rewrite (Hzero l) by (left; reflexivity). left. reflexivity.
    - intros l' Hl'. rewrite (Hzero l' Hl'). lia. }
  unfold class_weights.
  rewrite bincount_nonneg;
    [| exact Hne | intros l Hl; rewrite (Hzero l Hl); lia].
  rewrite Hmax. cbn [Z.to_nat seq map bind Nat.add].
  set (inv := 1 / (inject_Z (Z.of_nat (count_occ Z.eq_dec y (Z.of_nat 0)))
                   + epsilon)).
  assert (Hinv : 0 < inv).
  { unfold inv.
    assert (Hc := count_Q_nonneg (count_occ Z.eq_dec y (Z.of_nat 0))).
    assert (He := epsilon_pos).
    apply Qlt_shift_div_l; lra. }
  unfold Numpy.multiply, amplification.
  cbn [List.length Nat.eqb map bind].
  unfold Numpy.sum. cbn [fold_left].
  do 5 eexists. split; [reflexivity |].
  repeat split; field; lra.
Qed.

Lemma class_weights_single_bin_witness :
  exists w, class_weights [0; 0; 0]%Z = Returned w /\ List.length w = 5%nat.
Proof.
  destruct (class_weights_single_bin [0; 0; 0]%Z)
    as (w0 & w1 & w2 & w3 & w4 & Hw & _).
  - discriminate.
  - intros l [<- | [<- | [<- | []]]]; reflexivity.
  - exists [w0; w1; w2; w3; w4]. split; [exact Hw | reflexivity].
Defined.
